(** * SmartOutfitRecommender: a shallow embedding of [industry4.py]

    The development follows the Python source function by function.
    Strings are Rocq strings (ASCII text), Python lists are lists, the
    ordered dictionaries [OCCASION_STYLES] and [OCCASION_SYNONYMS] are
    association lists in source order, the global [USER_DB] is a finite map,
    and the calls to [random] are threaded through a state-and-error monad
    whose state is the random source.

    What the embedding fixes:
    - a Python [set] of strings is a duplicate-free list iterated in
      insertion order; where a result depends on the order in which the
      process lists a set, that order is a parameter
      ([recommend_outfits_listed]);
    - a wardrobe record and a preferences dictionary hold all the keys the
      engine reads;
    - the wall clock is an argument of [recommend_outfits];
    - the colour library is outside the repository: the test
      "distance below 15" on two sRGB triples is a parameter of the engine;
    - the [print] calls are left out. *)

From Stdlib Require Import String Ascii List Bool Arith ZArith Lia.
From Stdlib Require Import FunctionalExtensionality.
From stdpp Require Import gmap strings.
Import ListNotations.
Local Open Scope string_scope.
Local Open Scope list_scope.
Local Open Scope nat_scope.

(** ** Text helpers: [str.lower], [in], [str.replace] *)

Module Text.

Definition in_range (lo hi : nat) (c : ascii) : bool :=
  let n := nat_of_ascii c in Nat.leb lo n && Nat.leb n hi.

Definition lower_char (c : ascii) : ascii :=
  if in_range 65 90 c then ascii_of_nat (nat_of_ascii c + 32) else c.

(** [prompt.lower()] on ASCII text. *)
Fixpoint lower (s : string) : string :=
  match s with
  | EmptyString => EmptyString
  | String c s' => String (lower_char c) (lower s')
  end.

(** [\w] of [re] restricted to ASCII: letters, digits and the underscore. *)
Definition is_word (c : ascii) : bool :=
  in_range 48 57 c || in_range 65 90 c || in_range 97 122 c
  || Nat.eqb (nat_of_ascii c) 95.

(** [\s] of [re] restricted to ASCII. *)
Definition is_space (c : ascii) : bool :=
  in_range 9 13 c || in_range 28 32 c.

(** [\b]: a position is a word boundary when exactly one of its two
    neighbours is a word character; the ends of the text count as
    non-word. *)
Definition is_word_opt (c : option ascii) : bool :=
  match c with Some c => is_word c | None => false end.

Definition word_boundary (before after : option ascii) : bool :=
  xorb (is_word_opt before) (is_word_opt after).

Definition head (s : string) : option ascii :=
  match s with EmptyString => None | String c _ => Some c end.

Fixpoint last (s : string) : option ascii :=
  match s with
  | EmptyString => None
  | String c EmptyString => Some c
  | String _ s' => last s'
  end.

Fixpoint drop (n : nat) (s : string) : string :=
  match n, s with
  | S k, String _ s' => drop k s'
  | _, _ => s
  end.

Fixpoint take_while (p : ascii -> bool) (s : string) : string :=
  match s with
  | String c s' => if p c then String c (take_while p s') else EmptyString
  | EmptyString => EmptyString
  end.

Fixpoint drop_while (p : ascii -> bool) (s : string) : string :=
  match s with
  | String c s' => if p c then drop_while p s' else s
  | EmptyString => EmptyString
  end.

(** [sub in s] for Python strings. *)
Fixpoint contains (sub s : string) : bool :=
  String.prefix sub s
  || match s with
     | EmptyString => false
     | String _ s' => contains sub s'
     end.

(** [s.replace(old, new)] for a non-empty [old] (every call site of the
    source passes a non-empty literal): occurrences are replaced from left
    to right without overlap.  [skip] counts the characters of an
    occurrence that was already replaced and still has to be passed. *)
Fixpoint replace_from (old new : string) (skip : nat) (s : string) : string :=
  match s with
  | EmptyString => EmptyString
  | String c s' =>
      match skip with
      | S k => replace_from old new k s'
      | O =>
          if String.prefix old s
          then new ++ replace_from old new (String.length old - 1) s'
          else String c (replace_from old new 0 s')
      end
  end.

Definition replace (old new s : string) : string := replace_from old new 0 s.

(** [x in l] for a list (or set) of strings. *)
Definition mem (x : string) (l : list string) : bool :=
  existsb (String.eqb x) l.

(** A Python [set] of strings is a duplicate-free list; [set_add] is
    [s.add(x)], [set_update] is [s.update(xs)] and [to_set] is [set(xs)].
    The iteration order of a Python set is not specified; the model
    iterates in insertion order. *)
Definition set_add (x : string) (s : list string) : list string :=
  if mem x s then s else s ++ [x].

Definition set_update (xs : list string) (s : list string) : list string :=
  fold_left (fun acc x => set_add x acc) xs s.

Definition to_set (xs : list string) : list string := set_update xs [].

(** [", ".join(xs)] *)
Fixpoint join (sep : string) (xs : list string) : string :=
  match xs with
  | [] => EmptyString
  | [x] => x
  | x :: xs' => x ++ sep ++ join sep xs'
  end.

End Text.

(** ** The two regular expressions of [extract_prompt_requirements] *)

Module Regex.
Import Text.

(** [\s+(\w+)] at the start of [s]: the captured word and the number of
    characters consumed.  Both quantifiers are greedy and nothing follows
    the group, so the only possible match takes the whole run of blanks and
    then the whole run of word characters. *)
Definition match_blank_word (s : string) : option (string * nat) :=
  let ws := take_while is_space s in
  let w := take_while is_word (drop_while is_space s) in
  if Nat.ltb 0 (String.length ws) && Nat.ltb 0 (String.length w)
  then Some (w, String.length ws + String.length w)
  else None.

(** [(?:a1|a2|...)\s+(\w+)] at the start of [s]: alternatives are tried in
    order, and an alternative whose continuation fails is abandoned for the
    next one. *)
Fixpoint try_intro (alts : list string) (s : string) : option (string * nat) :=
  match alts with
  | [] => None
  | a :: alts' =>
      if String.prefix a s then
        match match_blank_word (drop (String.length a) s) with
        | Some (w, n) => Some (w, String.length a + n)
        | None => try_intro alts' s
        end
      else try_intro alts' s
  end.

(** [re.findall(r'\b(?:a1|a2|...)\s+(\w+)', s)]: the scan moves from left
    to right; after a match it resumes at the end of the match.  [before]
    is the character to the left of the current position and [skip] the
    number of characters of the last match that are still to be passed. *)
Fixpoint findall_intro (alts : list string) (before : option ascii)
    (skip : nat) (s : string) : list string :=
  match s with
  | EmptyString => []
  | String c s' =>
      match skip with
      | S k => findall_intro alts (Some c) k s'
      | O =>
          if word_boundary before (Some c) then
            match try_intro alts s with
            | Some (w, n) => w :: findall_intro alts (Some c) (n - 1) s'
            | None => findall_intro alts (Some c) 0 s'
            end
          else findall_intro alts (Some c) 0 s'
      end
  end.

(** [(k1|k2|...)\b] at the start of [s]: the first key, in order, that is a
    prefix of [s] and ends at a word boundary. *)
Fixpoint try_key (keys : list string) (s : string) : option string :=
  match keys with
  | [] => None
  | k :: keys' =>
      if String.prefix k s
         && word_boundary (last k) (head (drop (String.length k) s))
      then Some k
      else try_key keys' s
  end.

(** [re.findall(r'\b(k1|k2|...)\b', s)] for non-empty keys. *)
Fixpoint findall_key (keys : list string) (before : option ascii)
    (skip : nat) (s : string) : list string :=
  match s with
  | EmptyString => []
  | String c s' =>
      match skip with
      | S k => findall_key keys (Some c) k s'
      | O =>
          if word_boundary before (Some c) then
            match try_key keys s with
            | Some k => k :: findall_key keys (Some c) (String.length k - 1) s'
            | None => findall_key keys (Some c) 0 s'
            end
          else findall_key keys (Some c) 0 s'
      end
  end.

End Regex.

(** ** Static tables *)

Definition OCCASION_STYLES : list (string * list string) :=
  [ ("interview", ["formal"]);
    ("business meeting", ["formal"]);
    ("office", ["formal"; "semi-formal"]);
    ("office party", ["semi-formal"; "party"]);
    ("office ethnic day", ["ethnic"]);
    ("college ethnic day", ["ethnic"]);
    ("ethnic day", ["ethnic"]);
    ("wedding", ["party"]);
    ("ritual", ["ethnic"; "traditional"]);
    ("home ritual", ["ethnic"; "traditional"]);
    ("ceremony", ["ethnic"; "formal"]);
    ("temple visit", ["ethnic"; "traditional"]);
    ("birthday party", ["party"]);
    ("party", ["party"]);
    ("casual outing", ["casual"; "shopping"; "picnic"]);
    ("picnic", ["casual"; "comfortable"; "picnic"; "shopping"]);
    ("shopping", ["casual"; "shopping"; "picnic"]);
    ("date", ["party"; "smart-casual"]);
    ("beach party", ["party"; "summerwear"]);
    ("kids party", ["colorful"; "casual"]);
    ("kids outing", ["casual"; "comfortable"]);
    ("family outing", ["casual"; "semi-formal"]);
    ("family gathering", ["casual"; "ethnic"; "semi-formal"]);
    ("school", ["uniform"; "casual"]);
    ("school function", ["ethnic"; "formal"]);
    ("tuition", ["casual"]);
    ("cooking", ["comfortable"]);
    ("swimming", ["swim"; "swimwear"; "swiming"]);
    ("sports", ["gym"; "yoga"; "camping"; "trekking"; "running"; "hiking"]);
    ("gym", ["yoga"; "hiking"; "camping"; "trekking"; "running"]);
    ("exercise", ["gym"; "yoga"; "hiking"; "camping"; "trekking"; "running"]);
    ("yoga", ["gym"; "hiking"; "camping"; "trekking"; "running"]);
    ("meditation", ["yoga"]);
    ("hiking", ["gym"; "yoga"; "camping"; "trekking"; "running"]);
    ("camping", ["gym"; "yoga"; "hiking"; "trekking"; "running"]);
    ("trekking", ["gym"; "yoga"; "camping"; "hiking"; "running"]);
    ("mountain climbing",
       ["gym"; "yoga"; "camping"; "trekking"; "running"; "hiking"]);
    ("gardening", ["casual"; "camping"]) ].

Definition OCCASION_SYNONYMS : list (string * list string) :=
  [ ("party", ["birthday party"; "beach party"; "wedding"; "date";
               "office party"; "officeparty"]);
    ("gym", ["yoga"; "hiking"; "camping"; "trekking"; "running"; "exercise"]);
    ("shopping", ["mall"; "buying clothes"; "store visit"]);
    ("picnic", ["outdoor fun"; "park outing"]) ].

(** [OCCASION_STYLES.get(occ, [occ])] *)
Fixpoint styles_get (table : list (string * list string)) (occ : string)
    : list string :=
  match table with
  | [] => [occ]
  | (k, v) :: table' => if String.eqb k occ then v else styles_get table' occ
  end.

(** ** [extract_prompt_requirements] *)

Module Prompt.
Import Text Regex.

Definition color_intro : list string :=
  ["in"; "with"; "wearing"; "colour"; "color"; "shade of"].

Definition avoid_intro : list string :=
  ["avoid"; "not"; "no"; "don't want"; "skip"].

Definition office_ethnic_patterns : list string :=
  ["office ethnic"; "office traditional"; "office cultural";
   "office ethnic day"; "office traditional day"; "office cultural day"].

Definition ethnic_words : list string := ["ethnic"; "traditional"; "cultural"].

Definition outing_words : list string :=
  ["outing"; "walk"; "park"; "shopping"; "picnic"].

(** The near-white normalisation applied to every forbidden word. *)
Definition normalize_avoid (a : string) : string :=
  replace "beige" "white"
    (replace "ivory" "white"
      (replace "cream" "white"
        (replace "off-white" "white" (replace "offwhite" "white" a)))).

(** The swim normalisation applied to the lower-cased prompt. *)
Definition normalize_swim (p : string) : string :=
  replace " swim" " swimming"
    (replace "swim " "swimming " (replace "swiming" "swimming" p)).

(** The prompt as the occasion matching sees it. *)
Definition normalized (prompt : string) : string :=
  normalize_swim (lower prompt).

(** [for k in OCCASION_STYLES: if k not in occasions and k in prompt:
    occasions.append(k)] *)
Definition add_substring_keys (p : string) (occasions : list string)
    : list string :=
  fold_left
    (fun occs k => if negb (mem k occs) && contains k p then occs ++ [k] else occs)
    (map fst OCCASION_STYLES) occasions.

(** First synonym loop: a canonical occasion is added for every alias that
    occurs in the prompt. *)
Definition expand_by_prompt (p : string) (expanded : list string)
    : list string :=
  fold_left
    (fun e kv =>
       fold_left (fun e syn => if contains syn p then set_add (fst kv) e else e)
                 (snd kv) e)
    OCCASION_SYNONYMS expanded.

(** Second synonym loop: a canonical occasion is added for every matched
    occasion that is listed as one of its aliases. *)
Definition expand_by_occasion (occasions expanded : list string)
    : list string :=
  fold_left
    (fun e occ =>
       fold_left (fun e kv => if mem occ (snd kv) then set_add (fst kv) e else e)
                 OCCASION_SYNONYMS e)
    occasions expanded.

Definition force_ethnic (p : string) : bool :=
  existsb (fun pat => contains pat p) office_ethnic_patterns.

Definition force_ethnic_general (p : string) : bool :=
  existsb (fun w => contains w p) ethnic_words.

Definition outing_like (p : string) : bool :=
  existsb (fun w => contains w p) outing_words.

Definition is_empty {A} (l : list A) : bool :=
  match l with [] => true | _ => false end.

(** The set [expanded] just before the final [expanded or ["general"]]. *)
Definition expanded_occasions (p : string) : list string :=
  let occasions := findall_key (map fst OCCASION_STYLES) None 0 p in
  let occasions := add_substring_keys p occasions in
  let expanded := to_set occasions in
  let expanded := expand_by_prompt p expanded in
  let expanded := expand_by_occasion occasions expanded in
  let expanded :=
    if force_ethnic p || force_ethnic_general p
    then set_update ["ethnic day"; "ethnic"; "traditional"] expanded
    else expanded in
  if is_empty expanded then
    if outing_like p then set_add "casual" expanded else expanded
  else expanded.

Record Requirements := {
  colors : list string;
  occasions : list string;
  avoid : list string;
  needs_layer : bool
}.

Definition extract_prompt_requirements (prompt : string) : Requirements :=
  let prompt := lower prompt in
  let colors := findall_intro color_intro None 0 prompt in
  let avoid := findall_intro avoid_intro None 0 prompt in
  let avoid := map normalize_avoid avoid in
  let prompt := normalize_swim prompt in
  let expanded := expanded_occasions prompt in
  let needs_layer := contains "layer" prompt || contains "cold" prompt in
  {| colors := to_set colors;
     occasions := if is_empty expanded then ["general"] else expanded;
     avoid := to_set avoid;
     needs_layer := needs_layer |}.

End Prompt.

(** ** Data model *)

Record WardrobeItem := {
  name : string;
  category : string;
  tags : list string;
  age_group : string;
  gender : string;
  image : string
}.

(** The [preferences] dictionary of a user: the two keys the engine reads. *)
Record UserProfile := {
  profile_age_group : string;
  profile_gender : string
}.

Record UserRecord := {
  password_hash : string;
  preferences : UserProfile
}.

Inductive OutfitType := one_piece | multi_piece | swimwear | none.

Record Outfit := {
  type : OutfitType;
  items : list WardrobeItem
}.

Record Context := {
  time : string;
  season : string
}.

Record RecommendationResult := {
  user : string;
  occasion : string;
  context : Context;
  outfits : list Outfit
}.

(** What [datetime.datetime.now()] is read for. *)
Record Clock := {
  hour : nat;
  month : nat
}.

Definition get_context (now : Clock) : Context :=
  {| time := if Nat.ltb (hour now) 12 then "morning"
             else if Nat.ltb (hour now) 17 then "afternoon" else "evening";
     season := if existsb (Nat.eqb (month now)) [12; 1; 2] then "winter"
               else if existsb (Nat.eqb (month now)) [3; 4; 5] then "summer"
               else "monsoon" |}.

(** ** Exceptions and the random source *)

Inductive exn :=
  | ValueError (msg : string)
  | KeyError (key : string)
  | ZeroDivisionError
  | IndexError.

(** The random source is an oracle: an infinite tape of draws and the
    position of the next one.  Seeding the generator identically means
    starting from the same [Random] value. *)
Record Random := {
  tape : nat -> nat;
  cursor : nat
}.

(** A computation reads and advances the random source and either raises
    or returns a value. *)
Definition M (A : Type) : Type := Random -> (exn + A) * Random.

Definition ret {A} (a : A) : M A := fun r => (inr a, r).

Definition raise {A} (e : exn) : M A := fun r => (inl e, r).

Definition bind {A B} (m : M A) (k : A -> M B) : M B :=
  fun r =>
    match m r with
    | (inl e, r') => (inl e, r')
    | (inr a, r') => k a r'
    end.

Notation "x <- m ;; k" := (bind m (fun x => k))
  (at level 100, m at next level, right associativity).

(** [random._randbelow(n)] for a positive [n]. *)
Definition randbelow (n : nat) : M nat :=
  fun r => (inr (tape r (cursor r) mod n),
            {| tape := tape r; cursor := S (cursor r) |}).

(** [random.choice(seq)]: [IndexError] on an empty sequence. *)
Definition choice {A} (l : list A) : M A :=
  match l with
  | [] => raise IndexError
  | x :: _ => i <- randbelow (length l) ;; ret (nth i l x)
  end.

(** [x[i], x[j] = x[j], x[i]] *)
Definition swap {A} (i j : nat) (l : list A) : list A :=
  match l !! i, l !! j with
  | Some a, Some b => <[i := b]> (<[j := a]> l)
  | _, _ => l
  end.

(** [random.shuffle(x)]: [for i in reversed(range(1, len(x))):
    j = randbelow(i + 1); x[i], x[j] = x[j], x[i]]. *)
Fixpoint shuffle_from {A} (i : nat) (l : list A) : M (list A) :=
  match i with
  | O => ret l
  | S i' => j <- randbelow (S i) ;; shuffle_from i' (swap i j l)
  end.

Definition shuffle {A} (l : list A) : M (list A) :=
  shuffle_from (length l - 1) l.

(** ** Loops

    A loop body either goes on with a new state ([inl]) or leaves the loop
    ([inr]): a [break] leaves with the state, a [return] with the value
    returned. *)

Fixpoint loop {A S R} (l : list A) (body : A -> S -> S + R) (s : S) : S + R :=
  match l with
  | [] => inl s
  | x :: l' =>
      match body x s with
      | inl s' => loop l' body s'
      | inr v => inr v
      end
  end.

Fixpoint loopM {A S R} (l : list A) (body : A -> S -> M (S + R)) (s : S)
    : M (S + R) :=
  match l with
  | [] => ret (inl s)
  | x :: l' =>
      r <- body x s ;;
      match r with
      | inl s' => loopM l' body s'
      | inr v => ret (inr v)
      end
  end.

(** The state after a loop that can only be left by [break]. *)
Definition after_break {S} (r : S + S) : S :=
  match r with inl s => s | inr s => s end.

(** [while cond(s): s = body(s)], for a loop of at most [fuel] rounds. *)
Fixpoint whileM {S} (fuel : nat) (cond : S -> bool) (body : S -> M S) (s : S)
    : M S :=
  match fuel with
  | O => ret s
  | S fuel' =>
      if cond s then s' <- body s ;; whileM fuel' cond body s' else ret s
  end.

(** ** The credential store *)

Section Credentials.

(** [hashlib.sha256(password.encode()).hexdigest()] *)
Variable hash_password : string -> string.

Definition default_preferences : UserProfile :=
  {| profile_age_group := "adult"; profile_gender := "unisex" |}.

Definition register_user (USER_DB : gmap string UserRecord)
    (username password : string) (prefs : option UserProfile)
    : exn + gmap string UserRecord :=
  match USER_DB !! username with
  | Some _ => inl (ValueError "User already exists")
  | None =>
      inr (<[username :=
              {| password_hash := hash_password password;
                 preferences := match prefs with
                                | Some p => p
                                | None => default_preferences
                                end |}]> USER_DB)
  end.

Definition authenticate_user (USER_DB : gmap string UserRecord)
    (username password : string) : bool :=
  match USER_DB !! username with
  | Some u => String.eqb (password_hash u) (hash_password password)
  | None => false
  end.

End Credentials.

Definition get_user_preferences (USER_DB : gmap string UserRecord)
    (username : string) : exn + UserProfile :=
  match USER_DB !! username with
  | Some u => inr (preferences u)
  | None => inl (KeyError username)
  end.

Definition set_user_preferences (USER_DB : gmap string UserRecord)
    (username : string) (prefs : UserProfile) : gmap string UserRecord :=
  match USER_DB !! username with
  | Some u =>
      <[username := {| password_hash := password_hash u;
                       preferences := prefs |}]> USER_DB
  | None => USER_DB
  end.

(** ** Colours *)

Definition RGB : Type := nat * nat * nat.

Definition css_colors : list (string * RGB) :=
  [ ("red", (255, 0, 0)); ("blue", (0, 0, 255)); ("green", (0, 128, 0));
    ("black", (0, 0, 0)); ("white", (255, 255, 255));
    ("pink", (255, 192, 203)); ("gray", (128, 128, 128));
    ("yellow", (255, 255, 0)); ("purple", (128, 0, 128));
    ("orange", (255, 165, 0)); ("brown", (139, 69, 19));
    ("navy", (0, 0, 128)); ("gold", (255, 215, 0)) ].

Fixpoint rgb_get (table : list (string * RGB)) (color : string) : RGB :=
  match table with
  | [] => (128, 128, 128)
  | (k, v) :: table' => if String.eqb k color then v else rgb_get table' color
  end.

Definition to_rgb (color : string) : RGB := rgb_get css_colors color.

Definition color_terms : list string :=
  ["red"; "blue"; "green"; "black"; "white"; "pink"; "gray"; "yellow";
   "purple"; "orange"; "brown"; "navy"; "gold"; "cream"; "ivory";
   "offwhite"; "beige"].

(** The threshold test that holds exactly for identical triples, whose
    distance is zero. *)
Definition same_rgb (a b : RGB) : bool :=
  match a, b with
  | (r1, g1, b1), (r2, g2, b2) =>
      Nat.eqb r1 r2 && Nat.eqb g1 g2 && Nat.eqb b1 b2
  end.

(** ** The recommendation engine *)

(** Python truth of a list. *)
Definition nonempty {A} (l : list A) : bool :=
  match l with [] => false | _ => true end.

Definition mk (ty : OutfitType) (its : list WardrobeItem) : Outfit :=
  {| type := ty; items := its |}.

(** [while len(outfits) < 3: outfits.append({"type": "none", "items": []})] *)
Definition pad_none (outfits : list Outfit) : list Outfit :=
  outfits ++ repeat (mk none []) (3 - length outfits).

(** [any(tag in wanted for tag in item_tags)] *)
Definition has_tag_in (item_tags wanted : list string) : bool :=
  existsb (fun tag => Text.mem tag wanted) item_tags.

(** Truth of the intersection [set(a) & set(b)]. *)
Definition sets_meet (a b : list string) : bool :=
  existsb (fun x => Text.mem x b) a.

(** [set(a) == set(b)] *)
Definition same_set (a b : list string) : bool :=
  forallb (fun x => Text.mem x b) a && forallb (fun x => Text.mem x a) b.

Definition mem_pair (p : string * string) (l : list (string * string)) : bool :=
  existsb (fun q => String.eqb (fst p) (fst q) && String.eqb (snd p) (snd q)) l.

Definition add_pair (p : string * string) (l : list (string * string))
    : list (string * string) :=
  if mem_pair p l then l else l ++ [p].

(** [l[:n]] for a Python integer [n], which may be negative. *)
Definition slice_to {A} (n : Z) (l : list A) : list A :=
  if (0 <=? n)%Z then firstn (Z.to_nat n) l
  else firstn (length l - Z.to_nat (- n)) l.

Definition active_occasions : list string :=
  ["gym"; "hiking"; "trekking"; "yoga"; "exercise"; "camping"].

Definition party_priority_tags : list string :=
  ["party"; "semi-formal"; "summerwear"; "beach party"].

Definition fallback_tags : list string := ["formal"; "office party"].

Definition ethnic_tags : list string := ["ethnic"; "traditional"].

Definition formal_occasions : list string :=
  ["office"; "business meeting"; "interview"].

Definition exclude_one_piece_tags : list string :=
  ["ritual"; "ceremony"; "ethnic"; "traditional"].

Definition exclude_one_piece_casual : list string :=
  ["casual"; "comfortable"; "picnic"; "shopping"].

(** [style_tags]: the styles of every occasion, then the occasions. *)
Definition style_tags_of (occasions : list string) : list string :=
  Text.set_update occasions
    (fold_left
       (fun st occ => Text.set_update (styles_get OCCASION_STYLES occ) st)
       occasions []).

Definition _filter_by_profile (its : list WardrobeItem) (profile : UserProfile)
    : list WardrobeItem :=
  List.filter
    (fun item =>
       Text.mem (age_group item) ["all"; profile_age_group profile]
       && Text.mem (gender item) ["unisex"; profile_gender profile])
    its.

(** The closure [filter_category(cat, gender)] over the eligible items; an
    empty [g] is a false [gender] argument. *)
Definition filter_category (its : list WardrobeItem) (cat g : string)
    : list WardrobeItem :=
  let cat_items := List.filter (fun i => String.eqb (category i) cat) its in
  if negb (String.eqb g "")
  then List.filter (fun i => Text.mem (gender i) [g; "unisex"]) cat_items
  else cat_items.

Definition is_swimming (occasions style_tags : list string) : bool :=
  Text.mem "swimming" occasions || Text.mem "swimming" style_tags.

Definition is_active (occasions : list string) : bool :=
  existsb (fun occ => Text.mem occ active_occasions) occasions.

Definition strictly_formal (occasions : list string) : bool :=
  forallb (fun occ => Text.mem occ formal_occasions) occasions.

Definition is_party (occasions : list string) : bool :=
  Text.mem "party" occasions || Text.mem "office party" occasions
  || Text.mem "beach party" occasions.

Definition is_ethnic (style_tags : list string) : bool :=
  sets_meet ethnic_tags style_tags.

(** [pairs_to_use[idx % len(pairs_to_use)]] *)
Definition index_mod {A} (l : list A) (idx : nat) : M A :=
  match l with
  | [] => raise ZeroDivisionError
  | d :: _ => ret (nth (idx mod length l) l d)
  end.

Section Engine.

(** [delta_e_cie2000(lab1, lab2) < 15] for the Lab images of two sRGB
    triples: the colour library is outside the repository. *)
Variable delta_e_below_15 : RGB -> RGB -> bool.

(** [self._color_distance(color1, color2) < 15] *)
Definition _color_distance_below_15 (color1 color2 : string) : bool :=
  delta_e_below_15 (to_rgb color1) (to_rgb color2).

Definition _color_match (item_tags requested_colors forbidden_colors : list string)
    : bool :=
  let color_tags := List.filter (fun tag => Text.mem tag color_terms) item_tags in
  if existsb
       (fun tag =>
          existsb (fun fc => _color_distance_below_15 tag fc) forbidden_colors)
       color_tags
  then false
  else if nonempty requested_colors
  then existsb
         (fun rc => existsb (fun tag => _color_distance_below_15 tag rc) color_tags)
         requested_colors
  else true.

Definition _filter_items (wardrobe_db : list WardrobeItem)
    (profile : UserProfile) (occasions colors avoid_colors : list string)
    : list WardrobeItem :=
  let style_tags :=
    fold_left
      (fun st occ => Text.set_update (styles_get OCCASION_STYLES occ) st)
      occasions [] in
  let its := _filter_by_profile wardrobe_db profile in
  let filtered :=
    List.filter
      (fun i => existsb (fun tag => Text.mem tag (tags i)) style_tags) its in
  if nonempty colors then
    let color_filtered :=
      List.filter (fun i => _color_match (tags i) colors avoid_colors) filtered in
    if nonempty color_filtered then color_filtered else filtered
  else filtered.

(** The closure [color_matched(items)]. *)
Definition color_matched (colors avoid : list string) (its : list WardrobeItem)
    : list WardrobeItem :=
  if nonempty colors
  then List.filter (fun i => _color_match (tags i) colors avoid) its
  else [].

(** *** Swimming *)

(** The body of the loop of lines 248-253. *)
Definition swim_fill_step (sw : WardrobeItem) (s : list Outfit * list string)
    : list Outfit * list string + list Outfit * list string :=
  let '(outfits, used_names) := s in
  let '(outfits, used_names) :=
    if negb (Text.mem (name sw) used_names)
    then (outfits ++ [mk swimwear [sw]], Text.set_add (name sw) used_names)
    else (outfits, used_names) in
  if length outfits =? 3
  then inr (outfits, used_names)
  else inl (outfits, used_names).

Definition swimming_branch (its : list WardrobeItem) (g : string)
    (colors avoid : list string) : list Outfit :=
  let swimwear_items := filter_category its "swimwear" g in
  let color_matched_swimwear :=
    if nonempty colors
    then List.filter (fun i => _color_match (tags i) colors avoid) swimwear_items
    else [] in
  let outfits := map (fun sw => mk swimwear [sw]) color_matched_swimwear in
  let outfits :=
    if length outfits <? 3 then
      let used_names := Text.to_set (map name color_matched_swimwear) in
      fst (after_break (loop swimwear_items swim_fill_step (outfits, used_names)))
    else outfits in
  pad_none outfits.

(** *** Candidate tops and bottoms *)

(** Lines 274-286: the style filter, with the whole category as fallback. *)
Definition style_filtered (style_tags : list string) (pool : list WardrobeItem)
    : list WardrobeItem :=
  let strict_casual_filter :=
    sets_meet style_tags ["casual"; "comfortable"; "picnic"; "shopping"] in
  let found :=
    if strict_casual_filter
    then List.filter (fun t => sets_meet (tags t) style_tags) pool
    else List.filter (fun t => has_tag_in (tags t) style_tags) pool in
  if nonempty found then found else pool.

(** Lines 289-291: the forbidden-colour filter. *)
Definition avoid_filtered (avoid : list string) (pool : list WardrobeItem)
    : list WardrobeItem :=
  if nonempty avoid
  then List.filter (fun t => _color_match (tags t) [] avoid) pool
  else pool.

(** Lines 294-302: the ethnic narrowing, kept only when it finds something. *)
Definition ethnic_filtered (style_tags : list string) (pool : list WardrobeItem)
    : list WardrobeItem :=
  if Text.mem "ethnic" style_tags || Text.mem "traditional" style_tags then
    let found := List.filter (fun t => has_tag_in (tags t) ethnic_tags) pool in
    if nonempty found then found else pool
  else pool.

(** *** Active occasions (lines 314-350) *)

Definition active_relevant (style_tags : list string)
    (pool : list WardrobeItem) : list WardrobeItem :=
  List.filter
    (fun t =>
       existsb
         (fun tag => Text.mem tag style_tags || Text.mem tag active_occasions)
         (tags t))
    pool.

Definition active_branch (tops bottoms : list WardrobeItem)
    (style_tags colors avoid : list string) : M (list Outfit) :=
  let relevant_tops := active_relevant style_tags tops in
  let relevant_bottoms := active_relevant style_tags bottoms in
  let all_pairs := list_prod relevant_tops relevant_bottoms in
  let pairs_to_use :=
    if nonempty colors then
      let color_pairs :=
        List.filter
          (fun p => _color_match (tags (fst p)) colors avoid
                    || _color_match (tags (snd p)) colors avoid)
          all_pairs in
      if nonempty color_pairs then color_pairs else all_pairs
    else all_pairs in
  s <- whileM 3
         (fun s : list Outfit * nat => length (fst s) <? 3)
         (fun s =>
            p <- index_mod pairs_to_use (snd s) ;;
            ret (fst s ++ [mk multi_piece [fst p; snd p]], S (snd s)))
         ([], 0) ;;
  ret (firstn 3 (fst s)).

(** *** Party occasions (lines 364-467) *)

Definition party_candidates (tops bottoms tops_all bottoms_all : list WardrobeItem)
    (style_tags : list string) : list WardrobeItem * list WardrobeItem :=
  let party_tops :=
    List.filter (fun t => has_tag_in (tags t) party_priority_tags) tops in
  let party_bottoms :=
    List.filter (fun b => has_tag_in (tags b) party_priority_tags) bottoms in
  let party_tops :=
    if nonempty party_tops then party_tops
    else List.filter (fun t => has_tag_in (tags t) fallback_tags) tops in
  let party_bottoms :=
    if nonempty party_bottoms then party_bottoms
    else List.filter (fun b => has_tag_in (tags b) fallback_tags) bottoms in
  if (negb (nonempty party_tops) || negb (nonempty party_bottoms))
     && is_ethnic style_tags
  then (List.filter (fun t => has_tag_in (tags t) ethnic_tags) tops_all,
        List.filter (fun b => has_tag_in (tags b) ethnic_tags) bottoms_all)
  else (party_tops, party_bottoms).

(** [party_tops_color] and [party_bottoms_color], kept when non-empty. *)
Definition color_narrowed (colors avoid : list string) (pool : list WardrobeItem)
    : list WardrobeItem :=
  let found := List.filter (fun t => _color_match (tags t) colors avoid) pool in
  if nonempty found then found else pool.

(** [if layer_needed and layers: combo.append(random.choice(layers))] *)
Definition with_random_layer (layer_needed : bool) (layers : list WardrobeItem)
    (combo : list WardrobeItem) : M (list WardrobeItem) :=
  if layer_needed && nonempty layers
  then lyr <- choice layers ;; ret (combo ++ [lyr])
  else ret combo.

(** Lines 397-408: one-piece outfits first, then one top against the
    bottoms in turn. *)
Definition party_one_piece_outfits (one_pieces_color party_tops party_bottoms
    : list WardrobeItem) : list Outfit :=
  let outfits := map (fun op => mk one_piece [op]) (firstn 3 one_pieces_color) in
  let needed := 3 - length outfits in
  match party_tops, party_bottoms with
  | top :: _, b0 :: _ =>
      if 0 <? needed then
        outfits
        ++ map (fun i =>
                  mk multi_piece
                     [top; nth (i mod length party_bottoms) party_bottoms b0])
               (seq 0 needed)
      else outfits
  | _, _ => outfits
  end.

(** Lines 417-459. *)
Definition party_pair_outfits (layer_needed : bool)
    (layers party_tops party_bottoms tops_all bottoms_all : list WardrobeItem)
    (style_tags : list string) : M (list Outfit) :=
  outfits <-
    match party_tops, party_bottoms with
    | top :: _, _ :: _ =>
        r <- loopM party_bottoms
               (fun b (s : list Outfit * list string) =>
                  let '(outfits, used_bottoms) := s in
                  if negb (Text.mem (name b) used_bottoms) then
                    combo <- with_random_layer layer_needed layers [top; b] ;;
                    let outfits := outfits ++ [mk multi_piece combo] in
                    let used_bottoms := Text.set_add (name b) used_bottoms in
                    if length outfits =? 3
                    then ret (inr (outfits, used_bottoms))
                    else ret (inl (outfits, used_bottoms))
                  else ret (inl (outfits, used_bottoms)))
               ([], []) ;;
        let outfits := fst (after_break r) in
        whileM (3 - length outfits)
          (fun outfits : list Outfit => length outfits <? 3)
          (fun outfits =>
             b <- choice party_bottoms ;;
             combo <- with_random_layer layer_needed layers [top; b] ;;
             ret (outfits ++ [mk multi_piece combo]))
          outfits
    | _, _ => ret []
    end ;;
  let outfits :=
    if negb (nonempty outfits) && is_ethnic style_tags then
      let fallback_tops :=
        List.filter (fun t => has_tag_in (tags t) ethnic_tags) tops_all in
      let fallback_bottoms :=
        List.filter (fun b => has_tag_in (tags b) ethnic_tags) bottoms_all in
      after_break
        (loop (combine fallback_tops fallback_bottoms)
           (fun p (outfits : list Outfit) =>
              let outfits := outfits ++ [mk multi_piece [fst p; snd p]] in
              if length outfits =? 3 then inr outfits else inl outfits)
           outfits)
    else outfits in
  if negb (nonempty outfits)
  then ret (repeat (mk none []) 3)
  else ret outfits.

(** *** The default composition (lines 469-714) *)

Record PairState := {
  combos : list Outfit;
  used_tops : list string;
  used_bottoms : list string;
  used_pairs : list (string * string)
}.

Definition add_combo (st : PairState) (combo : list WardrobeItem) : PairState :=
  {| combos := combos st ++ [mk multi_piece combo];
     used_tops := used_tops st;
     used_bottoms := used_bottoms st;
     used_pairs := used_pairs st |}.

Definition mark_top (t : WardrobeItem) (st : PairState) : PairState :=
  {| combos := combos st;
     used_tops := Text.set_add (name t) (used_tops st);
     used_bottoms := used_bottoms st;
     used_pairs := used_pairs st |}.

Definition mark_bottom (b : WardrobeItem) (st : PairState) : PairState :=
  {| combos := combos st;
     used_tops := used_tops st;
     used_bottoms := Text.set_add (name b) (used_bottoms st);
     used_pairs := used_pairs st |}.

Definition mark_pair (t b : WardrobeItem) (st : PairState) : PairState :=
  {| combos := combos st;
     used_tops := used_tops st;
     used_bottoms := used_bottoms st;
     used_pairs := add_pair (name t, name b) (used_pairs st) |}.

(** [len(combos) >= n] *)
Definition reached (n : Z) (st : PairState) : bool :=
  (n <=? Z.of_nat (length (combos st)))%Z.

Section Default.

Variables (colors avoid style_tags occasions : list string).
Variable layer_needed : bool.
Variable g : string.
Variables (its one_pieces layers tops bottoms : list WardrobeItem).

Definition one_pieces_color := color_matched colors avoid one_pieces.
Definition tops_color := color_matched colors avoid tops.
Definition bottoms_color := color_matched colors avoid bottoms.
Definition layers_color := color_matched colors avoid layers.

(** [self._color_match(x["tags"], colors, [])] *)
Definition wears_color (x : WardrobeItem) : bool :=
  _color_match (tags x) colors [].

(** Lines 483-502: one one-piece outfit for a female profile. *)
Definition one_piece_block (outfits : list Outfit) (used : list string)
    : M (list Outfit * list string) :=
  if String.eqb g "female" && nonempty one_pieces
     && negb (strictly_formal occasions)
     && negb (sets_meet exclude_one_piece_tags style_tags)
     && negb (sets_meet exclude_one_piece_casual style_tags)
  then
    let op_choices :=
      if nonempty one_pieces_color then one_pieces_color else one_pieces in
    op <- choice
            (List.filter (fun o => negb (Text.mem (name o) used)) op_choices) ;;
    let outfit := [op] in
    let used := Text.set_add (name op) used in
    p <- (if layer_needed && nonempty layers then
            let lyr_choices :=
              if nonempty layers_color then layers_color else layers in
            let avail_layers :=
              List.filter (fun l => negb (Text.mem (name l) used)) lyr_choices in
            if nonempty avail_layers then
              lyr <- choice avail_layers ;;
              ret (outfit ++ [lyr], Text.set_add (name lyr) used)
            else ret (outfit, used)
          else ret (outfit, used)) ;;
    ret (outfits ++ [mk one_piece (fst p)], snd p)
  else ret (outfits, used).

(** Lines 505-524: up to two layered outfits from the shuffled pairs. *)
Definition layered_block (outfits : list Outfit) : M (list Outfit) :=
  if layer_needed && nonempty tops && nonempty bottoms && nonempty layers then
    tb_pairs <- shuffle (list_prod tops bottoms) ;;
    r <- loopM tb_pairs
           (fun p (s : list Outfit * nat) =>
              let '(outfits, added) := s in
              let combo := [fst p; snd p] in
              let lyr_choices :=
                if nonempty layers_color then layers_color else layers in
              let avail_layers :=
                List.filter
                  (fun l => negb (Text.mem (name l) (map name combo)))
                  lyr_choices in
              combo <- (if nonempty avail_layers
                        then lyr <- choice avail_layers ;; ret (combo ++ [lyr])
                        else ret combo) ;;
              let '(outfits, added) :=
                if negb (existsb
                           (fun o => same_set (map name combo)
                                              (map name (items o)))
                           outfits)
                then (outfits ++ [mk multi_piece combo], S added)
                else (outfits, added) in
              if 2 <=? added
              then ret (inr (outfits, added))
              else ret (inl (outfits, added)))
           (outfits, 0) ;;
    ret (fst (after_break r))
  else ret outfits.

(** The loop shared by both arms of lines 527-544. *)
Definition add_swimwear (swimwear_items : list WardrobeItem)
    (outfits : list Outfit) (used : list string) : list Outfit * list string :=
  after_break
    (loop swimwear_items
       (fun sw (s : list Outfit * list string) =>
          let '(outfits, used) := s in
          if negb (Text.mem (name sw) used) then
            let outfits := outfits ++ [mk swimwear [sw]] in
            let used := Text.set_add (name sw) used in
            if 3 <=? length outfits
            then inr (outfits, used)
            else inl (outfits, used)
          else inl (outfits, used))
       (outfits, used)).

Definition swimwear_block (outfits : list Outfit) (used : list string)
    : list Outfit * list string :=
  if is_swimming occasions style_tags then
    add_swimwear (filter_category its "swimwear" g) outfits used
  else
    let filtered :=
      List.filter (fun i => existsb (fun tag => Text.mem tag (tags i)) style_tags)
                  its in
    add_swimwear
      (List.filter (fun i => String.eqb (category i) "swimwear") filtered)
      outfits used.

(** *** [make_top_bottom_outfits] (lines 550-669) *)

Section MakeTopBottom.

Variables (top_list bottom_list layer_list : list WardrobeItem).
Variable n : Z.
Variable prefer_color : bool.

Definition maybe_add_layer (combo : list WardrobeItem)
    : M (list WardrobeItem) :=
  if layer_needed then
    let lyr_choices :=
      if nonempty layers_color then layers_color else layer_list in
    let avail_layers :=
      List.filter (fun l => negb (Text.mem (name l) (map name combo)))
                  lyr_choices in
    if nonempty avail_layers then
      let filtered_layers :=
        List.filter (fun l => has_tag_in (tags l) style_tags) avail_layers in
      let selected :=
        if nonempty filtered_layers then filtered_layers else avail_layers in
      lyr <- choice selected ;;
      ret (combo ++ [lyr])
    else ret combo
  else ret combo.

(** The end of a loop body that counts towards [n]: append the outfit and
    return from the function once [n] outfits are there. *)
Definition emit (st : PairState) (combo : list WardrobeItem)
    : M (PairState + list Outfit) :=
  combo <- maybe_add_layer combo ;;
  let st := add_combo st combo in
  if reached n st then ret (inr (combos st)) else ret (inl st).

(** Lines 566-579. *)
Definition color_tops_loop (st : PairState) : M (PairState + list Outfit) :=
  loopM tops_color
    (fun t st =>
       loopM bottom_list
         (fun b st =>
            if Text.mem (name b) (used_bottoms st)
               || mem_pair (name t, name b) (used_pairs st)
            then ret (inl st)
            else if negb (wears_color t || wears_color b) then ret (inl st)
            else emit (mark_pair t b (mark_bottom b st)) [t; b])
         st)
    st.

(** Lines 581-596. *)
Definition color_bottoms_loop (st : PairState) : M (PairState + list Outfit) :=
  loopM bottoms_color
    (fun b st =>
       if Text.mem (name b) (used_bottoms st) then ret (inl st)
       else
         loopM top_list
           (fun t st =>
              if mem_pair (name t, name b) (used_pairs st) then ret (inl st)
              else if negb (wears_color t || wears_color b) then ret (inl st)
              else emit (mark_pair t b (mark_bottom b st)) [t; b])
           st)
    st.

(** Lines 598-625: a single colour-matched top. *)
Definition single_top_phase (top : WardrobeItem) (st : PairState)
    : M (list Outfit) :=
  r <- loopM (bottoms_color ++ bottom_list)
         (fun b (s : PairState * list string) =>
            let '(st, bottom_used) := s in
            if Text.mem (name b) bottom_used then ret (inl s)
            else if mem_pair (name top, name b) (used_pairs st) then ret (inl s)
            else
              combo <- maybe_add_layer [top; b] ;;
              let st := add_combo (mark_pair top b st) combo in
              let bottom_used := Text.set_add (name b) bottom_used in
              if reached (n - 1) st
              then ret (inr (st, bottom_used))
              else ret (inl (st, bottom_used)))
         (st, []) ;;
  let st := fst (after_break r) in
  r <- loopM top_list
         (fun t st =>
            loopM bottom_list
              (fun b (st : PairState) =>
                 if mem_pair (name t, name b) (used_pairs st)
                    || String.eqb (name t) (name top)
                 then ret (inl st)
                 else if wears_color t then ret (inl st)
                 else
                   combo <- maybe_add_layer [t; b] ;;
                   ret (inr (slice_to n (combos (add_combo st combo)))))
              st)
         st ;;
  match r with
  | inr v => ret v
  | inl st => ret (slice_to n (combos st))
  end.

(** Lines 627-653: no colour requested. *)
Definition no_color_phase (st : PairState) : M (list Outfit) :=
  let st := {| combos := combos st; used_tops := [];
               used_bottoms := []; used_pairs := used_pairs st |} in
  r <- loopM top_list
         (fun t st =>
            loopM bottom_list
              (fun b st =>
                 if Text.mem (name t) (used_tops st)
                    || Text.mem (name b) (used_bottoms st)
                    || mem_pair (name t, name b) (used_pairs st)
                 then ret (inl st)
                 else emit (mark_pair t b (mark_bottom b (mark_top t st))) [t; b])
              st)
         st ;;
  match r with
  | inr v => ret v
  | inl st =>
      r <- loopM top_list
             (fun t st =>
                loopM bottom_list
                  (fun b st =>
                     if mem_pair (name t, name b) (used_pairs st)
                     then ret (inl st)
                     else emit st [t; b])
                  st)
             st ;;
      match r with
      | inr v => ret v
      | inl st => ret (combos st)
      end
  end.

(** Lines 655-669: pairs that wear none of the requested colours. *)
Definition other_color_phase (st : PairState) : M (list Outfit) :=
  r <- loopM top_list
         (fun t st =>
            loopM bottom_list
              (fun b st =>
                 if Text.mem (name b) (used_bottoms st)
                    || mem_pair (name t, name b) (used_pairs st)
                 then ret (inl st)
                 else if nonempty colors && (wears_color t || wears_color b)
                 then ret (inl st)
                 else emit (mark_pair t b (mark_bottom b st)) [t; b])
              st)
         st ;;
  match r with
  | inr v => ret v
  | inl st => ret (combos st)
  end.

Definition make_top_bottom_outfits : M (list Outfit) :=
  let st := {| combos := []; used_tops := [];
               used_bottoms := []; used_pairs := [] |} in
  r <- (if prefer_color && (nonempty tops_color || nonempty bottoms_color) then
          r <- color_tops_loop st ;;
          match r with
          | inr v => ret (inr v)
          | inl st => color_bottoms_loop st
          end
        else ret (inl st)) ;;
  match r with
  | inr v => ret v
  | inl st =>
      let later :=
        if negb (nonempty colors) then no_color_phase st
        else other_color_phase st in
      match tops_color with
      | [top] => if nonempty colors then single_top_phase top st else later
      | _ => later
      end
  end.

End MakeTopBottom.

(** Lines 683-705: new (top, bottom) pairs.  The source initialises
    [used_pairs] with a set of generator objects, none of which is equal to
    a tuple of names, so no pair is excluded at the start. *)
Definition reuse_block (outfits : list Outfit) : M (list Outfit) :=
  if length outfits <? 3 then
    r <- loopM tops
           (fun t (s : list Outfit * list (string * string)) =>
              r <- loopM bottoms
                     (fun b (s : list Outfit * list (string * string)) =>
                        let '(extra_outfits, used_pairs) := s in
                        let pair := (name t, name b) in
                        if negb (mem_pair pair used_pairs) then
                          combo <- with_random_layer layer_needed layers [t; b] ;;
                          let extra_outfits :=
                            extra_outfits ++ [mk multi_piece combo] in
                          let used_pairs := add_pair pair used_pairs in
                          if 3 <=? length outfits + length extra_outfits
                          then ret (inr (extra_outfits, used_pairs))
                          else ret (inl (extra_outfits, used_pairs))
                        else ret (inl s))
                     s ;;
              let s := after_break r in
              if 3 <=? length outfits + length (fst s)
              then ret (inr s)
              else ret (inl s))
           ([], []) ;;
    let extra_outfits := fst (after_break r) in
    ret (outfits ++ firstn (3 - length outfits) extra_outfits)
  else ret outfits.

(** Lines 708-714: random pairs until there are three outfits. *)
Definition random_fallback (outfits : list Outfit) : M (list Outfit) :=
  whileM (3 - length outfits)
    (fun outfits : list Outfit => length outfits <? 3)
    (fun outfits =>
       t <- choice tops ;;
       b <- choice bottoms ;;
       combo <- with_random_layer layer_needed layers [t; b] ;;
       ret (outfits ++ [mk multi_piece combo]))
    outfits.

(** Lines 717-763: the second handling of active occasions.  It sits behind
    the early return of [active_branch], which is taken under the same
    condition. *)
Definition late_active_block (outfits : list Outfit) : list Outfit :=
  let relevant pool :=
    List.filter
      (fun t =>
         existsb
           (fun tag => Text.mem tag active_occasions || Text.mem tag style_tags)
           (tags t))
      pool in
  let relevant_tops := relevant tops in
  let relevant_bottoms := relevant bottoms in
  let matches x := _color_match (tags x) colors avoid in
  let tops_color := List.filter matches relevant_tops in
  let bottoms_color := List.filter matches relevant_bottoms in
  let top_priority :=
    tops_color
    ++ List.filter (fun t => negb (Text.mem (name t) (map name tops_color)))
                   relevant_tops in
  let bottom_priority :=
    bottoms_color
    ++ List.filter (fun b => negb (Text.mem (name b) (map name bottoms_color)))
                   relevant_bottoms in
  let s :=
    after_break
      (loop top_priority
         (fun t (s : list Outfit * list string * list string) =>
            let s :=
              after_break
                (loop bottom_priority
                   (fun b (s : list Outfit * list string * list string) =>
                      let '(outfits, used_top, used_bottom) := s in
                      if (matches t || matches b)
                         && (negb (Text.mem (name t) used_top)
                             && negb (Text.mem (name b) used_bottom))
                      then inr (outfits ++ [mk multi_piece [t; b]],
                                Text.set_add (name t) used_top,
                                Text.set_add (name b) used_bottom)
                      else inl s)
                   s) in
            if 1 <=? length (fst (fst s)) then inr s else inl s)
         (outfits, [], [])) in
  let s :=
    after_break
      (loop relevant_tops
         (fun t (s : list Outfit * list string * list string) =>
            let s :=
              after_break
                (loop relevant_bottoms
                   (fun b (s : list Outfit * list string * list string) =>
                      let '(outfits, used_top, used_bottom) := s in
                      if negb (Text.mem (name t) used_top)
                         && negb (Text.mem (name b) used_bottom)
                      then
                        let s' := (outfits ++ [mk multi_piece [t; b]],
                                   Text.set_add (name t) used_top,
                                   Text.set_add (name b) used_bottom) in
                        if 3 <=? length (fst (fst s')) then inr s' else inl s'
                      else inl s)
                   s) in
            if 3 <=? length (fst (fst s)) then inr s else inl s)
         s) in
  firstn 3 (pad_none (fst (fst s))).

Definition default_branch : M (list Outfit) :=
  p <- one_piece_block [] [] ;;
  outfits <- layered_block (fst p) ;;
  let '(outfits, used) := swimwear_block outfits (snd p) in
  let needed := (3 - Z.of_nat (length outfits))%Z in
  combos <- make_top_bottom_outfits tops bottoms layers needed true ;;
  let outfits := outfits ++ combos in
  let needed := (3 - Z.of_nat (length outfits))%Z in
  outfits <- (if (0 <? needed)%Z then
                combos <- make_top_bottom_outfits tops bottoms layers needed false ;;
                ret (outfits ++ combos)
              else ret outfits) ;;
  outfits <- reuse_block outfits ;;
  outfits <- random_fallback outfits ;;
  if is_active occasions
  then ret (late_active_block outfits)
  else ret (firstn 3 outfits).

End Default.

(** *** [recommend_outfits] *)

(** Lines 270-302 for one category: style filter, forbidden-colour filter,
    ethnic narrowing. *)
Definition candidates (style_tags avoid : list string)
    (pool_all : list WardrobeItem) : list WardrobeItem :=
  ethnic_filtered style_tags
    (avoid_filtered avoid (style_filtered style_tags pool_all)).

(** Line 354: the condition of the strict formal filter. *)
Definition formal_only (occasions style_tags : list string) : bool :=
  strictly_formal occasions && negb (is_ethnic style_tags).

(** Lines 357-358. *)
Definition formal_filtered (occasions style_tags : list string)
    (pool : list WardrobeItem) : list WardrobeItem :=
  if formal_only occasions style_tags
  then List.filter (fun t => Text.mem "formal" (tags t)) pool
  else pool.

(** Line 267. *)
Definition one_pieces_of (its : list WardrobeItem) (g : string)
    : list WardrobeItem :=
  if String.eqb g "female"
  then filter_category its "one-piece" "female"
       ++ filter_category its "one_piece" "female"
  else [].

(** The body of [recommend_outfits] from line 217 on, up to the list of
    outfits that every [return] wraps into the result. *)
Definition compose_outfits (wardrobe_db : list WardrobeItem)
    (profile : UserProfile) (colors occasions avoid : list string)
    (layer_needed : bool) : M (list Outfit) :=
  let style_tags := style_tags_of occasions in
  let its := _filter_by_profile wardrobe_db profile in
  let g := profile_gender profile in
  if is_swimming occasions style_tags
  then ret (swimming_branch its g colors avoid)
  else
    let one_pieces := one_pieces_of its g in
    let tops_all := filter_category its "topwear" g in
    let bottoms_all := filter_category its "bottomwear" g in
    let tops := candidates style_tags avoid tops_all in
    let bottoms := candidates style_tags avoid bottoms_all in
    let layers := filter_category its "layer" g in
    if is_active occasions
    then active_branch tops bottoms style_tags colors avoid
    else
      let tops := formal_filtered occasions style_tags tops in
      let bottoms := formal_filtered occasions style_tags bottoms in
      if is_party occasions then
        let pc := party_candidates tops bottoms tops_all bottoms_all style_tags in
        if nonempty colors then
          let party_tops := color_narrowed colors avoid (fst pc) in
          let party_bottoms := color_narrowed colors avoid (snd pc) in
          let one_pieces_party :=
            List.filter (fun op => has_tag_in (tags op) party_priority_tags)
                        one_pieces in
          let one_pieces_color :=
            List.filter (fun op => _color_match (tags op) colors avoid)
                        one_pieces_party in
          if String.eqb g "female" && nonempty one_pieces_color
          then ret (party_one_piece_outfits one_pieces_color
                      party_tops party_bottoms)
          else party_pair_outfits layer_needed layers party_tops party_bottoms
                 tops_all bottoms_all style_tags
        else
          default_branch colors avoid style_tags occasions layer_needed g
            its one_pieces layers (fst pc) (snd pc)
      else
        default_branch colors avoid style_tags occasions layer_needed g
          its one_pieces layers tops bottoms.

Definition recommend_outfits (USER_DB : gmap string UserRecord)
    (wardrobe_db : list WardrobeItem) (now : Clock)
    (prompt username : string) : M RecommendationResult :=
  match USER_DB !! username with
  | None => raise (ValueError "User not authenticated")
  | Some _ =>
      match get_user_preferences USER_DB username with
      | inl e => raise e
      | inr profile =>
          let req := Prompt.extract_prompt_requirements prompt in
          let context := get_context now in
          let layer_needed :=
            Prompt.needs_layer req
            || (Text.contains "layer" prompt || Text.contains "cold" prompt
                || String.eqb (season context) "winter") in
          outfits <- compose_outfits wardrobe_db profile (Prompt.colors req)
                       (Prompt.occasions req) (Prompt.avoid req) layer_needed ;;
          ret {| user := username;
                 occasion := Text.join ", " (Prompt.occasions req);
                 context := context;
                 outfits := outfits |}
      end
  end.

End Engine.

(** ** Specifications of runs *)

(** Every run of [m] either raises an exception allowed by [E] or returns a
    value that satisfies [Q]. *)
Definition run_spec {A} (m : M A) (E : exn -> Prop) (Q : A -> Prop) : Prop :=
  forall r, match fst (m r) with inl e => E e | inr a => Q a end.

(** The post-condition of a loop body or of a loop: [I] when the loop goes
    on (or ends normally), [Q] when it is left. *)
Definition flow {S R} (I : S -> Prop) (Q : R -> Prop) (r : S + R) : Prop :=
  match r with inl s => I s | inr v => Q v end.

(** The exceptions the composition can raise. *)
Definition lookup_failure (e : exn) : Prop :=
  e = IndexError \/ e = ZeroDivisionError.

(** The outfits the engine can build from given kinds of tops [T], bottoms
    [B], layers [L], one-pieces [O] and swimwear [W]. *)
Inductive admissible (T B L O W : WardrobeItem -> Prop) : Outfit -> Prop :=
  | adm_none : admissible T B L O W (mk none [])
  | adm_swimwear sw : W sw -> admissible T B L O W (mk swimwear [sw])
  | adm_one_piece op : O op -> admissible T B L O W (mk one_piece [op])
  | adm_one_piece_layer op l :
      O op -> L l -> admissible T B L O W (mk one_piece [op; l])
  | adm_pair t b : T t -> B b -> admissible T B L O W (mk multi_piece [t; b])
  | adm_pair_layer t b l :
      T t -> B b -> L l -> admissible T B L O W (mk multi_piece [t; b; l]).

(** [self._filter_by_profile] as a property of one item. *)
Definition eligible (profile : UserProfile) (item : WardrobeItem) : Prop :=
  (age_group item = "all" \/ age_group item = profile_age_group profile)
  /\ (gender item = "unisex" \/ gender item = profile_gender profile).

(** An item wears a forbidden colour: one of its colour tags is within the
    threshold of one of the forbidden colours. *)
Definition wears_forbidden (near : RGB -> RGB -> bool) (avoid : list string)
    (item : WardrobeItem) : bool :=
  existsb
    (fun tag =>
       Text.mem tag color_terms
       && existsb (fun fc => _color_distance_below_15 near tag fc) avoid)
    (tags item).

(** The items of all outfits of a result. *)
Definition returned_items (res : RecommendationResult) : list WardrobeItem :=
  flat_map items (outfits res).

(** The prompt, as the occasion matching sees it, contains no occasion
    key, no synonym and no forced ethnic term. *)
Definition no_occasion_match (p : string) : bool :=
  negb (existsb (fun k => Text.contains k p) (map fst OCCASION_STYLES))
  && negb (existsb (fun syn => Text.contains syn p)
             (flat_map snd OCCASION_SYNONYMS))
  && negb (Prompt.force_ethnic p)
  && negb (Prompt.force_ethnic_general p).

(** An item of the wardrobe that passes the profile filter and belongs to
    one of the categories [cats]. *)
Definition sourced (wardrobe_db : list WardrobeItem) (profile : UserProfile)
    (cats : list string) (x : WardrobeItem) : Prop :=
  In x wardrobe_db /\ eligible profile x /\ In (category x) cats.

(** A top or a bottom: sourced from its category and, unless the prompt is
    a party prompt with an ethnic or traditional style, free of forbidden
    colours. *)
Definition sourced_pair_item (near : RGB -> RGB -> bool)
    (wardrobe_db : list WardrobeItem) (profile : UserProfile)
    (occasions avoid : list string) (cat : string) (x : WardrobeItem) : Prop :=
  sourced wardrobe_db profile [cat] x
  /\ (is_party occasions && is_ethnic (style_tags_of occasions) = false ->
      wears_forbidden near avoid x = false).

Definition well_sourced (near : RGB -> RGB -> bool)
    (wardrobe_db : list WardrobeItem) (profile : UserProfile)
    (occasions avoid : list string) : Outfit -> Prop :=
  admissible
    (sourced_pair_item near wardrobe_db profile occasions avoid "topwear")
    (sourced_pair_item near wardrobe_db profile occasions avoid "bottomwear")
    (sourced wardrobe_db profile ["layer"])
    (sourced wardrobe_db profile ["one-piece"; "one_piece"])
    (sourced wardrobe_db profile ["swimwear"]).

(** Lines 368-375 for one category: the party-tagged items, or the formal
    and office-party ones when there is none. *)
Definition party_pool (pool : list WardrobeItem) : list WardrobeItem :=
  let found :=
    List.filter (fun t => has_tag_in (tags t) party_priority_tags) pool in
  if nonempty found then found
  else List.filter (fun t => has_tag_in (tags t) fallback_tags) pool.

(** The call reaches line 378 and its condition holds: the party branch,
    with an ethnic or traditional style, has no party top or no party bottom
    left and turns to the whole categories [tops_all] and [bottoms_all],
    which no colour filter has seen. *)
Definition takes_ethnic_fallback (near : RGB -> RGB -> bool)
    (wardrobe_db : list WardrobeItem) (profile : UserProfile)
    (occasions avoid : list string) : bool :=
  let style_tags := style_tags_of occasions in
  let its := _filter_by_profile wardrobe_db profile in
  let g := profile_gender profile in
  let tops :=
    formal_filtered occasions style_tags
      (candidates near style_tags avoid (filter_category its "topwear" g)) in
  let bottoms :=
    formal_filtered occasions style_tags
      (candidates near style_tags avoid (filter_category its "bottomwear" g)) in
  negb (is_swimming occasions style_tags)
  && negb (is_active occasions)
  && is_party occasions
  && ((negb (nonempty (party_pool tops)) || negb (nonempty (party_pool bottoms)))
      && is_ethnic style_tags).

(** The swimwear the swimming branch chooses from. *)
Definition eligible_swimwear (wardrobe_db : list WardrobeItem)
    (profile : UserProfile) : list WardrobeItem :=
  filter_category (_filter_by_profile wardrobe_db profile) "swimwear"
    (profile_gender profile).

Definition swimwear_only (o : Outfit) : Prop :=
  type o = swimwear /\ length (items o) = 1.

(** What the swimming branch can return: an outfit of one swimwear item, or
    the none-type placeholder without items that pads the result. *)
Definition swimwear_or_placeholder (o : Outfit) : Prop :=
  swimwear_only o \/ (type o = none /\ items o = []).

(** What the fill loop of the swimming branch keeps: only swimwear
    outfits, and every used name is the name of an item already in an
    outfit. *)
Definition swim_fill_inv (s : list Outfit * list string) : Prop :=
  Forall swimwear_only (fst s)
  /\ forall n, Text.mem n (snd s) = true ->
               In n (map name (flat_map items (fst s))).

(** *** Three statements of the specification, as they are written *)

(** No returned item wears a forbidden colour. *)
Definition no_forbidden_item_claim (near : RGB -> RGB -> bool)
    (USER_DB : gmap string UserRecord) (wardrobe_db : list WardrobeItem)
    (now : Clock) (prompt username : string) (rng : Random) : Prop :=
  forall res rng',
    recommend_outfits near USER_DB wardrobe_db now prompt username rng
    = (inr res, rng') ->
    Prompt.avoid (Prompt.extract_prompt_requirements prompt) <> [] ->
    forall x,
      In x (returned_items res) ->
      wears_forbidden near
        (Prompt.avoid (Prompt.extract_prompt_requirements prompt)) x = false.

(** A swimming prompt returns swimwear only as soon as one eligible
    swimwear item exists. *)
Definition swimwear_only_claim (near : RGB -> RGB -> bool)
    (USER_DB : gmap string UserRecord) (wardrobe_db : list WardrobeItem)
    (now : Clock) (prompt username : string) (rng : Random) : Prop :=
  forall u res rng',
    USER_DB !! username = Some u ->
    recommend_outfits near USER_DB wardrobe_db now prompt username rng
    = (inr res, rng') ->
    Text.mem "swimming"
      (Prompt.occasions (Prompt.extract_prompt_requirements prompt)) = true ->
    eligible_swimwear wardrobe_db (preferences u) <> [] ->
    Forall swimwear_only (outfits res).

(** Two calls that agree on prompt, user, catalogue and seed return the
    same result, whenever they are made. *)
Definition same_seed_claim (near : RGB -> RGB -> bool)
    (USER_DB : gmap string UserRecord) (wardrobe_db : list WardrobeItem)
    (prompt username : string) (rng : Random) : Prop :=
  forall now1 now2,
    fst (recommend_outfits near USER_DB wardrobe_db now1 prompt username rng)
    = fst (recommend_outfits near USER_DB wardrobe_db now2 prompt username rng).

(** ** The order in which a set is listed

    [list(s)] iterates a Python set in an order that follows the hashes of
    its strings, and these change from one process to the next.  A listing
    takes the elements of a set, in the order of insertion, to the order in
    which the process iterates them; whatever the process, the elements are
    the same. *)

Definition lists_sets (listing : list string -> list string) : Prop :=
  forall s, Permutation (listing s) s.

(** [extract_prompt_requirements] in a process that lists sets with
    [listing]: the three [list(...)] calls of line 156.  The fallback
    [["general"]] is a list, not a set. *)
Definition extract_prompt_requirements_listed
    (listing : list string -> list string) (prompt : string)
    : Prompt.Requirements :=
  let r := Prompt.extract_prompt_requirements prompt in
  let expanded := Prompt.expanded_occasions (Prompt.normalized prompt) in
  {| Prompt.colors := listing (Prompt.colors r);
     Prompt.occasions :=
       if Prompt.is_empty expanded then ["general"] else listing expanded;
     Prompt.avoid := listing (Prompt.avoid r);
     Prompt.needs_layer := Prompt.needs_layer r |}.

(** [recommend_outfits] in a process that lists sets with [listing];
    [recommend_outfits] itself is the case of the listing that keeps the
    order of insertion. *)
Definition recommend_outfits_listed (listing : list string -> list string)
    (near : RGB -> RGB -> bool) (USER_DB : gmap string UserRecord)
    (wardrobe_db : list WardrobeItem) (now : Clock)
    (prompt username : string) : M RecommendationResult :=
  match USER_DB !! username with
  | None => raise (ValueError "User not authenticated")
  | Some _ =>
      match get_user_preferences USER_DB username with
      | inl e => raise e
      | inr profile =>
          let req := extract_prompt_requirements_listed listing prompt in
          let context := get_context now in
          let layer_needed :=
            Prompt.needs_layer req
            || (Text.contains "layer" prompt || Text.contains "cold" prompt
                || String.eqb (season context) "winter") in
          outfits <- compose_outfits near wardrobe_db profile
                       (Prompt.colors req) (Prompt.occasions req)
                       (Prompt.avoid req) layer_needed ;;
          ret {| user := username;
                 occasion := Text.join ", " (Prompt.occasions req);
                 context := context;
                 outfits := outfits |}
      end
  end.

(** Two lists with the same elements. *)
Definition same_members (l l' : list string) : Prop :=
  forall x, Text.mem x l = Text.mem x l'.

(** Two [occasion] fields that name the same occasions, in any order. *)
Definition same_occasions (o1 o2 : string) : Prop :=
  exists l1 l2,
    Permutation l1 l2 /\ o1 = Text.join ", " l1 /\ o2 = Text.join ", " l2.

(** Two runs that end alike: the same exception, or results with the same
    user, context and outfits whose [occasion] fields name the same
    occasions; and the same state of the random source. *)
Definition same_outcome (run1 run2 : (exn + RecommendationResult) * Random)
    : Prop :=
  snd run1 = snd run2
  /\ match fst run1, fst run2 with
     | inr res1, inr res2 =>
         user res1 = user res2
         /\ context res1 = context res2
         /\ outfits res1 = outfits res2
         /\ same_occasions (occasion res1) (occasion res2)
     | inl e1, inl e2 => e1 = e2
     | _, _ => False
     end.

(** ** Sample data *)

Module Sample.

Definition item (nm cat : string) (tg : list string) (ag gd : string)
    : WardrobeItem :=
  {| name := nm; category := cat; tags := tg;
     age_group := ag; gender := gd; image := "" |}.

Definition ann : UserRecord :=
  {| password_hash := "";
     preferences := {| profile_age_group := "adult";
                       profile_gender := "female" |} |}.

Definition users : gmap string UserRecord := <["ann" := ann]> ∅.

Definition seed : Random := {| tape := fun i => i; cursor := 0 |}.

Definition june_noon : Clock := {| hour := 12; month := 6 |}.
Definition june_morning : Clock := {| hour := 9; month := 6 |}.
Definition june_late_morning : Clock := {| hour := 11; month := 6 |}.

Definition red_dress : WardrobeItem :=
  item "red dress" "one-piece" ["red"; "party"] "adult" "female".

Definition black_swimsuit : WardrobeItem :=
  item "black swimsuit" "swimwear" ["black"] "all" "unisex".

Definition swimsuits : list WardrobeItem :=
  [ black_swimsuit;
    item "blue swimsuit" "swimwear" ["blue"] "all" "female";
    item "trunks" "swimwear" ["red"] "all" "male";
    item "green swimsuit" "swimwear" ["green"] "adult" "unisex" ].

Definition wardrobe : list WardrobeItem :=
  [ item "t1" "topwear" ["casual"; "blue"] "all" "unisex";
    item "t2" "topwear" ["formal"; "white"] "all" "unisex";
    item "b1" "bottomwear" ["casual"; "black"] "all" "unisex";
    item "b2" "bottomwear" ["formal"; "blue"] "adult" "female";
    item "l1" "layer" ["black"] "all" "unisex";
    item "d1" "one-piece" ["party"] "all" "female";
    item "m1" "topwear" ["formal"] "all" "male" ].

(** A closet in which black items pass every style filter. *)
Definition white_tee : WardrobeItem :=
  item "white tee" "topwear" ["casual"; "party"; "white"] "all" "unisex".
Definition black_tee : WardrobeItem :=
  item "black tee" "topwear" ["casual"; "party"; "black"] "all" "unisex".
Definition jeans : WardrobeItem :=
  item "jeans" "bottomwear" ["casual"; "party"; "blue"] "all" "unisex".
Definition black_skirt : WardrobeItem :=
  item "black skirt" "bottomwear" ["casual"; "party"; "black"] "all" "unisex".
Definition black_dress : WardrobeItem :=
  item "black dress" "one-piece" ["party"; "black"] "all" "female".
Definition black_coat : WardrobeItem :=
  item "black coat" "layer" ["casual"; "black"] "all" "unisex".

Definition closet : list WardrobeItem :=
  [white_tee; black_tee; jeans; black_skirt; black_dress; black_coat].

(** A closet without party wear. *)
Definition black_kurta : WardrobeItem :=
  item "black kurta" "topwear" ["ethnic"; "black"] "all" "unisex".
Definition white_dhoti : WardrobeItem :=
  item "white dhoti" "bottomwear" ["ethnic"; "white"] "all" "unisex".

Definition ethnic_closet : list WardrobeItem := [black_kurta; white_dhoti].

End Sample.

(** ** Loading the wardrobe ([SmartOutfitRecommender.__init__])

    A record of [wardrobe.json]: the name, and the five keys that
    [setdefault] fills in when they are missing. *)

Record WardrobeRecord := {
  record_name : string;
  record_tags : option (list string);
  record_category : option string;
  record_age_group : option string;
  record_gender : option string;
  record_image : option string
}.

(** [item.setdefault(key, default)], read back. *)
Definition setdefault {A} (v : option A) (default : A) : A :=
  match v with Some x => x | None => default end.

Definition load_item (r : WardrobeRecord) : WardrobeItem :=
  {| name := record_name r;
     category := setdefault (record_category r) "unknown";
     tags := setdefault (record_tags r) [];
     age_group := setdefault (record_age_group r) "all";
     gender := setdefault (record_gender r) "unisex";
     image := setdefault (record_image r) "" |}.

Definition load_wardrobe (records : list WardrobeRecord) : list WardrobeItem :=
  map load_item records.

(** ** More sample data *)

Module Sample2.

(** A stand-in for the password hash. *)
Definition plain_hash (password : string) : string := "#" ++ password.

Definition ann_prefs : UserProfile :=
  {| profile_age_group := "adult"; profile_gender := "female" |}.

Definition teen_prefs : UserProfile :=
  {| profile_age_group := "teen"; profile_gender := "male" |}.

Definition ann : UserRecord :=
  {| password_hash := plain_hash "secret"; preferences := ann_prefs |}.

Definition users : gmap string UserRecord := <["ann" := ann]> ∅.

Definition bare_record : WardrobeRecord :=
  {| record_name := "scarf"; record_tags := Some ["casual"];
     record_category := None; record_age_group := None;
     record_gender := None; record_image := None |}.

Definition records : list WardrobeRecord :=
  [ bare_record;
    {| record_name := "tee"; record_tags := Some ["casual"; "gray"];
       record_category := Some "topwear"; record_age_group := None;
       record_gender := None; record_image := None |};
    {| record_name := "jeans"; record_tags := Some ["casual"; "blue"];
       record_category := Some "bottomwear"; record_age_group := Some "all";
       record_gender := Some "unisex"; record_image := Some "jeans.png" |};
    {| record_name := "shorts"; record_tags := Some ["gym"; "black"];
       record_category := Some "bottomwear"; record_age_group := None;
       record_gender := None; record_image := None |};
    {| record_name := "vest"; record_tags := Some ["gym"; "red"];
       record_category := Some "topwear"; record_age_group := None;
       record_gender := None; record_image := None |};
    {| record_name := "parka"; record_tags := Some ["casual"];
       record_category := Some "layer"; record_age_group := None;
       record_gender := None; record_image := None |} ].

End Sample2.

(** ** Further notions used in the properties *)

(** The categories an outfit is built from. *)
Definition outfit_categories : list string :=
  ["topwear"; "bottomwear"; "layer"; "one-piece"; "one_piece"; "swimwear"].

(** A computation that never draws from the random source. *)
Definition keeps_random {A} (m : M A) : Prop :=
  forall r, snd (m r) = r.

(** Every character of [s] satisfies [p]. *)
Fixpoint all_chars (p : ascii -> bool) (s : string) : bool :=
  match s with
  | EmptyString => true
  | String c s' => p c && all_chars p s'
  end.

(** A lower-case letter, a digit or the underscore: what [\w] can match in
    a lower-cased ASCII text. *)
Definition is_lower_word (c : ascii) : bool :=
  Text.is_word c && negb (Text.in_range 65 90 c).

(** A text of ASCII characters: there [Text.lower], [Text.is_word] and
    [Text.is_space] are Python's [str.lower], [\w] and [\s]. *)
Definition is_ascii (s : string) : bool :=
  all_chars (fun c => nat_of_ascii c <? 128) s.

(** What a word captured by [(\w+)] is: not empty, word characters only,
    and whatever [q] holds of every character of the text. *)
Definition captured (q : ascii -> bool) (w : string) : Prop :=
  w <> EmptyString /\ all_chars (fun c => Text.is_word c && q c) w = true.

(** An active-occasion outfit: one top and one bottom with an active or
    style tag, and nothing else. *)
Definition active_outfit (style_tags : list string) (o : Outfit) : Prop :=
  type o = multi_piece
  /\ exists t b,
       items o = [t; b]
       /\ category t = "topwear" /\ category b = "bottomwear"
       /\ In t (active_relevant style_tags [t])
       /\ In b (active_relevant style_tags [b]).

(** * Properties *)

(** ** The prompt interpreter on a few prompts *)

Example prompt_interview :
  Prompt.extract_prompt_requirements "Formal Interview in blue, avoid black"
  = {| Prompt.colors := ["blue"]; Prompt.occasions := ["interview"];
       Prompt.avoid := ["black"]; Prompt.needs_layer := false |}.
Proof. vm_compute. reflexivity. Qed.

(** The regular expression stops at "office", the first alternative that
    matches; the substring pass then adds the longer key. *)
Example prompt_office_party :
  Prompt.occasions (Prompt.extract_prompt_requirements "office party")
  = ["office"; "party"; "office party"].
Proof. vm_compute. reflexivity. Qed.

(** The third replacement of the swim normalisation also applies to the
    output of the second one. *)
Example prompt_swim :
  Prompt.normalized "Go swim now" = "go swimmingming now"
  /\ Prompt.occasions (Prompt.extract_prompt_requirements "Go swim now")
     = ["swimming"].
Proof. split; vm_compute; reflexivity. Qed.

Example prompt_near_white :
  Prompt.extract_prompt_requirements "no cream please, with Navy"
  = {| Prompt.colors := ["navy"]; Prompt.occasions := ["general"];
       Prompt.avoid := ["white"]; Prompt.needs_layer := false |}.
Proof. vm_compute. reflexivity. Qed.
(** ** The credential store *)

Lemma set_preferences_noop (USER_DB : gmap string UserRecord)
    (username : string) (prefs : UserProfile) :
  USER_DB !! username = None ->
  set_user_preferences USER_DB username prefs = USER_DB.
Proof. intros H. unfold set_user_preferences. now rewrite H. Qed.

(** ** Prompt interpretation *)

Module PromptFacts.
Import Text Regex Prompt.

Lemma contains_unfold (sub s : string) :
  contains sub s
  = String.prefix sub s
    || match s with EmptyString => false | String _ s' => contains sub s' end.
Proof. destruct s; reflexivity. Qed.

Lemma prefix_contains (sub s : string) :
  String.prefix sub s = true -> contains sub s = true.
Proof. intros H. rewrite contains_unfold, H. reflexivity. Qed.

Lemma contains_tail (sub : string) (c : ascii) (s : string) :
  contains sub s = true -> contains sub (String c s) = true.
Proof. intros H. rewrite contains_unfold, H. apply orb_true_r. Qed.

Local Arguments contains : simpl never.
Local Arguments String.prefix : simpl never.

Lemma try_key_found (keys : list string) (s k : string) :
  try_key keys s = Some k -> In k keys /\ contains k s = true.
Proof.
  induction keys as [|k0 keys IH]; simpl; [discriminate|].
  destruct (String.prefix k0 s) eqn:Hp; simpl.
  - destruct (word_boundary _ _).
    + intros [= <-]. split; [now left | now apply prefix_contains].
    + intros H. destruct (IH H). split; [now right | assumption].
  - intros H. destruct (IH H). split; [now right | assumption].
Qed.

Lemma findall_key_found (keys : list string) (s : string) :
  forall before skip k,
    In k (findall_key keys before skip s) ->
    In k keys /\ contains k s = true.
Proof.
  induction s as [|c s IH]; intros before skip k; simpl; [tauto|].
  destruct skip as [|skip].
  - destruct (word_boundary before (Some c)).
    + destruct (try_key keys (String c s)) as [k0|] eqn:Hk.
      * intros [<-|Hin].
        -- now apply try_key_found.
        -- destruct (IH _ _ _ Hin) as [H1 H2]. split; [assumption|].
           now apply contains_tail.
      * intros Hin. destruct (IH _ _ _ Hin) as [H1 H2]. split; [assumption|].
        now apply contains_tail.
    + intros Hin. destruct (IH _ _ _ Hin) as [H1 H2]. split; [assumption|].
      now apply contains_tail.
  - intros Hin. destruct (IH _ _ _ Hin) as [H1 H2]. split; [assumption|].
    now apply contains_tail.
Qed.

Lemma findall_key_none (keys : list string) (s : string) :
  existsb (fun k => contains k s) keys = false ->
  findall_key keys None 0 s = [].
Proof.
  intros H. destruct (findall_key keys None 0 s) as [|k l] eqn:Hf; [reflexivity|].
  destruct (findall_key_found keys s None 0 k) as [H1 H2].
  - rewrite Hf. now left.
  - assert (existsb (fun k => contains k s) keys = true).
    { apply existsb_exists. now exists k. }
    congruence.
Qed.

Lemma add_substring_keys_none (p : string) :
  existsb (fun k => contains k p) (map fst OCCASION_STYLES) = false ->
  add_substring_keys p [] = [].
Proof.
  unfold add_substring_keys. generalize (map fst OCCASION_STYLES).
  intros keys. induction keys as [|k keys IH]; simpl; [reflexivity|].
  intros H. apply orb_false_iff in H as [H1 H2]. rewrite H1. simpl. auto.
Qed.

Lemma expand_by_prompt_none (p : string) :
  existsb (fun syn => contains syn p) (flat_map snd OCCASION_SYNONYMS) = false ->
  expand_by_prompt p [] = [].
Proof.
  unfold expand_by_prompt. generalize OCCASION_SYNONYMS.
  intros table. induction table as [|[k v] table IH]; simpl; [reflexivity|].
  rewrite existsb_app. intros H. apply orb_false_iff in H as [H1 H2].
  assert (Hv : fold_left (fun e syn => if contains syn p then set_add k e else e) v []
               = []).
  { clear -H1. induction v as [|syn v IHv]; simpl in *; [reflexivity|].
    apply orb_false_iff in H1 as [Ha Hb]. rewrite Ha. auto. }
  rewrite Hv. auto.
Qed.

End PromptFacts.
(** ** Rules for [run_spec] *)

Section RunSpec.

Variable E : exn -> Prop.

Lemma spec_ret {A} (a : A) (Q : A -> Prop) : Q a -> run_spec (ret a) E Q.
Proof. intros H r. exact H. Qed.

Lemma spec_raise {A} (e : exn) (Q : A -> Prop) :
  E e -> run_spec (raise e) E Q.
Proof. intros H r. exact H. Qed.

Lemma spec_bind {A B} (m : M A) (k : A -> M B) (P : A -> Prop) (Q : B -> Prop) :
  run_spec m E P ->
  (forall a, P a -> run_spec (k a) E Q) ->
  run_spec (bind m k) E Q.
Proof.
  intros Hm Hk r. unfold bind. specialize (Hm r).
  destruct (m r) as [[e|a] r']; simpl in *.
  - exact Hm.
  - apply Hk, Hm.
Qed.

Lemma spec_weaken {A} (m : M A) (P Q : A -> Prop) :
  run_spec m E P -> (forall a, P a -> Q a) -> run_spec m E Q.
Proof.
  intros Hm HPQ r. specialize (Hm r).
  destruct (fst (m r)); [exact Hm | now apply HPQ].
Qed.

Lemma spec_randbelow (n : nat) :
  n <> 0 -> run_spec (randbelow n) E (fun i => i < n).
Proof. intros Hn r. simpl. now apply Nat.mod_upper_bound. Qed.

Lemma spec_choice {A} (l : list A) :
  E IndexError -> run_spec (choice l) E (fun x => In x l).
Proof.
  intros HE. destruct l as [|x l]; [now apply spec_raise|].
  unfold choice. eapply spec_bind; [apply spec_randbelow; discriminate|].
  intros i Hi. apply spec_ret. now apply nth_In.
Qed.

Lemma spec_index_mod {A} (l : list A) (idx : nat) :
  E ZeroDivisionError -> run_spec (index_mod l idx) E (fun x => In x l).
Proof.
  intros HE. destruct l as [|x l]; [now apply spec_raise|].
  apply spec_ret. apply nth_In. now apply Nat.mod_upper_bound.
Qed.

Lemma Forall_swap {A} (P : A -> Prop) (i j : nat) (l : list A) :
  Forall P l -> Forall P (swap i j l).
Proof.
  intros H. unfold swap.
  destruct (l !! i) as [a|] eqn:Hi; [|assumption].
  destruct (l !! j) as [b|] eqn:Hj; [|assumption].
  apply Forall_insert; [apply Forall_insert; [assumption|]|].
  - exact (Forall_lookup_1 _ _ _ _ H Hi).
  - exact (Forall_lookup_1 _ _ _ _ H Hj).
Qed.

Lemma spec_shuffle_from {A} (P : A -> Prop) (i : nat) :
  forall l : list A, Forall P l -> run_spec (shuffle_from i l) E (Forall P).
Proof.
  induction i as [|i IH]; intros l Hl; simpl.
  - now apply spec_ret.
  - eapply spec_bind; [apply spec_randbelow; discriminate|].
    intros j _. apply IH. now apply Forall_swap.
Qed.

Lemma spec_shuffle {A} (l : list A) :
  run_spec (shuffle l) E (fun l' => forall x, In x l' -> In x l).
Proof.
  eapply spec_weaken.
  - apply (spec_shuffle_from (fun x => In x l)). now apply List.Forall_forall.
  - intros l' H. now apply List.Forall_forall.
Qed.

Lemma spec_loopM {A S R} (I : S -> Prop) (Q : R -> Prop) (l : list A)
    (body : A -> S -> M (S + R)) :
  (forall x s, In x l -> I s -> run_spec (body x s) E (flow I Q)) ->
  forall s, I s -> run_spec (loopM l body s) E (flow I Q).
Proof.
  induction l as [|x l IH]; intros Hbody s Hs; simpl.
  - now apply spec_ret.
  - eapply spec_bind; [apply Hbody; [now left | assumption]|].
    intros [s'|v] Hr; simpl in Hr.
    + apply IH; [|assumption]. intros y s0 Hy. apply Hbody. now right.
    + now apply spec_ret.
Qed.

Lemma spec_whileM {S} (I : S -> Prop) (cond : S -> bool) (body : S -> M S) :
  (forall s, I s -> run_spec (body s) E I) ->
  forall fuel s, I s -> run_spec (whileM fuel cond body s) E I.
Proof.
  intros Hbody. induction fuel as [|fuel IH]; intros s Hs; simpl.
  - now apply spec_ret.
  - destruct (cond s); [|now apply spec_ret].
    eapply spec_bind; [now apply Hbody|]. intros s' Hs'. now apply IH.
Qed.

End RunSpec.

Lemma loop_flow {A S R} (I : S -> Prop) (Q : R -> Prop) (l : list A)
    (body : A -> S -> S + R) :
  (forall x s, In x l -> I s -> flow I Q (body x s)) ->
  forall s, I s -> flow I Q (loop l body s).
Proof.
  induction l as [|x l IH]; intros Hbody s Hs; simpl; [assumption|].
  pose proof (Hbody x s (or_introl eq_refl) Hs) as Hx.
  destruct (body x s) as [s'|v]; simpl in Hx.
  - apply IH; [|assumption]. intros y s0 Hy. apply Hbody. now right.
  - assumption.
Qed.

Lemma after_break_flow {S} (I : S -> Prop) (r : S + S) :
  flow I I r -> I (after_break r).
Proof. now destruct r. Qed.

Lemma loop_break_keeps {A S} (I : S -> Prop) (l : list A)
    (body : A -> S -> S + S) (s : S) :
  (forall x s, In x l -> I s -> flow I I (body x s)) ->
  I s -> I (after_break (loop l body s)).
Proof. intros Hbody Hs. apply after_break_flow. now apply loop_flow. Qed.

(** ** Every outfit is built from the candidate pools *)

Lemma Forall_snoc {A} (P : A -> Prop) (l : list A) (x : A) :
  Forall P l -> P x -> Forall P (l ++ [x]).
Proof. intros Hl Hx. apply List.Forall_app. split; [assumption | now constructor]. Qed.

Lemma Forall_firstn_keep {A} (P : A -> Prop) (k : nat) (l : list A) :
  Forall P l -> Forall P (firstn k l).
Proof.
  intros H. revert k. induction H as [|x l Hx Hl IH]; intros [|k]; simpl;
    constructor; auto.
Qed.

Lemma In_firstn_keep {A} (k : nat) (l : list A) (x : A) :
  In x (firstn k l) -> In x l.
Proof.
  revert k. induction l as [|y l IH]; intros [|k]; simpl; try tauto.
  intros [H|H]; [now left | right; eauto].
Qed.

Lemma Forall_slice_to {A} (P : A -> Prop) (n : Z) (l : list A) :
  Forall P l -> Forall P (slice_to n l).
Proof. intros H. unfold slice_to. destruct (0 <=? n)%Z; now apply Forall_firstn_keep. Qed.

Lemma lookup_failure_index : lookup_failure IndexError.
Proof. now left. Qed.

Lemma lookup_failure_zero : lookup_failure ZeroDivisionError.
Proof. now right. Qed.

Create HintDb outfit.

#[local] Hint Resolve lookup_failure_index lookup_failure_zero : outfit.

Lemma color_matched_In (near : RGB -> RGB -> bool) (colors avoid : list string)
    (its : list WardrobeItem) (x : WardrobeItem) :
  In x (color_matched near colors avoid its) -> In x its.
Proof.
  unfold color_matched. destruct (nonempty colors); [|contradiction].
  intros H. now apply filter_In in H.
Qed.

Section Admissibility.

Variable near : RGB -> RGB -> bool.
Variables T B L O W : WardrobeItem -> Prop.

Local Abbreviation adm := (admissible T B L O W).

Variables (colors avoid style_tags occasions : list string).
Variable layer_needed : bool.
Variable g : string.
Variables (its one_pieces layers tops bottoms : list WardrobeItem).

Hypothesis tops_T : forall t, In t tops -> T t.
Hypothesis bottoms_B : forall b, In b bottoms -> B b.
Hypothesis layers_L : forall l, In l layers -> L l.
Hypothesis one_pieces_O : forall o, In o one_pieces -> O o.
Hypothesis swimwear_W :
  forall w, In w its -> category w = "swimwear" -> W w.

Lemma layer_choice_adm (choices : list WardrobeItem) (t b : WardrobeItem) :
  T t -> B b -> (forall l, In l choices -> L l) ->
  run_spec (lyr <- choice choices ;; ret ([t; b] ++ [lyr])) lookup_failure
    (fun c => adm (mk multi_piece c)).
Proof.
  intros Ht Hb Hl. eapply spec_bind; [apply spec_choice; auto with outfit|].
  intros l Hin. apply spec_ret. simpl. apply adm_pair_layer; auto.
Qed.

Lemma with_random_layer_adm (t b : WardrobeItem) :
  T t -> B b ->
  run_spec (with_random_layer layer_needed layers [t; b]) lookup_failure
    (fun c => adm (mk multi_piece c)).
Proof.
  intros Ht Hb. unfold with_random_layer.
  destruct (layer_needed && nonempty layers).
  - now apply layer_choice_adm.
  - apply spec_ret. now apply adm_pair.
Qed.

Lemma layers_color_L (l : WardrobeItem) :
  In l (layers_color near colors avoid layers) -> L l.
Proof. intros H. apply layers_L. eapply color_matched_In, H. Qed.

Lemma layer_choices_L (layer_list : list WardrobeItem) :
  (forall l, In l layer_list -> L l) ->
  forall l,
    In l (if nonempty (layers_color near colors avoid layers)
          then layers_color near colors avoid layers else layer_list) ->
    L l.
Proof.
  intros Hl l. destruct (nonempty _); [apply layers_color_L | apply Hl].
Qed.

Section MakeTopBottom.

Variables (top_list bottom_list layer_list : list WardrobeItem).
Variable n : Z.

Hypothesis top_list_T : forall t, In t top_list -> T t.
Hypothesis bottom_list_B : forall b, In b bottom_list -> B b.
Hypothesis layer_list_L : forall l, In l layer_list -> L l.

Lemma maybe_add_layer_adm (t b : WardrobeItem) :
  T t -> B b ->
  run_spec
    (maybe_add_layer near colors avoid style_tags layer_needed layers
       layer_list [t; b])
    lookup_failure (fun c => adm (mk multi_piece c)).
Proof.
  intros Ht Hb. unfold maybe_add_layer.
  destruct layer_needed; [|apply spec_ret; now apply adm_pair].
  match goal with |- context [nonempty (List.filter ?f ?l)] =>
    set (avail := List.filter f l) end.
  assert (Havail : forall l, In l avail -> L l).
  { intros l Hl. apply filter_In in Hl as [Hl _].
    eapply layer_choices_L; eassumption. }
  destruct (nonempty avail); [|apply spec_ret; now apply adm_pair].
  apply layer_choice_adm; try assumption.
  intros l. destruct (nonempty (List.filter _ avail)); [|apply Havail].
  intros Hl. apply filter_In in Hl as [Hl _]. now apply Havail.
Qed.

Local Abbreviation kept := (fun st : PairState => Forall adm (combos st)).

Lemma emit_adm (st : PairState) (t b : WardrobeItem) :
  Forall adm (combos st) -> T t -> B b ->
  run_spec
    (emit near colors avoid style_tags layer_needed layers layer_list n st [t; b])
    lookup_failure (flow kept (Forall adm)).
Proof.
  intros Hst Ht Hb. unfold emit.
  eapply spec_bind; [now apply maybe_add_layer_adm|].
  intros c Hc. cbv beta.
  assert (Forall adm (combos (add_combo st c))) by (simpl; now apply Forall_snoc).
  destruct (reached n (add_combo st c)); now apply spec_ret.
Qed.

Lemma tops_color_T (t : WardrobeItem) :
  In t (tops_color near colors avoid tops) -> T t.
Proof. intros H. apply tops_T. eapply color_matched_In, H. Qed.

Lemma bottoms_color_B (b : WardrobeItem) :
  In b (bottoms_color near colors avoid bottoms) -> B b.
Proof. intros H. apply bottoms_B. eapply color_matched_In, H. Qed.

Lemma color_tops_loop_adm (st : PairState) :
  Forall adm (combos st) ->
  run_spec
    (color_tops_loop near colors avoid style_tags layer_needed layers tops
       bottom_list layer_list n st)
    lookup_failure (flow kept (Forall adm)).
Proof.
  intros Hst. unfold color_tops_loop.
  apply (spec_loopM _ kept); [|assumption].
  intros t st1 Ht Hst1. apply (spec_loopM _ kept); [|assumption].
  intros b st2 Hb Hst2.
  destruct (_ || _); [now apply spec_ret|].
  destruct (negb _); [now apply spec_ret|].
  apply emit_adm; [assumption | now apply tops_color_T | now apply bottom_list_B].
Qed.

Lemma color_bottoms_loop_adm (st : PairState) :
  Forall adm (combos st) ->
  run_spec
    (color_bottoms_loop near colors avoid style_tags layer_needed layers bottoms
       top_list layer_list n st)
    lookup_failure (flow kept (Forall adm)).
Proof.
  intros Hst. unfold color_bottoms_loop.
  apply (spec_loopM _ kept); [|assumption].
  intros b st1 Hb Hst1.
  destruct (Text.mem _ _); [now apply spec_ret|].
  apply (spec_loopM _ kept); [|assumption].
  intros t st2 Ht Hst2.
  destruct (mem_pair _ _); [now apply spec_ret|].
  destruct (negb _); [now apply spec_ret|].
  apply emit_adm; [assumption | now apply top_list_T | now apply bottoms_color_B].
Qed.

Lemma single_top_phase_adm (top : WardrobeItem) (st : PairState) :
  T top -> Forall adm (combos st) ->
  run_spec
    (single_top_phase near colors avoid style_tags layer_needed layers bottoms
       top_list bottom_list layer_list n top st)
    lookup_failure (Forall adm).
Proof.
  intros Htop Hst. unfold single_top_phase.
  eapply spec_bind.
  - apply (spec_loopM _ (fun s : PairState * list string => Forall adm (combos (fst s)))
             (fun s : PairState * list string => Forall adm (combos (fst s))));
      [|assumption].
    intros b [st1 bottom_used] Hb Hst1. simpl in Hst1.
    destruct (Text.mem _ _); [now apply spec_ret|].
    destruct (mem_pair _ _); [now apply spec_ret|].
    eapply spec_bind.
    + apply maybe_add_layer_adm; [assumption|].
      apply in_app_or in Hb as [Hb|Hb];
        [now apply bottoms_color_B | now apply bottom_list_B].
    + intros c Hc. cbv beta.
      assert (Forall adm (combos (add_combo (mark_pair top b st1) c)))
        by (simpl; now apply Forall_snoc).
      destruct (reached _ _); now apply spec_ret.
  - intros r Hr. cbv beta.
    assert (Hst' : Forall adm (combos (fst (after_break r)))) by now destruct r.
    eapply spec_bind.
    + apply (spec_loopM _ kept (Forall adm)); [|exact Hst'].
      intros t st1 Ht Hst1. apply (spec_loopM _ kept (Forall adm)); [|assumption].
      intros b st2 Hb Hst2.
      destruct (_ || _); [now apply spec_ret|].
      destruct (wears_color _ _ _); [now apply spec_ret|].
      eapply spec_bind;
        [apply maybe_add_layer_adm; [now apply top_list_T | now apply bottom_list_B]|].
      intros c Hc. apply spec_ret. simpl. apply Forall_slice_to.
      now apply Forall_snoc.
    + intros [st1|v] Hv; apply spec_ret; simpl in Hv;
        [now apply Forall_slice_to | assumption].
Qed.

Lemma no_color_phase_adm (st : PairState) :
  Forall adm (combos st) ->
  run_spec
    (no_color_phase near colors avoid style_tags layer_needed layers
       top_list bottom_list layer_list n st)
    lookup_failure (Forall adm).
Proof.
  intros Hst. unfold no_color_phase.
  eapply spec_bind.
  - apply (spec_loopM _ kept (Forall adm)); [|exact Hst].
    intros t st1 Ht Hst1. apply (spec_loopM _ kept (Forall adm)); [|assumption].
    intros b st2 Hb Hst2.
    destruct (_ || _); [now apply spec_ret|].
    apply emit_adm; [assumption | now apply top_list_T | now apply bottom_list_B].
  - intros [st1|v] Hv; simpl in Hv; [|now apply spec_ret].
    eapply spec_bind.
    + apply (spec_loopM _ kept (Forall adm)); [|exact Hv].
      intros t st2 Ht Hst2. apply (spec_loopM _ kept (Forall adm)); [|assumption].
      intros b st3 Hb Hst3.
      destruct (mem_pair _ _); [now apply spec_ret|].
      apply emit_adm; [assumption | now apply top_list_T | now apply bottom_list_B].
    + intros [st2|v] Hv2; simpl in Hv2; now apply spec_ret.
Qed.

Lemma other_color_phase_adm (st : PairState) :
  Forall adm (combos st) ->
  run_spec
    (other_color_phase near colors avoid style_tags layer_needed layers
       top_list bottom_list layer_list n st)
    lookup_failure (Forall adm).
Proof.
  intros Hst. unfold other_color_phase.
  eapply spec_bind.
  - apply (spec_loopM _ kept (Forall adm)); [|exact Hst].
    intros t st1 Ht Hst1. apply (spec_loopM _ kept (Forall adm)); [|assumption].
    intros b st2 Hb Hst2.
    destruct (_ || _); [now apply spec_ret|].
    destruct (_ && _); [now apply spec_ret|].
    apply emit_adm; [assumption | now apply top_list_T | now apply bottom_list_B].
  - intros [st1|v] Hv; simpl in Hv; now apply spec_ret.
Qed.

Lemma make_top_bottom_outfits_adm (prefer_color : bool) :
  run_spec
    (make_top_bottom_outfits near colors avoid style_tags layer_needed layers
       tops bottoms top_list bottom_list layer_list n prefer_color)
    lookup_failure (Forall adm).
Proof.
  unfold make_top_bottom_outfits.
  eapply spec_bind with (P := flow kept (Forall adm)).
  - destruct (_ && _); [|apply spec_ret; constructor].
    eapply spec_bind; [apply color_tops_loop_adm; constructor|].
    intros [st|v] Hv; simpl in Hv;
      [now apply color_bottoms_loop_adm | now apply spec_ret].
  - intros [st|v] Hv; simpl in Hv; [|now apply spec_ret].
    assert (Hlater :
      run_spec
        (if negb (nonempty colors)
         then no_color_phase near colors avoid style_tags layer_needed layers
                top_list bottom_list layer_list n st
         else other_color_phase near colors avoid style_tags layer_needed layers
                top_list bottom_list layer_list n st)
        lookup_failure (Forall adm)).
    { destruct (negb _);
        [now apply no_color_phase_adm | now apply other_color_phase_adm]. }
    destruct (tops_color near colors avoid tops) as [|top [|top' rest]] eqn:Htc;
      try exact Hlater.
    destruct (nonempty colors); [|exact Hlater].
    apply single_top_phase_adm; [|assumption].
    apply tops_color_T. rewrite Htc. now left.
Qed.

End MakeTopBottom.


Lemma one_piece_block_adm (outfits : list Outfit) (used : list string) :
  Forall adm outfits ->
  run_spec
    (one_piece_block near colors avoid style_tags occasions layer_needed g
       one_pieces layers outfits used)
    lookup_failure (fun p => Forall adm (fst p)).
Proof.
  intros Hout. unfold one_piece_block.
  destruct (_ && _); [|now apply spec_ret].
  eapply spec_bind; [apply spec_choice; auto with outfit|].
  intros op Hop. cbv beta.
  assert (HO : O op).
  { apply filter_In in Hop as [Hop _]. apply one_pieces_O.
    destruct (nonempty (one_pieces_color _ _ _ _)); [|assumption].
    eapply color_matched_In, Hop. }
  eapply spec_bind with
    (P := fun p : list WardrobeItem * list string => adm (mk one_piece (fst p))).
  - destruct (layer_needed && nonempty layers);
      [|apply spec_ret; now apply adm_one_piece].
    match goal with |- context [nonempty (List.filter ?f ?l)] =>
      set (avail := List.filter f l) end.
    assert (Havail : forall l, In l avail -> L l).
    { intros l Hl. apply filter_In in Hl as [Hl _].
      eapply (layer_choices_L layers); eassumption. }
    destruct (nonempty avail); [|apply spec_ret; now apply adm_one_piece].
    eapply spec_bind; [apply spec_choice; auto with outfit|].
    intros lyr Hlyr. apply spec_ret. simpl. apply adm_one_piece_layer; auto.
  - intros p Hp. apply spec_ret. simpl. now apply Forall_snoc.
Qed.

Lemma layered_block_adm (outfits : list Outfit) :
  Forall adm outfits ->
  run_spec
    (layered_block near colors avoid layer_needed layers tops bottoms outfits)
    lookup_failure (Forall adm).
Proof.
  intros Hout. unfold layered_block.
  destruct (_ && _); [|now apply spec_ret].
  eapply spec_bind; [apply spec_shuffle|].
  intros tb_pairs Hpairs. cbv beta.
  eapply spec_bind.
  - apply (spec_loopM _ (fun s : list Outfit * nat => Forall adm (fst s))
             (fun s : list Outfit * nat => Forall adm (fst s)));
      [|exact Hout].
    intros [t b] [outfits1 added] Hp H1. simpl in H1.
    apply Hpairs, in_prod_iff in Hp as [Ht Hb].
    cbn [fst snd].
    match goal with |- context [nonempty (List.filter ?f ?l)] =>
      set (avail := List.filter f l) end.
    assert (Havail : forall l, In l avail -> L l).
    { intros l Hl. apply filter_In in Hl as [Hl _].
      eapply (layer_choices_L layers); eassumption. }
    eapply spec_bind with (P := fun c => adm (mk multi_piece c)).
    + destruct (nonempty avail).
      * apply layer_choice_adm; auto.
      * apply spec_ret. apply adm_pair; auto.
    + intros c Hc. cbv beta.
      destruct (negb _).
      * destruct (2 <=? S added); apply spec_ret; simpl; now apply Forall_snoc.
      * destruct (2 <=? added); now apply spec_ret.
  - intros r Hr. apply spec_ret. now destruct r.
Qed.

Lemma add_swimwear_adm (swimwear_items : list WardrobeItem)
    (outfits : list Outfit) (used : list string) :
  (forall sw, In sw swimwear_items -> W sw) ->
  Forall adm outfits ->
  Forall adm (fst (add_swimwear swimwear_items outfits used)).
Proof.
  intros HW Hout. unfold add_swimwear.
  apply (after_break_flow (fun s : list Outfit * list string => Forall adm (fst s))).
  apply loop_flow; [|exact Hout].
  intros sw [outfits1 used1] Hsw H1. simpl in H1.
  destruct (negb _); [|exact H1].
  assert (Forall adm (outfits1 ++ [mk swimwear [sw]])).
  { apply Forall_snoc; [assumption|]. apply adm_swimwear. now apply HW. }
  destruct (3 <=? _); assumption.
Qed.

Lemma filter_category_In (l : list WardrobeItem) (cat gd : string)
    (x : WardrobeItem) :
  In x (filter_category l cat gd) -> In x l /\ category x = cat.
Proof.
  unfold filter_category. intros H.
  assert (H' : In x (List.filter (fun i => String.eqb (category i) cat) l)).
  { destruct (negb _); [now apply filter_In in H|assumption]. }
  apply filter_In in H' as [H1 H2]. split; [assumption|].
  now apply String.eqb_eq.
Qed.

Lemma swimwear_block_adm (outfits : list Outfit) (used : list string) :
  Forall adm outfits ->
  Forall adm (fst (swimwear_block style_tags occasions g its outfits used)).
Proof.
  intros Hout. unfold swimwear_block.
  destruct (is_swimming _ _); apply add_swimwear_adm; try assumption.
  - intros sw Hsw. apply filter_category_In in Hsw as [H1 H2].
    now apply swimwear_W.
  - intros sw Hsw. apply filter_In in Hsw as [H1 H2].
    apply filter_In in H1 as [H1 _]. apply swimwear_W; [assumption|].
    now apply String.eqb_eq.
Qed.

Lemma reuse_block_adm (outfits : list Outfit) :
  Forall adm outfits ->
  run_spec (reuse_block layer_needed layers tops bottoms outfits)
    lookup_failure (Forall adm).
Proof.
  intros Hout. unfold reuse_block.
  destruct (length outfits <? 3); [|now apply spec_ret].
  pose (I := fun s : list Outfit * list (string * string) => Forall adm (fst s)).
  eapply spec_bind.
  - apply (spec_loopM _ I I); [|constructor].
    intros t s Ht Hs.
    eapply spec_bind.
    + apply (spec_loopM _ I I); [|exact Hs].
      intros b [extra used_pairs] Hb H1. unfold I in H1. simpl in H1.
      destruct (negb _); [|now apply spec_ret].
      eapply spec_bind; [apply with_random_layer_adm; auto|].
      intros c Hc. cbv beta.
      destruct (3 <=? _); apply spec_ret; unfold I; simpl; now apply Forall_snoc.
    + intros r Hr. cbv beta.
      assert (I (after_break r)) by now destruct r.
      destruct (3 <=? _); now apply spec_ret.
  - intros r Hr. apply spec_ret. apply List.Forall_app. split; [assumption|].
    apply Forall_firstn_keep. now destruct r.
Qed.

Lemma random_fallback_adm (outfits : list Outfit) :
  Forall adm outfits ->
  run_spec (random_fallback layer_needed layers tops bottoms outfits)
    lookup_failure (Forall adm).
Proof.
  intros Hout. unfold random_fallback.
  apply spec_whileM; [|assumption].
  intros outfits1 H1.
  eapply spec_bind; [apply spec_choice; auto with outfit|]. intros t Ht.
  eapply spec_bind; [apply spec_choice; auto with outfit|]. intros b Hb.
  eapply spec_bind; [apply with_random_layer_adm; auto|].
  intros c Hc. apply spec_ret. now apply Forall_snoc.
Qed.

Lemma pad_none_adm (outfits : list Outfit) :
  Forall adm outfits -> Forall adm (pad_none outfits).
Proof.
  intros H. unfold pad_none. apply List.Forall_app. split; [assumption|].
  apply List.Forall_forall. intros o Ho. apply repeat_spec in Ho. subst o.
  apply adm_none.
Qed.

Lemma late_active_block_adm (outfits : list Outfit) :
  Forall adm outfits ->
  Forall adm (late_active_block near colors avoid style_tags tops bottoms outfits).
Proof.
  intros Hout. unfold late_active_block.
  apply Forall_firstn_keep, pad_none_adm.
  pose (I := fun s : list Outfit * list string * list string =>
               Forall adm (fst (fst s))).
  cbv zeta.
  apply (loop_break_keeps I).
  - intros t s Ht Hs. apply filter_In in Ht as [Ht _]. apply tops_T in Ht.
    match goal with |- context [after_break (loop ?l ?bd ?s0)] =>
      assert (Hin : I (after_break (loop l bd s0))) end.
    { apply (loop_break_keeps I); [|assumption].
      intros b [[o ut] ub] Hb H1. unfold I in H1. simpl in H1.
      apply filter_In in Hb as [Hb _]. apply bottoms_B in Hb.
      destruct (_ && _); [|exact H1].
      assert (Forall adm (o ++ [mk multi_piece [t; b]])).
      { apply Forall_snoc; [assumption|]. now apply adm_pair. }
      cbn [fst]. destruct (3 <=? _); assumption. }
    destruct (3 <=? _); exact Hin.
  - apply (loop_break_keeps I); [|exact Hout].
    intros t s Ht Hs.
    assert (HT : T t).
    { apply in_app_or in Ht as [Ht|Ht]; apply filter_In in Ht as [Ht _];
        apply filter_In in Ht as [Ht _]; now apply tops_T. }
    match goal with |- context [after_break (loop ?l ?bd ?s0)] =>
      assert (Hin : I (after_break (loop l bd s0))) end.
    { apply (loop_break_keeps I); [|assumption].
      intros b [[o ut] ub] Hb H1. unfold I in H1. simpl in H1.
      assert (HB : B b).
      { apply in_app_or in Hb as [Hb|Hb]; apply filter_In in Hb as [Hb _];
          apply filter_In in Hb as [Hb _]; now apply bottoms_B. }
      destruct (_ && _); [|exact H1].
      unfold I. simpl. apply Forall_snoc; [assumption|]. now apply adm_pair. }
    destruct (1 <=? _); exact Hin.
Qed.

Lemma default_branch_adm :
  run_spec
    (default_branch near colors avoid style_tags occasions layer_needed g its
       one_pieces layers tops bottoms)
    lookup_failure (Forall adm).
Proof.
  unfold default_branch.
  eapply spec_bind; [apply one_piece_block_adm; constructor|]. intros p Hp.
  eapply spec_bind; [apply layered_block_adm; exact Hp|]. intros outfits Hout.
  pose proof (swimwear_block_adm outfits (snd p) Hout) as Hsw.
  destruct (swimwear_block style_tags occasions g its outfits (snd p))
    as [outfits1 used]. simpl in Hsw.
  eapply spec_bind; [apply make_top_bottom_outfits_adm; auto|]. intros c1 Hc1.
  eapply spec_bind with (P := Forall adm).
  - destruct (0 <? _)%Z.
    + eapply spec_bind; [apply make_top_bottom_outfits_adm; auto|].
      intros c2 Hc2. apply spec_ret. rewrite !List.Forall_app. auto.
    + apply spec_ret. rewrite List.Forall_app. auto.
  - intros o2 H2. eapply spec_bind; [now apply reuse_block_adm|]. intros o3 H3.
    eapply spec_bind; [now apply random_fallback_adm|]. intros o4 H4.
    destruct (is_active occasions); apply spec_ret.
    + now apply late_active_block_adm.
    + now apply Forall_firstn_keep.
Qed.

End Admissibility.

Section Branches.

Variable near : RGB -> RGB -> bool.
Variables T B L O W : WardrobeItem -> Prop.

Local Abbreviation adm := (admissible T B L O W).

Lemma swimming_branch_adm (its : list WardrobeItem) (g : string)
    (colors avoid : list string) :
  (forall w, In w its -> category w = "swimwear" -> W w) ->
  Forall adm (swimming_branch near its g colors avoid).
Proof.
  intros HW. unfold swimming_branch.
  assert (Hsw : forall sw, In sw (filter_category its "swimwear" g) -> W sw).
  { intros sw Hsw. apply filter_category_In in Hsw as [H1 H2]. now apply HW. }
  match goal with |- context [map _ ?l] => set (cms := l) end.
  assert (Hcms : Forall adm (map (fun sw => mk swimwear [sw]) cms)).
  { apply List.Forall_forall. intros o Ho. apply in_map_iff in Ho as [sw [<- Hin]].
    apply adm_swimwear, Hsw. subst cms.
    destruct (nonempty colors); [|contradiction]. now apply filter_In in Hin. }
  apply pad_none_adm.
  destruct (length _ <? 3); [|assumption].
  apply (loop_break_keeps (fun s : list Outfit * list string => Forall adm (fst s)));
    [|assumption].
  intros sw [outfits used] Hin H1. simpl in H1. unfold swim_fill_step.
  assert (H2 : Forall adm (outfits ++ [mk swimwear [sw]])).
  { apply Forall_snoc; [assumption|]. now apply adm_swimwear, Hsw. }
  destruct (negb _); destruct (length _ =? 3); assumption.
Qed.

Lemma active_branch_adm (tops bottoms : list WardrobeItem)
    (style_tags colors avoid : list string) :
  (forall t, In t tops -> T t) ->
  (forall b, In b bottoms -> B b) ->
  run_spec (active_branch near tops bottoms style_tags colors avoid)
    lookup_failure (Forall adm).
Proof.
  intros HT HB. unfold active_branch.
  match goal with |- context [index_mod ?l] => set (pairs_to_use := l) end.
  assert (Hp : forall p, In p pairs_to_use -> T (fst p) /\ B (snd p)).
  { intros [t b] Hp.
    assert (Hin : In (t, b) (list_prod (active_relevant style_tags tops)
                               (active_relevant style_tags bottoms))).
    { subst pairs_to_use. destruct (nonempty colors); [|assumption].
      destruct (nonempty (List.filter _ _)); [|assumption].
      now apply filter_In in Hp. }
    apply in_prod_iff in Hin as [Ht Hb].
    apply filter_In in Ht as [Ht _]. apply filter_In in Hb as [Hb _].
    simpl. auto. }
  eapply spec_bind.
  - apply (spec_whileM _ (fun s : list Outfit * nat => Forall adm (fst s)));
      [|constructor].
    intros [outfits idx] H1. simpl in H1.
    eapply spec_bind; [apply spec_index_mod; auto with outfit|].
    intros p Hin. apply spec_ret. simpl. apply Forall_snoc; [assumption|].
    destruct (Hp p Hin). now apply adm_pair.
  - intros s Hs. apply spec_ret. now apply Forall_firstn_keep.
Qed.

Lemma party_one_piece_outfits_adm
    (one_pieces_color party_tops party_bottoms : list WardrobeItem) :
  (forall o, In o one_pieces_color -> O o) ->
  (forall t, In t party_tops -> T t) ->
  (forall b, In b party_bottoms -> B b) ->
  Forall adm (party_one_piece_outfits one_pieces_color party_tops party_bottoms).
Proof.
  intros HO HT HB. unfold party_one_piece_outfits.
  assert (H1 : Forall adm
                 (map (fun op => mk one_piece [op]) (firstn 3 one_pieces_color))).
  { apply List.Forall_forall. intros o Ho. apply in_map_iff in Ho as [op [<- Hin]].
    apply adm_one_piece, HO. eapply In_firstn_keep, Hin. }
  destruct party_tops as [|top tops']; [assumption|].
  destruct party_bottoms as [|b0 bottoms']; [assumption|].
  destruct (0 <? _); [|assumption].
  apply List.Forall_app. split; [assumption|].
  apply List.Forall_forall. intros o Ho. apply in_map_iff in Ho as [i [<- Hi]].
  apply adm_pair; [apply HT; now left|].
  apply HB, nth_In, Nat.mod_upper_bound. discriminate.
Qed.

Lemma party_pair_outfits_adm (layer_needed : bool)
    (layers party_tops party_bottoms tops_all bottoms_all : list WardrobeItem)
    (style_tags : list string) :
  (forall l, In l layers -> L l) ->
  (forall t, In t party_tops -> T t) ->
  (forall b, In b party_bottoms -> B b) ->
  (is_ethnic style_tags = true -> forall t, In t tops_all -> T t) ->
  (is_ethnic style_tags = true -> forall b, In b bottoms_all -> B b) ->
  run_spec
    (party_pair_outfits layer_needed layers party_tops party_bottoms
       tops_all bottoms_all style_tags)
    lookup_failure (Forall adm).
Proof.
  intros HL HT HB HT' HB'. unfold party_pair_outfits.
  eapply spec_bind with (P := Forall adm).
  - destruct party_tops as [|top tops']; [apply spec_ret; constructor|].
    destruct party_bottoms as [|b0 bottoms'] eqn:Hpb; [apply spec_ret; constructor|].
    rewrite <- Hpb in *. clear Hpb.
    assert (Htop : T top) by (apply HT; now left).
    eapply spec_bind.
    + apply (spec_loopM _ (fun s : list Outfit * list string => Forall adm (fst s))
               (fun s : list Outfit * list string => Forall adm (fst s)));
        [|constructor].
      intros b [outfits used] Hb H1. simpl in H1.
      destruct (negb _); [|now apply spec_ret].
      eapply spec_bind; [apply (with_random_layer_adm T B L O W); auto|].
      intros c Hc. cbv beta zeta.
      destruct (length _ =? 3); apply spec_ret; simpl; now apply Forall_snoc.
    + intros r Hr. cbv beta zeta.
      apply spec_whileM; [|now destruct r].
      intros outfits H1.
      eapply spec_bind; [apply spec_choice; auto with outfit|]. intros b Hb.
      eapply spec_bind; [apply (with_random_layer_adm T B L O W); auto|].
      intros c Hc. apply spec_ret. now apply Forall_snoc.
  - intros outfits Hout. cbv beta zeta.
    match goal with |- context [negb (nonempty ?x)] => set (outfits' := x) end.
    assert (Hout' : Forall adm outfits').
    { subst outfits'. destruct (negb (nonempty outfits) && is_ethnic style_tags) eqn:Hc;
        [|assumption].
      apply andb_true_iff in Hc as [_ He].
      apply (after_break_flow (Forall adm)).
      apply loop_flow; [|assumption].
      intros [t b] o Hp Ho. apply in_combine_l in Hp as Ht.
      apply in_combine_r in Hp as Hb.
      apply filter_In in Ht as [Ht _]. apply filter_In in Hb as [Hb _].
      assert (Forall adm (o ++ [mk multi_piece [t; b]])).
      { apply Forall_snoc; [assumption|]. apply adm_pair; auto. }
      simpl. destruct (length _ =? 3); assumption. }
    destruct (negb (nonempty outfits')); apply spec_ret; [|assumption].
    repeat constructor.
Qed.

End Branches.

(** ** Candidate pools *)

Section Pools.

Variable near : RGB -> RGB -> bool.

Lemma style_filtered_In (style_tags : list string) (pool : list WardrobeItem)
    (x : WardrobeItem) :
  In x (style_filtered style_tags pool) -> In x pool.
Proof.
  unfold style_filtered. cbv zeta.
  destruct (sets_meet style_tags _);
    (destruct (nonempty _); [|tauto]); intros H; now apply filter_In in H.
Qed.

Lemma avoid_filtered_In (avoid : list string) (pool : list WardrobeItem)
    (x : WardrobeItem) :
  In x (avoid_filtered near avoid pool) ->
  In x pool
  /\ (nonempty avoid = true -> _color_match near (tags x) [] avoid = true).
Proof.
  unfold avoid_filtered. destruct (nonempty avoid).
  - intros H. apply filter_In in H as [H1 H2]. auto.
  - intros H. split; [assumption | discriminate].
Qed.

Lemma ethnic_filtered_In (style_tags : list string) (pool : list WardrobeItem)
    (x : WardrobeItem) :
  In x (ethnic_filtered style_tags pool) -> In x pool.
Proof.
  unfold ethnic_filtered. destruct (_ || _); [|tauto]. cbv zeta.
  destruct (nonempty _); [|tauto]. intros H. now apply filter_In in H.
Qed.

Lemma candidates_In (style_tags avoid : list string) (pool : list WardrobeItem)
    (x : WardrobeItem) :
  In x (candidates near style_tags avoid pool) ->
  In x pool
  /\ (nonempty avoid = true -> _color_match near (tags x) [] avoid = true).
Proof.
  unfold candidates. intros H. apply ethnic_filtered_In in H.
  apply avoid_filtered_In in H as [H1 H2]. apply style_filtered_In in H1. auto.
Qed.

Lemma formal_filtered_In (occasions style_tags : list string)
    (pool : list WardrobeItem) (x : WardrobeItem) :
  In x (formal_filtered occasions style_tags pool) -> In x pool.
Proof.
  unfold formal_filtered. destruct (formal_only _ _); [|tauto].
  intros H. now apply filter_In in H.
Qed.

Lemma color_narrowed_In (colors avoid : list string) (pool : list WardrobeItem)
    (x : WardrobeItem) :
  In x (color_narrowed near colors avoid pool) -> In x pool.
Proof.
  unfold color_narrowed. cbv zeta. destruct (nonempty _); [|tauto].
  intros H. now apply filter_In in H.
Qed.

Lemma party_candidates_tops (tops bottoms tops_all bottoms_all : list WardrobeItem)
    (style_tags : list string) (x : WardrobeItem) :
  In x (fst (party_candidates tops bottoms tops_all bottoms_all style_tags)) ->
  In x tops \/ (is_ethnic style_tags = true /\ In x tops_all).
Proof.
  unfold party_candidates. cbv zeta.
  destruct (_ && is_ethnic style_tags) eqn:Hc; cbn [fst].
  - apply andb_true_iff in Hc as [_ He]. intros H. apply filter_In in H as [H _].
    auto.
  - destruct (nonempty (List.filter (fun t => has_tag_in (tags t) party_priority_tags)
                          tops));
      intros H; apply filter_In in H as [H _]; auto.
Qed.

Lemma party_candidates_bottoms (tops bottoms tops_all bottoms_all : list WardrobeItem)
    (style_tags : list string) (x : WardrobeItem) :
  In x (snd (party_candidates tops bottoms tops_all bottoms_all style_tags)) ->
  In x bottoms \/ (is_ethnic style_tags = true /\ In x bottoms_all).
Proof.
  unfold party_candidates. cbv zeta.
  destruct (_ && is_ethnic style_tags) eqn:Hc; cbn [snd].
  - apply andb_true_iff in Hc as [_ He]. intros H. apply filter_In in H as [H _].
    auto.
  - destruct (nonempty (List.filter (fun b => has_tag_in (tags b) party_priority_tags)
                          bottoms));
      intros H; apply filter_In in H as [H _]; auto.
Qed.

Lemma one_pieces_of_In (its : list WardrobeItem) (g : string) (x : WardrobeItem) :
  In x (one_pieces_of its g) ->
  In x its /\ (category x = "one-piece" \/ category x = "one_piece").
Proof.
  unfold one_pieces_of. destruct (String.eqb g "female"); [|contradiction].
  intros H. apply in_app_or in H as [H|H];
    apply filter_category_In in H as [H1 H2]; auto.
Qed.

Lemma _filter_by_profile_In (wardrobe_db : list WardrobeItem)
    (profile : UserProfile) (x : WardrobeItem) :
  In x (_filter_by_profile wardrobe_db profile) ->
  In x wardrobe_db /\ eligible profile x.
Proof.
  unfold _filter_by_profile. intros H. apply filter_In in H as [H1 H2].
  split; [assumption|]. apply andb_true_iff in H2 as [Ha Hg].
  unfold Text.mem in Ha, Hg. simpl in Ha, Hg. rewrite orb_false_r in Ha, Hg.
  apply orb_true_iff in Ha, Hg. unfold eligible.
  rewrite !String.eqb_eq in Ha, Hg. split.
  - destruct Ha as [Ha|Ha]; [left|right]; assumption.
  - destruct Hg as [Hg|Hg]; [left|right]; assumption.
Qed.

End Pools.

(** ** The whole composition *)

Section Compose.

Variable near : RGB -> RGB -> bool.
Variables T B L O W : WardrobeItem -> Prop.
Variable wardrobe_db : list WardrobeItem.
Variable profile : UserProfile.
Variables colors occasions avoid : list string.
Variable layer_needed : bool.

Local Abbreviation its := (_filter_by_profile wardrobe_db profile).
Local Abbreviation g := (profile_gender profile).
Local Abbreviation style_tags := (style_tags_of occasions).

Hypothesis tops_T :
  forall t,
    In t (candidates near style_tags avoid (filter_category its "topwear" g)) ->
    T t.
Hypothesis tops_all_T :
  is_party occasions = true -> is_ethnic style_tags = true ->
  forall t, In t (filter_category its "topwear" g) -> T t.
Hypothesis bottoms_B :
  forall b,
    In b (candidates near style_tags avoid (filter_category its "bottomwear" g)) ->
    B b.
Hypothesis bottoms_all_B :
  is_party occasions = true -> is_ethnic style_tags = true ->
  forall b, In b (filter_category its "bottomwear" g) -> B b.
Hypothesis layers_L : forall l, In l (filter_category its "layer" g) -> L l.
Hypothesis one_pieces_O : forall o, In o (one_pieces_of its g) -> O o.
Hypothesis swimwear_W : forall w, In w its -> category w = "swimwear" -> W w.

Lemma compose_outfits_adm :
  run_spec
    (compose_outfits near wardrobe_db profile colors occasions avoid layer_needed)
    lookup_failure (Forall (admissible T B L O W)).
Proof.
  unfold compose_outfits. cbv zeta.
  destruct (is_swimming occasions style_tags).
  { apply spec_ret. now apply swimming_branch_adm. }
  destruct (is_active occasions).
  { apply active_branch_adm; assumption. }
  assert (HfT : forall t,
            In t (formal_filtered occasions style_tags
                    (candidates near style_tags avoid
                       (filter_category its "topwear" g))) -> T t).
  { intros t Ht. apply formal_filtered_In in Ht. now apply tops_T. }
  assert (HfB : forall b,
            In b (formal_filtered occasions style_tags
                    (candidates near style_tags avoid
                       (filter_category its "bottomwear" g))) -> B b).
  { intros b Hb. apply formal_filtered_In in Hb. now apply bottoms_B. }
  destruct (is_party occasions) eqn:Hparty.
  2: { apply default_branch_adm; assumption. }
  match goal with |- context [party_candidates ?a ?b ?c ?d ?e] =>
    set (pc := party_candidates a b c d e) end.
  assert (HpT : forall t, In t (fst pc) -> T t).
  { intros t Ht. apply party_candidates_tops in Ht as [Ht|[He Ht]]; auto. }
  assert (HpB : forall b, In b (snd pc) -> B b).
  { intros b Hb. apply party_candidates_bottoms in Hb as [Hb|[He Hb]]; auto. }
  destruct (nonempty colors).
  2: { apply default_branch_adm; assumption. }
  destruct (_ && _).
  - apply spec_ret. apply party_one_piece_outfits_adm.
    + intros o Ho. apply filter_In in Ho as [Ho _].
      apply filter_In in Ho as [Ho _]. now apply one_pieces_O.
    + intros t Ht. apply color_narrowed_In in Ht. auto.
    + intros b Hb. apply color_narrowed_In in Hb. auto.
  - apply party_pair_outfits_adm; auto.
    + intros t Ht. apply color_narrowed_In in Ht. auto.
    + intros b Hb. apply color_narrowed_In in Hb. auto.
Qed.

End Compose.

(** ** Where the returned items come from *)

Lemma run_spec_returns {A} (m : M A) (E : exn -> Prop) (Q : A -> Prop)
    (r r' : Random) (a : A) :
  run_spec m E Q -> m r = (inr a, r') -> Q a.
Proof. intros H Hr. specialize (H r). now rewrite Hr in H. Qed.

Lemma run_spec_raises {A} (m : M A) (E : exn -> Prop) (Q : A -> Prop)
    (r : Random) (e : exn) :
  run_spec m E Q -> fst (m r) = inl e -> E e.
Proof. intros H Hr. specialize (H r). now rewrite Hr in H. Qed.

Lemma existsb_filter {A} (p f : A -> bool) (l : list A) :
  existsb f (List.filter p l) = existsb (fun x => p x && f x) l.
Proof.
  induction l as [|x l IH]; simpl; [reflexivity|].
  destruct (p x); simpl; now rewrite IH.
Qed.

Lemma _color_match_no_request (near : RGB -> RGB -> bool) (x : WardrobeItem)
    (avoid : list string) :
  _color_match near (tags x) [] avoid = negb (wears_forbidden near avoid x).
Proof.
  unfold _color_match, wears_forbidden. cbv zeta. rewrite existsb_filter.
  now destruct (existsb _ (tags x)).
Qed.

Lemma wears_forbidden_nil (near : RGB -> RGB -> bool) (x : WardrobeItem) :
  wears_forbidden near [] x = false.
Proof.
  unfold wears_forbidden. induction (tags x) as [|tag l IH]; simpl; [reflexivity|].
  now rewrite andb_false_r.
Qed.

Lemma candidates_safe (near : RGB -> RGB -> bool) (style_tags avoid : list string)
    (pool : list WardrobeItem) (x : WardrobeItem) :
  In x (candidates near style_tags avoid pool) ->
  wears_forbidden near avoid x = false.
Proof.
  intros H. apply candidates_In in H as [_ H].
  destruct avoid as [|fc avoid]; [apply wears_forbidden_nil|].
  specialize (H eq_refl). rewrite _color_match_no_request in H.
  now apply negb_true_iff in H.
Qed.

Lemma filter_category_sourced (wardrobe_db : list WardrobeItem)
    (profile : UserProfile) (cat g : string) (x : WardrobeItem) :
  In x (filter_category (_filter_by_profile wardrobe_db profile) cat g) ->
  sourced wardrobe_db profile [cat] x.
Proof.
  intros H. apply filter_category_In in H as [H1 H2].
  apply _filter_by_profile_In in H1 as [H1 H3].
  repeat split; try assumption; try apply H3. now left.
Qed.

Lemma compose_outfits_sourced (near : RGB -> RGB -> bool)
    (wardrobe_db : list WardrobeItem) (profile : UserProfile)
    (colors occasions avoid : list string) (layer_needed : bool) :
  run_spec
    (compose_outfits near wardrobe_db profile colors occasions avoid layer_needed)
    lookup_failure
    (Forall (well_sourced near wardrobe_db profile occasions avoid)).
Proof.
  apply compose_outfits_adm.
  - intros t Ht. split; [|intros _; eapply candidates_safe, Ht].
    apply candidates_In in Ht as [Ht _]. eapply filter_category_sourced, Ht.
  - intros Hp He t Ht. split; [eapply filter_category_sourced, Ht|].
    rewrite Hp, He. discriminate.
  - intros b Hb. split; [|intros _; eapply candidates_safe, Hb].
    apply candidates_In in Hb as [Hb _]. eapply filter_category_sourced, Hb.
  - intros Hp He b Hb. split; [eapply filter_category_sourced, Hb|].
    rewrite Hp, He. discriminate.
  - intros l Hl. eapply filter_category_sourced, Hl.
  - intros o Ho. apply one_pieces_of_In in Ho as [H1 H2].
    apply _filter_by_profile_In in H1 as [H1 H3].
    repeat split; try assumption; try apply H3.
    simpl. destruct H2 as [H2|H2]; rewrite H2; auto.
  - intros w Hw Hc. apply _filter_by_profile_In in Hw as [H1 H3].
    repeat split; try assumption; try apply H3. rewrite Hc. now left.
Qed.

Lemma recommend_outfits_sourced (near : RGB -> RGB -> bool)
    (USER_DB : gmap string UserRecord) (wardrobe_db : list WardrobeItem)
    (now : Clock) (prompt username : string) (u : UserRecord) :
  USER_DB !! username = Some u ->
  run_spec (recommend_outfits near USER_DB wardrobe_db now prompt username)
    lookup_failure
    (fun res =>
       Forall
         (well_sourced near wardrobe_db (preferences u)
            (Prompt.occasions (Prompt.extract_prompt_requirements prompt))
            (Prompt.avoid (Prompt.extract_prompt_requirements prompt)))
         (outfits res)).
Proof.
  intros Hu. unfold recommend_outfits, get_user_preferences. rewrite Hu.
  cbv zeta. eapply spec_bind; [apply compose_outfits_sourced|].
  intros outfits Hout. now apply spec_ret.
Qed.

Lemma recommend_outfits_registered (near : RGB -> RGB -> bool)
    (USER_DB : gmap string UserRecord) (wardrobe_db : list WardrobeItem)
    (now : Clock) (prompt username : string) (rng rng' : Random)
    (res : RecommendationResult) :
  recommend_outfits near USER_DB wardrobe_db now prompt username rng
  = (inr res, rng') ->
  exists u, USER_DB !! username = Some u.
Proof.
  unfold recommend_outfits. destruct (USER_DB !! username) as [u|]; [eauto|].
  discriminate.
Qed.

Lemma well_sourced_items (near : RGB -> RGB -> bool)
    (wardrobe_db : list WardrobeItem) (profile : UserProfile)
    (occasions avoid : list string) (o : Outfit) :
  well_sourced near wardrobe_db profile occasions avoid o ->
  Forall (fun x => In x wardrobe_db /\ eligible profile x) (items o).
Proof.
  intros H. destruct H; simpl;
    repeat match goal with
    | H : sourced_pair_item _ _ _ _ _ _ _ |- _ => destruct H as [[? [? ?]] ?]
    | H : sourced _ _ _ _ |- _ => destruct H as [? [? ?]]
    end;
    repeat (apply List.Forall_cons; [split; assumption|]); apply List.Forall_nil.
Qed.

Lemma unique_name (l : list WardrobeItem) (a b : WardrobeItem) :
  List.NoDup (map name l) -> In a l -> In b l -> name a = name b -> a = b.
Proof.
  induction l as [|x l IH]; simpl; [tauto|].
  intros Hnd [Ha|Ha] [Hb|Hb] Hn; inversion Hnd as [|? ? Hx Hl]; subst.
  - reflexivity.
  - exfalso. apply Hx. rewrite Hn. now apply in_map.
  - exfalso. apply Hx. rewrite <- Hn. now apply in_map.
  - now apply IH.
Qed.

Lemma distinct_names (l : list WardrobeItem) (a b : WardrobeItem) :
  List.NoDup (map name l) -> In a l -> In b l ->
  category a <> category b -> name a <> name b.
Proof.
  intros Hnd Ha Hb Hc Hn. apply Hc. f_equal. eapply unique_name; eassumption.
Qed.

Lemma well_sourced_shape (near : RGB -> RGB -> bool)
    (wardrobe_db : list WardrobeItem) (profile : UserProfile)
    (occasions avoid : list string) (o : Outfit) :
  List.NoDup (map name wardrobe_db) ->
  well_sourced near wardrobe_db profile occasions avoid o ->
  (type o = none \/ 1 <= length (items o) <= 3)
  /\ List.NoDup (map name (items o)).
Proof.
  intros Hnd H. destruct H; simpl;
    repeat match goal with
    | H : sourced_pair_item _ _ _ _ _ _ _ |- _ => destruct H as [[? [? ?]] ?]
    | H : sourced _ _ _ _ |- _ => destruct H as [? [? ?]]
    end;
    (split; [auto; right; lia|]);
    repeat match goal with
    | H : In (category _) _ |- _ => simpl in H
    end;
    repeat constructor; simpl; try tauto;
    intuition idtac;
    match goal with
    | H : name ?a = name ?b |- _ =>
        eapply (distinct_names wardrobe_db a b); try eassumption; congruence
    end.
Qed.

Lemma well_sourced_safe (near : RGB -> RGB -> bool)
    (wardrobe_db : list WardrobeItem) (profile : UserProfile)
    (occasions avoid : list string) (o : Outfit) (x : WardrobeItem) :
  well_sourced near wardrobe_db profile occasions avoid o ->
  is_party occasions && is_ethnic (style_tags_of occasions) = false ->
  In x (items o) ->
  category x = "topwear" \/ category x = "bottomwear" ->
  wears_forbidden near avoid x = false.
Proof.
  intros H Hpe Hx Hc. destruct H; simpl in Hx;
    repeat match goal with
    | H : sourced_pair_item _ _ _ _ _ _ _ |- _ => destruct H as [[? [? ?]] ?]
    | H : sourced _ _ _ _ |- _ => destruct H as [? [? ?]]
    end;
    repeat match goal with
    | H : In (category _) _ |- _ => simpl in H
    end;
    intuition (subst; auto; congruence).
Qed.

(** ** Filling up to three outfits *)

Section Fuel.

Variable E : exn -> Prop.

(** A loop [while size(s) < k] whose body makes [s] one larger has ended by
    itself after [k - size(s)] rounds. *)
Lemma spec_whileM_ends {S} (size : S -> nat) (k : nat) (cond : S -> bool)
    (body : S -> M S) :
  (forall s, cond s = (size s <? k)) ->
  (forall s, run_spec (body s) E (fun s' => size s' = 1 + size s)) ->
  forall fuel s,
    k <= size s + fuel ->
    run_spec (whileM fuel cond body s) E (fun s' => cond s' = false).
Proof.
  intros Hcond Hbody. induction fuel as [|fuel IH]; intros s Hk; simpl.
  - apply spec_ret. rewrite Hcond. apply Nat.ltb_ge. lia.
  - destruct (cond s) eqn:Hc; [|now apply spec_ret].
    eapply spec_bind; [apply Hbody|]. intros s' Hs'. cbv beta in Hs'. apply IH. lia.
Qed.

Lemma spec_loopM_runs {A S R} (l : list A) (body : A -> S -> M (S + R)) (s : S) :
  (forall x s, run_spec (body x s) E (fun _ => True)) ->
  run_spec (loopM l body s) E (fun _ => True).
Proof.
  intros Hbody. eapply spec_weaken.
  - apply (spec_loopM E (fun _ => True) (fun _ => True)); [|exact I].
    intros x s0 _ _. eapply spec_weaken; [apply Hbody|]. now intros [?|?] _.
  - auto.
Qed.

End Fuel.

Lemma with_random_layer_runs (layer_needed : bool) (layers combo : list WardrobeItem) :
  run_spec (with_random_layer layer_needed layers combo) lookup_failure
    (fun _ => True).
Proof.
  unfold with_random_layer. destruct (_ && _); [|now apply spec_ret].
  eapply spec_bind; [apply spec_choice; now left|].
  intros l _. now apply spec_ret.
Qed.

Lemma random_fallback_fills (layer_needed : bool)
    (layers tops bottoms : list WardrobeItem) (outfits : list Outfit) :
  run_spec (random_fallback layer_needed layers tops bottoms outfits)
    lookup_failure (fun outfits' => 3 <= length outfits').
Proof.
  unfold random_fallback. eapply spec_weaken.
  - apply (spec_whileM_ends _ (@length Outfit) 3); [reflexivity| |lia].
    intros o.
    eapply spec_bind; [apply spec_choice; now left|]. intros t _.
    eapply spec_bind; [apply spec_choice; now left|]. intros b _.
    eapply spec_bind; [apply with_random_layer_runs|]. intros c _.
    apply spec_ret. rewrite length_app. simpl. lia.
  - intros o Ho. now apply Nat.ltb_ge in Ho.
Qed.

Lemma active_branch_fills (near : RGB -> RGB -> bool)
    (tops bottoms : list WardrobeItem) (style_tags colors avoid : list string) :
  run_spec (active_branch near tops bottoms style_tags colors avoid)
    lookup_failure (fun outfits => length outfits = 3).
Proof.
  unfold active_branch. cbv zeta.
  eapply spec_bind.
  - apply (spec_whileM_ends _ (fun s : list Outfit * nat => length (fst s)) 3);
      [reflexivity| |simpl; lia].
    intros [o idx]. eapply spec_bind; [apply spec_index_mod; now right|].
    intros p _. apply spec_ret. simpl. rewrite length_app. simpl. lia.
  - intros [o idx] Ho. apply spec_ret. simpl in *. apply Nat.ltb_ge in Ho.
    rewrite length_firstn. lia.
Qed.

Lemma pad_none_length (outfits : list Outfit) : 3 <= length (pad_none outfits).
Proof. unfold pad_none. rewrite length_app, repeat_length. lia. Qed.

Lemma firstn_three {A} (l : list A) : 3 <= length l -> length (firstn 3 l) = 3.
Proof. intros H. rewrite length_firstn. lia. Qed.

Lemma party_pair_outfits_fills (layer_needed : bool)
    (layers party_tops party_bottoms tops_all bottoms_all : list WardrobeItem)
    (style_tags : list string) :
  party_tops <> [] -> party_bottoms <> [] ->
  run_spec
    (party_pair_outfits layer_needed layers party_tops party_bottoms
       tops_all bottoms_all style_tags)
    lookup_failure (fun outfits => 3 <= length outfits).
Proof.
  intros Ht Hb. unfold party_pair_outfits.
  destruct party_tops as [|top tops']; [contradiction|].
  destruct party_bottoms as [|b0 bottoms'] eqn:Hpb; [contradiction|].
  rewrite <- Hpb. clear Hpb Ht Hb.
  eapply spec_bind with (P := fun outfits : list Outfit => 3 <= length outfits).
  - eapply spec_bind with (P := fun _ => True).
    + apply spec_loopM_runs. intros b [outfits used].
      destruct (negb _); [|now apply spec_ret].
      eapply spec_bind; [apply with_random_layer_runs|]. intros c _. cbv zeta.
      destruct (length _ =? 3); now apply spec_ret.
    + intros r _. cbv zeta. eapply spec_weaken.
      * apply (spec_whileM_ends _ (@length Outfit) 3); [reflexivity| |lia].
        intros o.
        eapply spec_bind; [apply spec_choice; now left|]. intros b _.
        eapply spec_bind; [apply with_random_layer_runs|]. intros c _.
        apply spec_ret. rewrite length_app. simpl. lia.
      * intros o Ho. now apply Nat.ltb_ge in Ho.
  - intros outfits Hlen. cbv beta zeta.
    destruct outfits as [|o outfits]; [simpl in Hlen; lia|].
    simpl. now apply spec_ret.
Qed.

Lemma default_branch_three (near : RGB -> RGB -> bool)
    (colors avoid style_tags occasions : list string) (layer_needed : bool)
    (g : string) (its one_pieces layers tops bottoms : list WardrobeItem) :
  run_spec
    (default_branch near colors avoid style_tags occasions layer_needed g its
       one_pieces layers tops bottoms)
    lookup_failure (fun outfits => length outfits = 3).
Proof.
  pose (any := fun _ : WardrobeItem => True).
  assert (Hsw : forall w, In w its -> category w = "swimwear" -> any w)
    by (intros; exact I).
  unfold default_branch.
  eapply spec_bind;
    [apply (one_piece_block_adm near any any any any any);
     try (intros; exact I); constructor|].
  intros p Hp.
  eapply spec_bind;
    [apply (layered_block_adm near any any any any any);
     try (intros; exact I); exact Hp|].
  intros o1 Ho1.
  pose proof (swimwear_block_adm any any any any any style_tags occasions g its
                Hsw o1 (snd p) Ho1) as Ho2.
  destruct (swimwear_block style_tags occasions g its o1 (snd p)) as [o2 used].
  simpl in Ho2.
  eapply spec_bind;
    [apply (make_top_bottom_outfits_adm near any any any any any);
     intros; exact I|].
  intros c1 Hc1.
  eapply spec_bind with (P := Forall (admissible any any any any any)).
  { destruct (0 <? _)%Z.
    - eapply spec_bind;
        [apply (make_top_bottom_outfits_adm near any any any any any);
     intros; exact I|].
      intros c2 Hc2. apply spec_ret. rewrite !List.Forall_app. auto.
    - apply spec_ret. rewrite List.Forall_app. auto. }
  intros o3 Ho3.
  eapply spec_bind;
    [apply (reuse_block_adm any any any any any);
     try (intros; exact I); exact Ho3|].
  intros o4 _.
  eapply spec_bind; [apply random_fallback_fills|].
  intros o5 H5. cbv beta.
  destruct (is_active occasions); apply spec_ret.
  - unfold late_active_block. cbv zeta. apply firstn_three, pad_none_length.
  - now apply firstn_three.
Qed.

Lemma swim_fill_bound (l : list WardrobeItem) :
  forall s,
    length (fst s) < 3 ->
    length (fst (after_break (loop l swim_fill_step s))) <= 3.
Proof.
  induction l as [|sw l IH]; intros [outfits used] Hs; simpl in *; [lia|].
  destruct (negb _).
  - destruct (length (outfits ++ _) =? 3) eqn:Hlen.
    + apply Nat.eqb_eq in Hlen. simpl. lia.
    + apply Nat.eqb_neq in Hlen. apply IH. simpl.
      rewrite length_app in *. simpl in *. lia.
  - destruct (length outfits =? 3) eqn:Hlen; [simpl; lia|].
    apply IH. simpl. lia.
Qed.

Lemma swimming_branch_three_without_colors (near : RGB -> RGB -> bool)
    (its : list WardrobeItem) (g : string) (avoid : list string) :
  length (swimming_branch near its g [] avoid) = 3.
Proof.
  unfold swimming_branch. cbn [nonempty map length Nat.ltb Nat.leb].
  cbv zeta. unfold pad_none. rewrite length_app, repeat_length.
  pose proof (swim_fill_bound (filter_category its "swimwear" g)
                ([], Text.to_set []) ltac:(simpl; lia)).
  lia.
Qed.

(** Without requested colours every call that returns, returns exactly three
    outfits. *)
Lemma compose_outfits_three_without_colors (near : RGB -> RGB -> bool)
    (wardrobe_db : list WardrobeItem) (profile : UserProfile)
    (occasions avoid : list string) (layer_needed : bool) :
  run_spec
    (compose_outfits near wardrobe_db profile [] occasions avoid layer_needed)
    lookup_failure (fun outfits => length outfits = 3).
Proof.
  unfold compose_outfits. cbv zeta.
  destruct (is_swimming _ _).
  { apply spec_ret. apply swimming_branch_three_without_colors. }
  destruct (is_active occasions); [apply active_branch_fills|].
  destruct (is_party occasions); cbn [nonempty]; apply default_branch_three.
Qed.

(** ** The party branch without its ethnic fallback *)

Lemma party_pool_In (pool : list WardrobeItem) (x : WardrobeItem) :
  In x (party_pool pool) -> In x pool.
Proof.
  unfold party_pool. cbv zeta. destruct (nonempty _);
    intros H; now apply filter_In in H.
Qed.

Lemma party_candidates_pools
    (tops bottoms tops_all bottoms_all : list WardrobeItem)
    (style_tags : list string) :
  (negb (nonempty (party_pool tops)) || negb (nonempty (party_pool bottoms)))
  && is_ethnic style_tags = false ->
  party_candidates tops bottoms tops_all bottoms_all style_tags
  = (party_pool tops, party_pool bottoms).
Proof.
  intros H. unfold party_candidates. cbv zeta.
  fold (party_pool tops). fold (party_pool bottoms). now rewrite H.
Qed.

Lemma color_narrowed_nonempty (near : RGB -> RGB -> bool)
    (colors avoid : list string) (pool : list WardrobeItem) :
  nonempty pool = true -> nonempty (color_narrowed near colors avoid pool) = true.
Proof.
  intros H. unfold color_narrowed. cbv zeta.
  destruct (nonempty (List.filter _ pool)) eqn:Hf; assumption.
Qed.

(** Two continuations that agree on every value the first computation can
    return give the same computation. *)
Lemma bind_agree {A B} (m : M A) (k k' : A -> M B) (E : exn -> Prop)
    (P : A -> Prop) :
  run_spec m E P -> (forall a, P a -> k a = k' a) ->
  forall r, bind m k r = bind m k' r.
Proof.
  intros Hm Hk r. unfold bind. specialize (Hm r).
  destruct (m r) as [[e|a] r']; simpl in Hm; [reflexivity|]. now rewrite Hk.
Qed.

Lemma run_spec_agree {A} (m m' : M A) (E : exn -> Prop) (Q : A -> Prop) :
  (forall r, m r = m' r) -> run_spec m' E Q -> run_spec m E Q.
Proof. intros H Hm r. rewrite H. apply Hm. Qed.

(** With a party top and a party bottom at hand, lines 417-436 produce three
    outfits and the fallback of lines 438-445 is not taken: the unfiltered
    pools are not read. *)
Lemma party_pair_outfits_pools (layer_needed : bool)
    (layers party_tops party_bottoms tops_all bottoms_all : list WardrobeItem)
    (style_tags : list string) (r : Random) :
  nonempty party_tops = true -> nonempty party_bottoms = true ->
  party_pair_outfits layer_needed layers party_tops party_bottoms
    tops_all bottoms_all style_tags r
  = party_pair_outfits layer_needed layers party_tops party_bottoms
      [] [] style_tags r.
Proof.
  intros Ht Hb. unfold party_pair_outfits.
  destruct party_tops as [|top tops']; [discriminate|].
  destruct party_bottoms as [|b0 bottoms'] eqn:Hpb; [discriminate|].
  rewrite <- Hpb. clear Hpb Ht Hb.
  apply (bind_agree _ _ _ lookup_failure
           (fun outfits : list Outfit => 3 <= length outfits)).
  - eapply spec_bind with (P := fun _ => True).
    + apply spec_loopM_runs. intros b [outfits used].
      destruct (negb _); [|now apply spec_ret].
      eapply spec_bind; [apply with_random_layer_runs|]. intros c _. cbv zeta.
      destruct (length _ =? 3); now apply spec_ret.
    + intros r0 _. cbv zeta. eapply spec_weaken.
      * apply (spec_whileM_ends _ (@length Outfit) 3); [reflexivity| |lia].
        intros o.
        eapply spec_bind; [apply spec_choice; now left|]. intros b _.
        eapply spec_bind; [apply with_random_layer_runs|]. intros c _.
        apply spec_ret. rewrite length_app. simpl. lia.
      * intros o Ho. now apply Nat.ltb_ge in Ho.
  - intros outfits Hlen.
    destruct outfits as [|o outfits]; [simpl in Hlen; lia|]. reflexivity.
Qed.

Section WithoutFallback.

Variable near : RGB -> RGB -> bool.
Variables T B L O W : WardrobeItem -> Prop.
Variable wardrobe_db : list WardrobeItem.
Variable profile : UserProfile.
Variables colors occasions avoid : list string.
Variable layer_needed : bool.

Local Abbreviation its := (_filter_by_profile wardrobe_db profile).
Local Abbreviation g := (profile_gender profile).
Local Abbreviation style_tags := (style_tags_of occasions).

Hypothesis tops_T :
  forall t,
    In t (candidates near style_tags avoid (filter_category its "topwear" g)) ->
    T t.
Hypothesis bottoms_B :
  forall b,
    In b (candidates near style_tags avoid (filter_category its "bottomwear" g)) ->
    B b.
Hypothesis layers_L : forall l, In l (filter_category its "layer" g) -> L l.
Hypothesis one_pieces_O : forall o, In o (one_pieces_of its g) -> O o.
Hypothesis swimwear_W : forall w, In w its -> category w = "swimwear" -> W w.
Hypothesis no_fallback :
  takes_ethnic_fallback near wardrobe_db profile occasions avoid = false.

(** Unless line 378 sends the party branch to the unfiltered pools, every
    top and every bottom of an outfit is a candidate of lines 270-302. *)
Lemma compose_outfits_adm_without_fallback :
  run_spec
    (compose_outfits near wardrobe_db profile colors occasions avoid layer_needed)
    lookup_failure (Forall (admissible T B L O W)).
Proof.
  pose proof no_fallback as Hno. unfold takes_ethnic_fallback in Hno.
  cbv zeta in Hno.
  unfold compose_outfits. cbv zeta.
  destruct (is_swimming occasions style_tags) eqn:Hswim.
  { apply spec_ret. now apply swimming_branch_adm. }
  destruct (is_active occasions) eqn:Hactive.
  { apply active_branch_adm; assumption. }
  assert (HfT : forall t,
            In t (formal_filtered occasions style_tags
                    (candidates near style_tags avoid
                       (filter_category its "topwear" g))) -> T t).
  { intros t Ht. apply formal_filtered_In in Ht. now apply tops_T. }
  assert (HfB : forall b,
            In b (formal_filtered occasions style_tags
                    (candidates near style_tags avoid
                       (filter_category its "bottomwear" g))) -> B b).
  { intros b Hb. apply formal_filtered_In in Hb. now apply bottoms_B. }
  destruct (is_party occasions) eqn:Hparty.
  2: { apply default_branch_adm; assumption. }
  cbn [negb andb] in Hno.
  rewrite (party_candidates_pools _ _ _ _ _ Hno). cbn [fst snd].
  assert (HpT : forall t,
            In t (party_pool
                    (formal_filtered occasions style_tags
                       (candidates near style_tags avoid
                          (filter_category its "topwear" g)))) -> T t).
  { intros t Ht. apply party_pool_In in Ht. auto. }
  assert (HpB : forall b,
            In b (party_pool
                    (formal_filtered occasions style_tags
                       (candidates near style_tags avoid
                          (filter_category its "bottomwear" g)))) -> B b).
  { intros b Hb. apply party_pool_In in Hb. auto. }
  destruct (nonempty colors).
  2: { apply default_branch_adm; assumption. }
  destruct (String.eqb g "female" && _).
  - apply spec_ret. apply party_one_piece_outfits_adm.
    + intros o Ho. apply filter_In in Ho as [Ho _].
      apply filter_In in Ho as [Ho _]. now apply one_pieces_O.
    + intros t Ht. apply color_narrowed_In in Ht. auto.
    + intros b Hb. apply color_narrowed_In in Hb. auto.
  - destruct (is_ethnic style_tags) eqn:He.
    + rewrite andb_true_r in Hno. apply orb_false_iff in Hno as [H1 H2].
      apply negb_false_iff in H1, H2.
      eapply run_spec_agree.
      { intros r. apply party_pair_outfits_pools;
          apply color_narrowed_nonempty; assumption. }
      apply party_pair_outfits_adm.
      * exact layers_L.
      * intros t Ht. apply color_narrowed_In in Ht. auto.
      * intros b Hb. apply color_narrowed_In in Hb. auto.
      * intros _ t [].
      * intros _ b [].
    + apply party_pair_outfits_adm.
      * exact layers_L.
      * intros t Ht. apply color_narrowed_In in Ht. auto.
      * intros b Hb. apply color_narrowed_In in Hb. auto.
      * intros Hf. congruence.
      * intros Hf. congruence.
Qed.

End WithoutFallback.

(** * The claims *)

(** C1. The result is meant to hold exactly three outfits on every path.
    On the one-piece party path the source fills the missing slots only
    when both a party top and a party bottom exist: for a female profile, the
    prompt "party in red" and a wardrobe that holds one red party dress and
    nothing else, the call returns a single outfit, for every colour test
    under which a colour is near itself and every random source. *)
Theorem party_one_piece_returns_one_outfit (near : RGB -> RGB -> bool)
    (rng : Random) :
  (forall c, near c c = true) ->
  match
    fst (recommend_outfits near Sample.users [Sample.red_dress]
           Sample.june_noon "party in red" "ann" rng)
  with
  | inr res => map type (outfits res) = [one_piece]
  | inl _ => False
  end.
Proof. intros Hnear. vm_compute. rewrite !Hnear. reflexivity. Qed.

(** C2. The engine is meant never to raise on empty candidate sets.  For
    the prompt "gym" and an empty wardrobe the active branch indexes an
    empty list of pairs modulo its length and the call raises
    [ZeroDivisionError], whatever the colour test and the random source. *)
Theorem active_branch_raises_on_empty_wardrobe
    (near : RGB -> RGB -> bool) (rng : Random) :
  fst (recommend_outfits near Sample.users [] Sample.june_noon "gym" "ann" rng)
  = inl ZeroDivisionError.
Proof. vm_compute. reflexivity. Qed.

(** The default path fails in the same way: with no top to choose from, the
    last fallback calls [random.choice] on an empty list. *)
Lemma random_fallback_raises_on_empty_wardrobe
    (near : RGB -> RGB -> bool) (rng : Random) :
  fst (recommend_outfits near Sample.users [] Sample.june_noon "hello" "ann" rng)
  = inl IndexError.
Proof. vm_compute. reflexivity. Qed.

Lemma same_rgb_refl (c : RGB) : same_rgb c c = true.
Proof. destruct c as [[r g] b]. simpl. now rewrite !Nat.eqb_refl. Qed.

(** For every colour test under which a colour is near itself, a swimming
    prompt that forbids black still returns the black swimsuit. *)
Lemma forbidden_swimwear_returned (near : RGB -> RGB -> bool) :
  (forall c, near c c = true) ->
  ~ no_forbidden_item_claim near Sample.users [Sample.black_swimsuit]
      Sample.june_noon "swimming avoid black" "ann" Sample.seed.
Proof.
  intros Hnear H. unfold no_forbidden_item_claim in H.
  destruct (recommend_outfits near Sample.users [Sample.black_swimsuit]
              Sample.june_noon "swimming avoid black" "ann" Sample.seed)
    as [[e|res] rng'] eqn:Hrun; [vm_compute in Hrun; discriminate|].
  specialize (H res rng' eq_refl).
  vm_compute in Hrun. injection Hrun as <- <-.
  assert (Hbad : wears_forbidden near ["black"] Sample.black_swimsuit = true).
  { unfold wears_forbidden, _color_distance_below_15. simpl.
    change (to_rgb "black") with (0, 0, 0). now rewrite Hnear. }
  assert (Hsafe : wears_forbidden near ["black"] Sample.black_swimsuit = false).
  { apply H; [vm_compute; discriminate | vm_compute; now left]. }
  congruence.
Qed.

(** C3 (as stated). The claim fails for three of the five categories it
    names: forbidden colours are not applied to swimwear, nor to a one-piece
    or a layer that is chosen when no colour is requested.  It also fails
    for a top when the party branch, for want of party wear, turns to the
    whole category (line 378).  Each of the four calls returns a black item
    although black is forbidden. *)
Lemma forbidden_items_counterexample :
  ~ no_forbidden_item_claim same_rgb Sample.users [Sample.black_swimsuit]
      Sample.june_noon "swimming avoid black" "ann" Sample.seed
  /\ ~ no_forbidden_item_claim same_rgb Sample.users Sample.closet
        Sample.june_noon "party, avoid black" "ann" Sample.seed
  /\ ~ no_forbidden_item_claim same_rgb Sample.users Sample.closet
        Sample.june_noon "a cold picnic, avoid black" "ann" Sample.seed
  /\ ~ no_forbidden_item_claim same_rgb Sample.users Sample.ethnic_closet
        Sample.june_noon "ethnic party, avoid black" "ann" Sample.seed.
Proof.
  split; [apply forbidden_swimwear_returned, same_rgb_refl|]. split; [|split].
  3: { intros H. unfold no_forbidden_item_claim in H.
       destruct (recommend_outfits same_rgb Sample.users Sample.ethnic_closet
                   Sample.june_noon "ethnic party, avoid black" "ann"
                   Sample.seed)
         as [[e|res] rng'] eqn:Hrun; [vm_compute in Hrun; discriminate|].
       specialize (H res rng' eq_refl).
       vm_compute in Hrun. injection Hrun as <- <-.
       assert (Hsafe : wears_forbidden same_rgb ["black"] Sample.black_kurta
                       = false).
       { apply H; [vm_compute; discriminate | vm_compute; tauto]. }
       vm_compute in Hsafe. discriminate. }
  - intros H. unfold no_forbidden_item_claim in H.
    destruct (recommend_outfits same_rgb Sample.users Sample.closet
                Sample.june_noon "party, avoid black" "ann" Sample.seed)
      as [[e|res] rng'] eqn:Hrun; [vm_compute in Hrun; discriminate|].
    specialize (H res rng' eq_refl).
    vm_compute in Hrun. injection Hrun as <- <-.
    assert (Hsafe : wears_forbidden same_rgb ["black"] Sample.black_dress
                    = false).
    { apply H; [vm_compute; discriminate | vm_compute; tauto]. }
    vm_compute in Hsafe. discriminate.
  - intros H. unfold no_forbidden_item_claim in H.
    destruct (recommend_outfits same_rgb Sample.users Sample.closet
                Sample.june_noon "a cold picnic, avoid black" "ann" Sample.seed)
      as [[e|res] rng'] eqn:Hrun; [vm_compute in Hrun; discriminate|].
    specialize (H res rng' eq_refl).
    vm_compute in Hrun. injection Hrun as <- <-.
    assert (Hsafe : wears_forbidden same_rgb ["black"] Sample.black_coat
                    = false).
    { apply H; [vm_compute; discriminate | vm_compute; tauto]. }
    vm_compute in Hsafe. discriminate.
Qed.

(** C3 (amended). No topwear or bottomwear item of a returned outfit has a
    colour tag within the threshold of a forbidden colour, except in calls
    that reach line 378 with its condition true: the party branch, with an
    ethnic or traditional style, has no party top or no party bottom left
    and reads the unfiltered categories. *)
Theorem tops_and_bottoms_avoid_forbidden (near : RGB -> RGB -> bool)
    (USER_DB : gmap string UserRecord) (wardrobe_db : list WardrobeItem)
    (now : Clock) (prompt username : string) (u : UserRecord)
    (rng rng' : Random) (res : RecommendationResult) (x : WardrobeItem) :
  USER_DB !! username = Some u ->
  recommend_outfits near USER_DB wardrobe_db now prompt username rng
  = (inr res, rng') ->
  takes_ethnic_fallback near wardrobe_db (preferences u)
    (Prompt.occasions (Prompt.extract_prompt_requirements prompt))
    (Prompt.avoid (Prompt.extract_prompt_requirements prompt)) = false ->
  In x (returned_items res) ->
  category x = "topwear" \/ category x = "bottomwear" ->
  wears_forbidden near
    (Prompt.avoid (Prompt.extract_prompt_requirements prompt)) x = false.
Proof.
  intros Hu Hrun Hno Hx Hc.
  set (avoid := Prompt.avoid (Prompt.extract_prompt_requirements prompt)) in *.
  set (occasions :=
         Prompt.occasions (Prompt.extract_prompt_requirements prompt)) in *.
  pose (T := fun t : WardrobeItem => wears_forbidden near avoid t = false).
  pose (L := fun l : WardrobeItem => category l = "layer").
  pose (O := fun o : WardrobeItem =>
               category o = "one-piece" \/ category o = "one_piece").
  pose (W := fun w : WardrobeItem => category w = "swimwear").
  assert (Hspec : run_spec
                    (recommend_outfits near USER_DB wardrobe_db now prompt
                       username)
                    lookup_failure
                    (fun res => Forall (admissible T T L O W) (outfits res))).
  { unfold recommend_outfits, get_user_preferences. rewrite Hu. cbv zeta.
    eapply spec_bind; [|intros o Ho; apply spec_ret; exact Ho].
    apply compose_outfits_adm_without_fallback.
    - intros t Ht. eapply candidates_safe, Ht.
    - intros b Hb. eapply candidates_safe, Hb.
    - intros l Hl. now apply filter_category_In in Hl.
    - intros o Ho. now apply one_pieces_of_In in Ho.
    - intros w _ Hw. exact Hw.
    - exact Hno. }
  pose proof (run_spec_returns _ _ _ _ _ _ Hspec Hrun) as Hadm.
  apply in_flat_map in Hx as [o [Ho Hx]].
  pose proof (proj1 (List.Forall_forall _ _) Hadm o Ho) as Hadm_o.
  unfold L, O, W, T in Hadm_o.
  destruct Hadm_o; simpl in Hx;
    repeat match goal with
    | H : _ \/ _ |- _ => destruct H
    | H : False |- _ => destruct H
    end;
    subst; try assumption; congruence.
Qed.

(** C5. Every item of every returned outfit passes the profile filter: its
    age group is "all" or the profile's, its gender "unisex" or the
    profile's. *)
Theorem returned_items_eligible (near : RGB -> RGB -> bool)
    (USER_DB : gmap string UserRecord) (wardrobe_db : list WardrobeItem)
    (now : Clock) (prompt username : string) (u : UserRecord)
    (rng rng' : Random) (res : RecommendationResult) :
  USER_DB !! username = Some u ->
  recommend_outfits near USER_DB wardrobe_db now prompt username rng
  = (inr res, rng') ->
  Forall (eligible (preferences u)) (returned_items res).
Proof.
  intros Hu Hrun.
  pose proof (run_spec_returns _ _ _ _ _ _
                (recommend_outfits_sourced near _ wardrobe_db now prompt _ _ Hu)
                Hrun) as Hsrc.
  apply List.Forall_flat_map. eapply List.Forall_impl; [|exact Hsrc].
  intros o Ho. apply well_sourced_items in Ho.
  eapply List.Forall_impl; [|exact Ho]. intros x Hx. apply Hx.
Qed.

(** C6. When the item names of the catalogue are unique, every returned
    outfit that is not a none-type placeholder holds between one and three
    items, and no outfit holds two items of the same name. *)
Theorem outfits_well_formed (near : RGB -> RGB -> bool)
    (USER_DB : gmap string UserRecord) (wardrobe_db : list WardrobeItem)
    (now : Clock) (prompt username : string) (rng rng' : Random)
    (res : RecommendationResult) :
  List.NoDup (map name wardrobe_db) ->
  recommend_outfits near USER_DB wardrobe_db now prompt username rng
  = (inr res, rng') ->
  Forall
    (fun o =>
       (type o = none \/ 1 <= length (items o) <= 3)
       /\ List.NoDup (map name (items o)))
    (outfits res).
Proof.
  intros Hnd Hrun.
  destruct (recommend_outfits_registered _ _ _ _ _ _ _ _ _ Hrun) as [u Hu].
  pose proof (run_spec_returns _ _ _ _ _ _
                (recommend_outfits_sourced near _ wardrobe_db now prompt _ _ Hu)
                Hrun) as Hsrc.
  eapply List.Forall_impl; [|exact Hsrc].
  intros o Ho. eapply well_sourced_shape; eassumption.
Qed.

(** C7. The occasion list is never empty; when the prompt matches no
    occasion key, no synonym and no forced ethnic term, it is ["casual"] if
    the prompt contains an outing word and ["general"] otherwise. *)
Theorem occasions_fallback (prompt : string) :
  Prompt.occasions (Prompt.extract_prompt_requirements prompt) <> []
  /\ (no_occasion_match (Prompt.normalized prompt) = true ->
      Prompt.occasions (Prompt.extract_prompt_requirements prompt)
      = if Prompt.outing_like (Prompt.normalized prompt)
        then ["casual"] else ["general"]).
Proof.
  unfold Prompt.extract_prompt_requirements. cbn [Prompt.occasions].
  fold (Prompt.normalized prompt). set (p := Prompt.normalized prompt).
  split.
  - destruct (Prompt.expanded_occasions p) eqn:He; simpl; congruence.
  - unfold no_occasion_match. intros H.
    apply andb_true_iff in H as [H H4]. apply andb_true_iff in H as [H H3].
    apply andb_true_iff in H as [H1 H2].
    apply negb_true_iff in H1, H2, H3, H4.
    unfold Prompt.expanded_occasions.
    rewrite (PromptFacts.findall_key_none _ _ H1).
    rewrite (PromptFacts.add_substring_keys_none _ H1).
    change (Text.to_set []) with (@nil string).
    rewrite (PromptFacts.expand_by_prompt_none _ H2).
    change (Prompt.expand_by_occasion [] []) with (@nil string).
    rewrite H3, H4. simpl.
    destruct (Prompt.outing_like p); reflexivity.
Qed.

(** C8. For a username that is not in the credential store the call raises
    the authorization error and leaves the random source untouched; for a
    registered username it never raises a [ValueError]. *)
Theorem recommend_outfits_authorization (near : RGB -> RGB -> bool)
    (USER_DB : gmap string UserRecord) (wardrobe_db : list WardrobeItem)
    (now : Clock) (prompt username : string) (rng : Random) :
  (USER_DB !! username = None ->
   recommend_outfits near USER_DB wardrobe_db now prompt username rng
   = (inl (ValueError "User not authenticated"), rng))
  /\ (is_Some (USER_DB !! username) ->
      forall msg,
        fst (recommend_outfits near USER_DB wardrobe_db now prompt username rng)
        <> inl (ValueError msg)).
Proof.
  split.
  - intros H. unfold recommend_outfits. now rewrite H.
  - intros [u Hu] msg Hraise.
    pose proof (run_spec_raises _ _ _ _ _
                  (recommend_outfits_sourced near _ wardrobe_db now prompt _ _ Hu)
                  Hraise) as [H|H]; discriminate.
Qed.

(** C10. [set_user_preferences] for a username that is not in the store
    returns the store unchanged, so every user keeps password hash and
    preferences. *)
Theorem set_user_preferences_unknown_user (USER_DB : gmap string UserRecord)
    (username : string) (prefs : UserProfile) :
  USER_DB !! username = None ->
  set_user_preferences USER_DB username prefs = USER_DB
  /\ forall other, set_user_preferences USER_DB username prefs !! other
                   = USER_DB !! other.
Proof.
  intros H. rewrite (set_preferences_noop _ _ _ H). auto.
Qed.

(** ** The swimming branch *)

Lemma mem_In (n : string) (l : list string) : Text.mem n l = true <-> In n l.
Proof.
  unfold Text.mem. rewrite existsb_exists. split.
  - intros [x [Hx He]]. apply String.eqb_eq in He. now subst.
  - intros H. exists n. split; [assumption | apply String.eqb_refl].
Qed.

Lemma mem_set_add (n x : string) (s : list string) :
  Text.mem n (Text.set_add x s) = true <-> n = x \/ Text.mem n s = true.
Proof.
  unfold Text.set_add. destruct (Text.mem x s) eqn:Hx.
  - split; [auto|]. intros [->|H]; assumption.
  - rewrite !mem_In, in_app_iff. simpl. intuition.
Qed.

Lemma mem_set_update (n : string) (xs s : list string) :
  Text.mem n (Text.set_update xs s) = true -> In n xs \/ Text.mem n s = true.
Proof.
  unfold Text.set_update. revert s.
  induction xs as [|x xs IH]; intros s; simpl; [auto|].
  intros H. apply IH in H as [H|H]; [auto|].
  apply mem_set_add in H as [H|H]; auto.
Qed.

Lemma mem_set_update_bool (n : string) (xs s : list string) :
  Text.mem n (Text.set_update xs s) = Text.mem n xs || Text.mem n s.
Proof.
  unfold Text.set_update. revert s.
  induction xs as [|x xs IH]; intros s; cbn [fold_left]; [reflexivity|].
  rewrite IH. apply Bool.eq_iff_eq_true.
  rewrite !orb_true_iff, mem_set_add, !mem_In. simpl. intuition congruence.
Qed.

Lemma swimwear_only_names (outfits : list Outfit) :
  Forall swimwear_only outfits ->
  length (map name (flat_map items outfits)) = length outfits.
Proof.
  induction 1 as [|o l [_ Ho] Hl IH]; simpl; [reflexivity|].
  rewrite map_app, length_app, IH, length_map, Ho. reflexivity.
Qed.

Lemma swim_fill_step_cases (sw : WardrobeItem) (s : list Outfit * list string) :
  exists s1,
    (swim_fill_step sw s = inl s1 \/
     (swim_fill_step sw s = inr s1 /\ length (fst s1) = 3))
    /\ (swim_fill_inv s -> swim_fill_inv s1)
    /\ (forall n, Text.mem n (snd s) = true -> Text.mem n (snd s1) = true)
    /\ Text.mem (name sw) (snd s1) = true.
Proof.
  destruct s as [outfits used]. unfold swim_fill_step.
  destruct (Text.mem (name sw) used) eqn:Hm; cbn [negb].
  - exists (outfits, used). split; [|auto].
    destruct (length outfits =? 3) eqn:Hlen; [right|left]; [split|]; try reflexivity.
    now apply Nat.eqb_eq.
  - exists (outfits ++ [mk swimwear [sw]], Text.set_add (name sw) used).
    split; [|split; [|split]].
    + destruct (length (outfits ++ [mk swimwear [sw]]) =? 3) eqn:Hlen;
        [right|left]; [split|]; try reflexivity.
      now apply Nat.eqb_eq.
    + intros [Hsw Hused]. split; simpl in *.
      * apply Forall_snoc; [assumption|]. now split.
      * intros n Hn. rewrite flat_map_app, map_app, in_app_iff. simpl.
        apply mem_set_add in Hn as [->|Hn]; auto.
    + intros n Hn. apply mem_set_add. auto.
    + apply mem_set_add. auto.
Qed.

Lemma swim_fill_loop (l : list WardrobeItem) :
  forall s,
    swim_fill_inv s ->
    swim_fill_inv (after_break (loop l swim_fill_step s))
    /\ (forall n, Text.mem n (snd s) = true ->
                  Text.mem n (snd (after_break (loop l swim_fill_step s))) = true)
    /\ (length (fst (after_break (loop l swim_fill_step s))) = 3
        \/ forall sw, In sw l ->
             Text.mem (name sw)
               (snd (after_break (loop l swim_fill_step s))) = true).
Proof.
  induction l as [|sw l IH]; intros s Hs.
  - simpl. split; [exact Hs|]. split; [auto|]. right. intros sw [].
  - cbn [loop].
    destruct (swim_fill_step_cases sw s) as [s1 [Hstep [Hinv [Hmono Hhere]]]].
    specialize (Hinv Hs).
    destruct Hstep as [->|[-> Hlen]].
    + destruct (IH s1 Hinv) as [Ha [Hb Hc]].
      split; [exact Ha|]. split; [auto|].
      destruct Hc as [Hc|Hc]; [now left|]. right.
      intros x [<-|Hx]; auto.
    + simpl. split; [exact Hinv|]. split; [auto|]. now left.
Qed.

Lemma three_names (l : list string) (a b c : string) :
  In a l -> In b l -> In c l -> a <> b -> a <> c -> b <> c -> 3 <= length l.
Proof.
  intros Ha Hb Hc Hab Hac Hbc.
  change 3 with (length [a; b; c]). apply List.NoDup_incl_length.
  - repeat constructor; simpl; intuition.
  - intros x [<-|[<-|[<-|[]]]]; assumption.
Qed.

Lemma pad_none_full (outfits : list Outfit) :
  3 <= length outfits -> pad_none outfits = outfits.
Proof.
  intros H. unfold pad_none. replace (3 - length outfits) with 0 by lia.
  apply app_nil_r.
Qed.

Lemma swimming_branch_swimwear_only (near : RGB -> RGB -> bool)
    (its : list WardrobeItem) (g : string) (colors avoid : list string)
    (a b c : WardrobeItem) :
  In a (filter_category its "swimwear" g) ->
  In b (filter_category its "swimwear" g) ->
  In c (filter_category its "swimwear" g) ->
  name a <> name b -> name a <> name c -> name b <> name c ->
  Forall swimwear_only (swimming_branch near its g colors avoid).
Proof.
  intros Ha Hb Hc Hab Hac Hbc. unfold swimming_branch. cbv zeta.
  match goal with |- context [map _ ?l] => set (cms := l) end.
  assert (Hcms : swim_fill_inv
                   (map (fun sw => mk swimwear [sw]) cms,
                    Text.to_set (map name cms))).
  { split; simpl.
    - apply List.Forall_forall. intros o Ho.
      apply in_map_iff in Ho as [sw [<- _]]. now split.
    - intros n Hn. apply mem_set_update in Hn as [Hn|Hn]; [|discriminate].
      rewrite flat_map_concat_map, map_map, concat_map, map_map. simpl.
      clear -Hn. induction cms as [|x l IH]; simpl in *; [assumption|].
      destruct Hn as [Hn|Hn]; auto. }
  destruct (length (map _ cms) <? 3) eqn:Hlen.
  - destruct (swim_fill_loop (filter_category its "swimwear" g) _ Hcms)
      as [[Hsw Hused] [_ Hfull]].
    rewrite pad_none_full; [assumption|].
    destruct Hfull as [Hfull|Hfull]; [lia|].
    rewrite <- (swimwear_only_names _ Hsw).
    apply (three_names _ (name a) (name b) (name c)); auto.
  - apply Nat.ltb_ge in Hlen. rewrite pad_none_full; [apply Hcms | assumption].
Qed.

(** C4 (as stated). The claim fails: with a single eligible swimwear item
    the branch pads the result with two none-type placeholders. *)
Lemma swimwear_padding_counterexample :
  ~ swimwear_only_claim same_rgb Sample.users [Sample.black_swimsuit]
      Sample.june_noon "swimming" "ann" Sample.seed.
Proof.
  intros H. unfold swimwear_only_claim in H.
  destruct (recommend_outfits same_rgb Sample.users [Sample.black_swimsuit]
              Sample.june_noon "swimming" "ann" Sample.seed)
    as [[e|res] rng'] eqn:Hrun; [vm_compute in Hrun; discriminate|].
  specialize (H Sample.ann res rng' eq_refl eq_refl).
  vm_compute in Hrun. injection Hrun as <- <-.
  assert (Hall : Forall swimwear_only
                   [mk swimwear [Sample.black_swimsuit]; mk none []; mk none []]).
  { apply H; [reflexivity | vm_compute; discriminate]. }
  inversion Hall as [|? ? _ Hrest]. inversion Hrest as [|? ? [Hty _] _].
  discriminate.
Qed.

(** C4 (amended). For a prompt that resolves to a swimming occasion, every
    returned outfit is either a swimwear outfit with exactly one item or a
    none-type outfit without items; when the profile has at least three
    eligible swimwear items of pairwise distinct names, every returned
    outfit has type swimwear and exactly one item, so that no none-type
    padding occurs. *)
Theorem swimming_prompt_swimwear_only (near : RGB -> RGB -> bool)
    (USER_DB : gmap string UserRecord) (wardrobe_db : list WardrobeItem)
    (now : Clock) (prompt username : string) (u : UserRecord)
    (rng rng' : Random) (res : RecommendationResult) :
  USER_DB !! username = Some u ->
  recommend_outfits near USER_DB wardrobe_db now prompt username rng
  = (inr res, rng') ->
  Text.mem "swimming"
    (Prompt.occasions (Prompt.extract_prompt_requirements prompt)) = true ->
  Forall swimwear_or_placeholder (outfits res)
  /\ forall a b c,
       In a (eligible_swimwear wardrobe_db (preferences u)) ->
       In b (eligible_swimwear wardrobe_db (preferences u)) ->
       In c (eligible_swimwear wardrobe_db (preferences u)) ->
       name a <> name b -> name a <> name c -> name b <> name c ->
       Forall swimwear_only (outfits res).
Proof.
  intros Hu Hrun Hswim.
  unfold recommend_outfits, get_user_preferences in Hrun. rewrite Hu in Hrun.
  cbv zeta in Hrun. unfold compose_outfits, is_swimming in Hrun.
  rewrite Hswim in Hrun. cbn [orb] in Hrun.
  unfold bind, ret in Hrun. injection Hrun as Hres _. subst res. simpl.
  split.
  - eapply List.Forall_impl;
      [|apply (swimming_branch_adm near (fun _ => False) (fun _ => False)
                 (fun _ => False) (fun _ => False) (fun _ => True));
        intros; exact I].
    intros o Ho. destruct Ho; try contradiction.
    + right. now split.
    + left. now split.
  - intros a b c Ha Hb Hc Hab Hac Hbc. unfold eligible_swimwear in Ha, Hb, Hc.
    apply (swimming_branch_swimwear_only near _ _ _ _ a b c); assumption.
Qed.

(** ** The engine reads its lists through membership tests

    Colours, occasions, forbidden colours and style tags come out of sets.
    The engine asks which strings they hold and whether they are empty, and
    nothing else: two lists with the same members give the same outfits and
    the same draws from the random source. *)

Lemma same_members_refl (l : list string) : same_members l l.
Proof. intros x. reflexivity. Qed.

Lemma same_members_In (l l' : list string) :
  same_members l l' <-> (forall x, In x l <-> In x l').
Proof.
  split.
  - intros H x. rewrite <- !mem_In. now rewrite H.
  - intros H x. apply Bool.eq_iff_eq_true. rewrite !mem_In. apply H.
Qed.

Lemma Permutation_same_members (l l' : list string) :
  Permutation l l' -> same_members l l'.
Proof.
  intros H. apply same_members_In. intros x.
  split; apply Permutation_in; [assumption | now apply Permutation_sym].
Qed.

Lemma existsb_same_members (f : string -> bool) (l l' : list string) :
  same_members l l' -> existsb f l = existsb f l'.
Proof.
  intros H. apply Bool.eq_iff_eq_true. rewrite !existsb_exists.
  pose proof (proj1 (same_members_In _ _) H) as H'.
  split; intros [x [Hx Hf]]; exists x; split; try assumption; now apply H'.
Qed.

Lemma forallb_same_members (f : string -> bool) (l l' : list string) :
  same_members l l' -> forallb f l = forallb f l'.
Proof.
  intros H. apply Bool.eq_iff_eq_true. rewrite !forallb_forall.
  pose proof (proj1 (same_members_In _ _) H) as H'.
  split; intros Hf x Hx; apply Hf; now apply H'.
Qed.

Lemma nonempty_same_members (l l' : list string) :
  same_members l l' -> nonempty l = nonempty l'.
Proof.
  intros H. destruct l as [|x l], l' as [|y l']; try reflexivity.
  - specialize (H y). cbn in H. rewrite String.eqb_refl in H. discriminate.
  - specialize (H x). cbn in H. rewrite String.eqb_refl in H. discriminate.
Qed.

Lemma if_cong {A} (c c' : bool) (a a' b b' : A) :
  c = c' -> a = a' -> b = b' ->
  (if c then a else b) = (if c' then a' else b').
Proof. intros -> -> ->. reflexivity. Qed.

(** Equality of two terms of the same shape: rewrite with the equations of
    the database [same], go under abstractions, and compare applications and
    case analyses part by part. *)
Ltac same :=
  repeat same_step
with same_step :=
  first
    [ reflexivity
    | progress autorewrite with same
    | match goal with
      | |- (fun _ => _) = (fun _ => _) =>
          let x := fresh "x" in extensionality x
      | |- (if ?c then _ else _) = (if ?c' then _ else _) =>
          let t := type of c in constr_eq t bool; apply if_cong
      | |- match ?s with _ => _ end = match ?s' with _ => _ end =>
          first [ constr_eq s s' | replace s with s' by same ];
          destruct s'
      end
    | progress f_equal
    | match goal with |- ?f ?x = ?g ?x => apply equal_f end ].

Create Rewrite HintDb same.

Section SameMembers.

Variable near : RGB -> RGB -> bool.
Variables colors colors' avoid avoid' occasions occasions' : list string.

Hypothesis same_colors : same_members colors colors'.
Hypothesis same_avoid : same_members avoid avoid'.
Hypothesis same_occasions_list : same_members occasions occasions'.

Local Abbreviation st := (style_tags_of occasions).
Local Abbreviation st' := (style_tags_of occasions').

Lemma style_tags_of_mem (occs : list string) (x : string) :
  Text.mem x (style_tags_of occs)
  = Text.mem x occs
    || existsb (fun occ => Text.mem x (styles_get OCCASION_STYLES occ)) occs.
Proof.
  unfold style_tags_of. rewrite mem_set_update_bool. f_equal.
  assert (H : forall acc,
            Text.mem x
              (fold_left
                 (fun st occ => Text.set_update (styles_get OCCASION_STYLES occ) st)
                 occs acc)
            = Text.mem x acc
              || existsb (fun occ => Text.mem x (styles_get OCCASION_STYLES occ))
                   occs).
  { induction occs as [|occ occs IH]; intros acc; cbn [fold_left existsb].
    - now rewrite orb_false_r.
    - rewrite IH, mem_set_update_bool.
      destruct (Text.mem x (styles_get OCCASION_STYLES occ)), (Text.mem x acc);
        reflexivity. }
  rewrite H. reflexivity.
Qed.

Lemma same_style_tags : same_members st st'.
Proof.
  intros x. rewrite !style_tags_of_mem. rewrite (same_occasions_list x).
  f_equal. now apply existsb_same_members.
Qed.

(** The tests the engine makes on the four lists. *)

Lemma mem_colors x : Text.mem x colors = Text.mem x colors'.
Proof. apply same_colors. Qed.
Lemma mem_avoid x : Text.mem x avoid = Text.mem x avoid'.
Proof. apply same_avoid. Qed.
Lemma mem_occasions x : Text.mem x occasions = Text.mem x occasions'.
Proof. apply same_occasions_list. Qed.
Lemma mem_style_tags x : Text.mem x st = Text.mem x st'.
Proof. apply same_style_tags. Qed.

Lemma nonempty_colors : nonempty colors = nonempty colors'.
Proof. now apply nonempty_same_members. Qed.
Lemma nonempty_avoid : nonempty avoid = nonempty avoid'.
Proof. now apply nonempty_same_members. Qed.

Lemma existsb_colors f : existsb f colors = existsb f colors'.
Proof. now apply existsb_same_members. Qed.
Lemma existsb_avoid f : existsb f avoid = existsb f avoid'.
Proof. now apply existsb_same_members. Qed.
Lemma existsb_occasions f : existsb f occasions = existsb f occasions'.
Proof. now apply existsb_same_members. Qed.
Lemma existsb_style_tags f : existsb f st = existsb f st'.
Proof. apply existsb_same_members, same_style_tags. Qed.
Lemma forallb_occasions f : forallb f occasions = forallb f occasions'.
Proof. now apply forallb_same_members. Qed.

#[local] Hint Rewrite mem_colors mem_avoid mem_occasions mem_style_tags
  nonempty_colors nonempty_avoid existsb_colors existsb_avoid
  existsb_occasions existsb_style_tags forallb_occasions : same.

Lemma has_tag_in_style_tags tags : has_tag_in tags st = has_tag_in tags st'.
Proof. unfold has_tag_in. same. Qed.

Lemma sets_meet_style_tags_r a : sets_meet a st = sets_meet a st'.
Proof. unfold sets_meet. same. Qed.

Lemma sets_meet_style_tags_l b : sets_meet st b = sets_meet st' b.
Proof. unfold sets_meet. same. Qed.

Lemma is_swimming_same : is_swimming occasions st = is_swimming occasions' st'.
Proof. unfold is_swimming. same. Qed.

Lemma is_active_same : is_active occasions = is_active occasions'.
Proof. unfold is_active. same. Qed.

Lemma strictly_formal_same : strictly_formal occasions = strictly_formal occasions'.
Proof. unfold strictly_formal. same. Qed.

Lemma is_party_same : is_party occasions = is_party occasions'.
Proof. unfold is_party. same. Qed.

Lemma is_ethnic_same : is_ethnic st = is_ethnic st'.
Proof. unfold is_ethnic, sets_meet. same. Qed.

Lemma _color_match_same tags :
  _color_match near tags colors avoid = _color_match near tags colors' avoid'.
Proof. unfold _color_match. cbv zeta. same. Qed.

Lemma _color_match_colors tags :
  _color_match near tags colors [] = _color_match near tags colors' [].
Proof. unfold _color_match. cbv zeta. same. Qed.

Lemma _color_match_avoid tags :
  _color_match near tags [] avoid = _color_match near tags [] avoid'.
Proof. unfold _color_match. cbv zeta. same. Qed.

#[local] Hint Rewrite has_tag_in_style_tags sets_meet_style_tags_r
  sets_meet_style_tags_l is_swimming_same is_active_same strictly_formal_same
  is_party_same is_ethnic_same _color_match_same _color_match_colors
  _color_match_avoid : same.


Ltac ext_all := repeat (let x := fresh "x" in extensionality x).

(** The functions of the engine, from the leaves to [compose_outfits]. *)

Lemma color_matched_same :
  color_matched near colors avoid = color_matched near colors' avoid'.
Proof. ext_all. unfold color_matched. same. Qed.
#[local] Hint Rewrite color_matched_same : same.

Lemma one_pieces_color_same :
  one_pieces_color near colors avoid = one_pieces_color near colors' avoid'.
Proof. ext_all. unfold one_pieces_color. same. Qed.

Lemma tops_color_same :
  tops_color near colors avoid = tops_color near colors' avoid'.
Proof. ext_all. unfold tops_color. same. Qed.

Lemma bottoms_color_same :
  bottoms_color near colors avoid = bottoms_color near colors' avoid'.
Proof. ext_all. unfold bottoms_color. same. Qed.

Lemma layers_color_same :
  layers_color near colors avoid = layers_color near colors' avoid'.
Proof. ext_all. unfold layers_color. same. Qed.

Lemma wears_color_same : wears_color near colors = wears_color near colors'.
Proof. ext_all. unfold wears_color. same. Qed.

#[local] Hint Rewrite one_pieces_color_same tops_color_same bottoms_color_same
  layers_color_same wears_color_same : same.

Lemma swimming_branch_same its g :
  swimming_branch near its g colors avoid
  = swimming_branch near its g colors' avoid'.
Proof. unfold swimming_branch. cbv zeta. same. Qed.

Lemma style_filtered_same : style_filtered st = style_filtered st'.
Proof. ext_all. unfold style_filtered. cbv zeta. same. Qed.

Lemma avoid_filtered_same :
  avoid_filtered near avoid = avoid_filtered near avoid'.
Proof. ext_all. unfold avoid_filtered. same. Qed.

Lemma ethnic_filtered_same : ethnic_filtered st = ethnic_filtered st'.
Proof. ext_all. unfold ethnic_filtered. cbv zeta. same. Qed.

Lemma active_relevant_same : active_relevant st = active_relevant st'.
Proof. ext_all. unfold active_relevant. same. Qed.

#[local] Hint Rewrite swimming_branch_same style_filtered_same
  avoid_filtered_same ethnic_filtered_same active_relevant_same : same.

Lemma active_branch_same tops bottoms :
  active_branch near tops bottoms st colors avoid
  = active_branch near tops bottoms st' colors' avoid'.
Proof. unfold active_branch. cbv zeta. same. Qed.

Lemma party_candidates_same tops bottoms tops_all bottoms_all :
  party_candidates tops bottoms tops_all bottoms_all st
  = party_candidates tops bottoms tops_all bottoms_all st'.
Proof. unfold party_candidates. cbv zeta. same. Qed.

Lemma color_narrowed_same :
  color_narrowed near colors avoid = color_narrowed near colors' avoid'.
Proof. ext_all. unfold color_narrowed. cbv zeta. same. Qed.

Lemma party_pair_outfits_same layer_needed layers party_tops party_bottoms
    tops_all bottoms_all :
  party_pair_outfits layer_needed layers party_tops party_bottoms tops_all
    bottoms_all st
  = party_pair_outfits layer_needed layers party_tops party_bottoms tops_all
      bottoms_all st'.
Proof. unfold party_pair_outfits. cbv zeta. same. Qed.

#[local] Hint Rewrite active_branch_same party_candidates_same
  color_narrowed_same party_pair_outfits_same : same.

Lemma one_piece_block_same :
  one_piece_block near colors avoid st occasions
  = one_piece_block near colors' avoid' st' occasions'.
Proof. ext_all. unfold one_piece_block. cbv zeta. same. Qed.

Lemma layered_block_same :
  layered_block near colors avoid = layered_block near colors' avoid'.
Proof. ext_all. unfold layered_block. cbv zeta. same. Qed.

Lemma swimwear_block_same :
  swimwear_block st occasions = swimwear_block st' occasions'.
Proof. ext_all. unfold swimwear_block. cbv zeta. same. Qed.

Lemma maybe_add_layer_same :
  maybe_add_layer near colors avoid st = maybe_add_layer near colors' avoid' st'.
Proof. ext_all. unfold maybe_add_layer. cbv zeta. same. Qed.
#[local] Hint Rewrite one_piece_block_same layered_block_same
  swimwear_block_same maybe_add_layer_same : same.

Lemma emit_same : emit near colors avoid st = emit near colors' avoid' st'.
Proof. ext_all. unfold emit. cbv zeta. same. Qed.
#[local] Hint Rewrite emit_same : same.

Lemma color_tops_loop_same :
  color_tops_loop near colors avoid st = color_tops_loop near colors' avoid' st'.
Proof. ext_all. unfold color_tops_loop. same. Qed.

Lemma color_bottoms_loop_same :
  color_bottoms_loop near colors avoid st
  = color_bottoms_loop near colors' avoid' st'.
Proof. ext_all. unfold color_bottoms_loop. same. Qed.

Lemma single_top_phase_same :
  single_top_phase near colors avoid st
  = single_top_phase near colors' avoid' st'.
Proof. ext_all. unfold single_top_phase. cbv zeta. same. Qed.

Lemma no_color_phase_same :
  no_color_phase near colors avoid st = no_color_phase near colors' avoid' st'.
Proof. ext_all. unfold no_color_phase. cbv zeta. same. Qed.

Lemma other_color_phase_same :
  other_color_phase near colors avoid st
  = other_color_phase near colors' avoid' st'.
Proof. ext_all. unfold other_color_phase. same. Qed.

#[local] Hint Rewrite color_tops_loop_same color_bottoms_loop_same
  single_top_phase_same no_color_phase_same other_color_phase_same : same.

Lemma make_top_bottom_outfits_same :
  make_top_bottom_outfits near colors avoid st
  = make_top_bottom_outfits near colors' avoid' st'.
Proof. ext_all. unfold make_top_bottom_outfits. cbv zeta. same. Qed.

Lemma late_active_block_same :
  late_active_block near colors avoid st
  = late_active_block near colors' avoid' st'.
Proof. ext_all. unfold late_active_block. cbv zeta. same. Qed.

#[local] Hint Rewrite make_top_bottom_outfits_same late_active_block_same : same.

Lemma default_branch_same :
  default_branch near colors avoid st occasions
  = default_branch near colors' avoid' st' occasions'.
Proof. ext_all. unfold default_branch. cbv zeta. same. Qed.

Lemma candidates_same :
  candidates near st avoid = candidates near st' avoid'.
Proof. ext_all. unfold candidates. same. Qed.

Lemma formal_only_same : formal_only occasions st = formal_only occasions' st'.
Proof. unfold formal_only. same. Qed.
#[local] Hint Rewrite default_branch_same candidates_same formal_only_same : same.

Lemma formal_filtered_same :
  formal_filtered occasions st = formal_filtered occasions' st'.
Proof. ext_all. unfold formal_filtered. same. Qed.
#[local] Hint Rewrite formal_filtered_same : same.

Lemma compose_outfits_same wardrobe_db profile :
  compose_outfits near wardrobe_db profile colors occasions avoid
  = compose_outfits near wardrobe_db profile colors' occasions' avoid'.
Proof. ext_all. unfold compose_outfits. cbv zeta. same. Qed.

End SameMembers.

(** ** Two runs with the same seed *)

Lemma recommend_outfits_listed_insertion_order (near : RGB -> RGB -> bool)
    (USER_DB : gmap string UserRecord) (wardrobe_db : list WardrobeItem)
    (now : Clock) (prompt username : string) :
  recommend_outfits_listed (fun s => s) near USER_DB wardrobe_db now prompt
    username
  = recommend_outfits near USER_DB wardrobe_db now prompt username.
Proof. reflexivity. Qed.

Lemma listings_same_members (listing1 listing2 : list string -> list string)
    (s : list string) :
  lists_sets listing1 -> lists_sets listing2 ->
  Permutation (listing1 s) (listing2 s)
  /\ same_members (listing1 s) (listing2 s).
Proof.
  intros H1 H2.
  assert (H : Permutation (listing1 s) (listing2 s)).
  { eapply Permutation_trans; [apply H1 | apply Permutation_sym, H2]. }
  split; [exact H | now apply Permutation_same_members].
Qed.

(** C9 (as stated). The claim fails: the result carries the context read
    from the wall clock, so two calls that agree on everything the claim
    fixes differ when made in the morning and in the afternoon. *)
Lemma same_seed_counterexample :
  ~ same_seed_claim same_rgb Sample.users [] "swimming" "ann" Sample.seed.
Proof.
  intros H. specialize (H Sample.june_morning Sample.june_noon).
  vm_compute in H. discriminate.
Qed.

(** C9 (amended). Two calls with the same prompt, user, credential store,
    catalogue and seed, made at times with the same time of day and season,
    end alike, whatever the order in which the two processes list their
    sets: they raise the same exception, or return the same user, context
    and outfits with [occasion] fields that name the same occasions, and they
    leave the random source in the same state.  When both list sets in the
    same order, as two calls in one process do, the results are equal. *)
Theorem same_seed_same_context (near : RGB -> RGB -> bool)
    (USER_DB : gmap string UserRecord) (wardrobe_db : list WardrobeItem)
    (prompt username : string) (rng : Random) (now1 now2 : Clock)
    (listing1 listing2 : list string -> list string) :
  lists_sets listing1 -> lists_sets listing2 ->
  get_context now1 = get_context now2 ->
  same_outcome
    (recommend_outfits_listed listing1 near USER_DB wardrobe_db now1 prompt
       username rng)
    (recommend_outfits_listed listing2 near USER_DB wardrobe_db now2 prompt
       username rng)
  /\ ((forall s, listing1 s = listing2 s) ->
      recommend_outfits_listed listing1 near USER_DB wardrobe_db now1 prompt
        username rng
      = recommend_outfits_listed listing2 near USER_DB wardrobe_db now2 prompt
          username rng).
Proof.
  intros H1 H2 Hnow. unfold recommend_outfits_listed. rewrite Hnow. split.
  - unfold same_outcome.
    destruct (USER_DB !! username) as [u|]; [|split; reflexivity].
    destruct (get_user_preferences USER_DB username) as [e|profile];
      [split; reflexivity|].
    cbv zeta. unfold extract_prompt_requirements_listed. cbv zeta.
    cbn [Prompt.colors Prompt.occasions Prompt.avoid Prompt.needs_layer].
    set (e := Prompt.expanded_occasions (Prompt.normalized prompt)).
    set (occs1 := if Prompt.is_empty e then ["general"] else listing1 e).
    set (occs2 := if Prompt.is_empty e then ["general"] else listing2 e).
    assert (Hoccs : Permutation occs1 occs2).
    { subst occs1 occs2. destruct (Prompt.is_empty e); [reflexivity|].
      now apply listings_same_members. }
    rewrite (compose_outfits_same near _ _ _ _ occs1 occs2
               (proj2 (listings_same_members listing1 listing2 _ H1 H2))
               (proj2 (listings_same_members listing1 listing2 _ H1 H2))
               (Permutation_same_members _ _ Hoccs)).
    unfold bind.
    match goal with |- context [compose_outfits ?a ?b ?c ?d ?e ?f ?g rng] =>
      destruct (compose_outfits a b c d e f g rng) as [[ex|o] r'] end;
      cbn [fst snd ret]; [split; reflexivity|].
    split; [reflexivity|]. cbn [user context outfits occasion].
    repeat split. exists occs1, occs2. auto.
  - intros Hext.
    unfold extract_prompt_requirements_listed. cbv zeta.
    now rewrite !Hext.
Qed.

(** The order of the occasions in the [occasion] field follows the
    listing. *)
Lemma occasion_field_follows_listing :
  fst (recommend_outfits_listed (fun s => s) same_rgb Sample.users
         Sample.closet Sample.june_noon "ethnic party in blue" "ann" Sample.seed)
  <> fst (recommend_outfits_listed (@rev string) same_rgb Sample.users
            Sample.closet Sample.june_noon "ethnic party in blue" "ann"
            Sample.seed).
Proof. vm_compute. intros H. discriminate H. Qed.

(** * The claims at concrete inputs *)

Lemma party_one_piece_returns_one_outfit_witness :
  (forall c, same_rgb c c = true)
  /\ match
       fst (recommend_outfits same_rgb Sample.users [Sample.red_dress]
              Sample.june_noon "party in red" "ann" Sample.seed)
     with
     | inr res => map type (outfits res) = [one_piece]
     | inl _ => False
     end.
Proof.
  split.
  - exact same_rgb_refl.
  - apply (party_one_piece_returns_one_outfit same_rgb Sample.seed).
    exact same_rgb_refl.
Defined.

Lemma tops_and_bottoms_avoid_forbidden_witness :
  In Sample.black_tee
     (style_filtered
        (style_tags_of
           (Prompt.occasions
              (Prompt.extract_prompt_requirements "ethnic party, avoid black")))
        (filter_category
           (_filter_by_profile Sample.closet (preferences Sample.ann))
           "topwear" "female"))
  /\ wears_forbidden same_rgb ["black"] Sample.black_tee = true
  /\ match
       recommend_outfits same_rgb Sample.users Sample.closet Sample.june_noon
         "ethnic party, avoid black" "ann" Sample.seed
     with
     | (inr res, _) =>
         In Sample.white_tee (returned_items res)
         /\ wears_forbidden same_rgb
              (Prompt.avoid
                 (Prompt.extract_prompt_requirements
                    "ethnic party, avoid black"))
              Sample.white_tee
            = false
         /\ ~ In Sample.black_tee (returned_items res)
     | (inl _, _) => False
     end.
Proof.
  split; [vm_compute; tauto|]. split; [vm_compute; reflexivity|].
  destruct (recommend_outfits same_rgb Sample.users Sample.closet
              Sample.june_noon "ethnic party, avoid black" "ann" Sample.seed)
    as [[e|res] rng'] eqn:Hrun.
  - vm_compute in Hrun. discriminate.
  - assert (Hin : In Sample.white_tee (returned_items res)).
    { vm_compute in Hrun. injection Hrun as Hres _. subst res.
      vm_compute. auto. }
    assert (Hu : Sample.users !! "ann" = Some Sample.ann)
      by (vm_compute; reflexivity).
    assert (Hno : takes_ethnic_fallback same_rgb Sample.closet
                    (preferences Sample.ann)
                    (Prompt.occasions
                       (Prompt.extract_prompt_requirements
                          "ethnic party, avoid black"))
                    (Prompt.avoid
                       (Prompt.extract_prompt_requirements
                          "ethnic party, avoid black"))
                  = false) by (vm_compute; reflexivity).
    split; [exact Hin|]. split.
    + apply (tops_and_bottoms_avoid_forbidden same_rgb Sample.users
               Sample.closet Sample.june_noon "ethnic party, avoid black" "ann"
               Sample.ann Sample.seed rng' res _ Hu Hrun Hno Hin).
      left. reflexivity.
    + intros Hblack.
      pose proof (tops_and_bottoms_avoid_forbidden same_rgb Sample.users
                    Sample.closet Sample.june_noon "ethnic party, avoid black"
                    "ann" Sample.ann Sample.seed rng' res _ Hu Hrun Hno Hblack
                    (or_introl eq_refl)) as Hsafe.
      vm_compute in Hsafe. discriminate Hsafe.
Defined.

Lemma swimming_prompt_swimwear_only_witness :
  match
    recommend_outfits same_rgb Sample.users Sample.swimsuits Sample.june_noon
      "swimming" "ann" Sample.seed
  with
  | (inr res, _) =>
      Forall swimwear_or_placeholder (outfits res)
      /\ Forall swimwear_only (outfits res)
  | (inl _, _) => False
  end.
Proof.
  destruct (recommend_outfits same_rgb Sample.users Sample.swimsuits
              Sample.june_noon "swimming" "ann" Sample.seed)
    as [[e|res] rng'] eqn:Hrun.
  - vm_compute in Hrun. discriminate.
  - destruct (swimming_prompt_swimwear_only same_rgb Sample.users
                Sample.swimsuits Sample.june_noon "swimming" "ann" Sample.ann
                Sample.seed rng' res) as [Hshape Hfull].
    + vm_compute. reflexivity.
    + exact Hrun.
    + vm_compute. reflexivity.
    + split; [exact Hshape|].
      apply (Hfull Sample.black_swimsuit
               (Sample.item "blue swimsuit" "swimwear" ["blue"] "all" "female")
               (Sample.item "green swimsuit" "swimwear" ["green"] "adult"
                  "unisex")).
      * vm_compute. auto.
      * vm_compute. auto.
      * vm_compute. auto.
      * discriminate.
      * discriminate.
      * discriminate.
Defined.

Lemma returned_items_eligible_witness :
  match
    recommend_outfits same_rgb Sample.users Sample.wardrobe Sample.june_noon
      "something cold" "ann" Sample.seed
  with
  | (inr res, _) => Forall (eligible (preferences Sample.ann)) (returned_items res)
  | (inl _, _) => False
  end.
Proof.
  destruct (recommend_outfits same_rgb Sample.users Sample.wardrobe
              Sample.june_noon "something cold" "ann" Sample.seed)
    as [[e|res] rng'] eqn:Hrun.
  - vm_compute in Hrun. discriminate.
  - apply (returned_items_eligible same_rgb Sample.users Sample.wardrobe
             Sample.june_noon "something cold" "ann" Sample.ann Sample.seed
             rng' res).
    + vm_compute. reflexivity.
    + exact Hrun.
Defined.

Lemma outfits_well_formed_witness :
  match
    recommend_outfits same_rgb Sample.users Sample.wardrobe Sample.june_noon
      "something cold" "ann" Sample.seed
  with
  | (inr res, _) =>
      Forall
        (fun o =>
           (type o = none \/ 1 <= length (items o) <= 3)
           /\ List.NoDup (map name (items o)))
        (outfits res)
  | (inl _, _) => False
  end.
Proof.
  destruct (recommend_outfits same_rgb Sample.users Sample.wardrobe
              Sample.june_noon "something cold" "ann" Sample.seed)
    as [[e|res] rng'] eqn:Hrun.
  - vm_compute in Hrun. discriminate.
  - apply (outfits_well_formed same_rgb Sample.users Sample.wardrobe
             Sample.june_noon "something cold" "ann" Sample.seed rng' res).
    + simpl.
      repeat (apply List.NoDup_cons; [simpl; intuition discriminate|]).
      apply List.NoDup_nil.
    + exact Hrun.
Defined.

Lemma occasions_fallback_witness :
  no_occasion_match (Prompt.normalized "A walk by the river") = true
  /\ Prompt.occasions (Prompt.extract_prompt_requirements "A walk by the river")
     = ["casual"].
Proof.
  split.
  - vm_compute. reflexivity.
  - apply (proj2 (occasions_fallback "A walk by the river")).
    vm_compute. reflexivity.
Defined.

Lemma recommend_outfits_authorization_witness :
  recommend_outfits same_rgb Sample.users Sample.wardrobe Sample.june_noon
    "party" "bob" Sample.seed
  = (inl (ValueError "User not authenticated"), Sample.seed)
  /\ forall msg,
       fst (recommend_outfits same_rgb Sample.users Sample.wardrobe
              Sample.june_noon "party" "ann" Sample.seed)
       <> inl (ValueError msg).
Proof.
  split.
  - apply (proj1 (recommend_outfits_authorization same_rgb Sample.users
                    Sample.wardrobe Sample.june_noon "party" "bob" Sample.seed)).
    vm_compute. reflexivity.
  - apply (proj2 (recommend_outfits_authorization same_rgb Sample.users
                    Sample.wardrobe Sample.june_noon "party" "ann" Sample.seed)).
    exists Sample.ann. vm_compute. reflexivity.
Defined.

Lemma same_seed_same_context_witness :
  lists_sets (fun s => s)
  /\ lists_sets (@rev string)
  /\ get_context Sample.june_morning = get_context Sample.june_late_morning
  /\ same_outcome
       (recommend_outfits_listed (fun s => s) same_rgb Sample.users
          Sample.closet Sample.june_morning "ethnic party in blue" "ann"
          Sample.seed)
       (recommend_outfits_listed (@rev string) same_rgb Sample.users
          Sample.closet Sample.june_late_morning "ethnic party in blue" "ann"
          Sample.seed).
Proof.
  assert (H1 : lists_sets (fun s => s)) by (intros s; reflexivity).
  assert (H2 : lists_sets (@rev string))
    by (intros s; apply Permutation_sym, Permutation_rev).
  split; [exact H1|]. split; [exact H2|]. split; [reflexivity|].
  apply (same_seed_same_context same_rgb Sample.users Sample.closet
           "ethnic party in blue" "ann" Sample.seed Sample.june_morning
           Sample.june_late_morning (fun s => s) (@rev string) H1 H2).
  reflexivity.
Defined.

Lemma set_user_preferences_unknown_user_witness :
  Sample.users !! "bob" = None
  /\ set_user_preferences Sample.users "bob" default_preferences = Sample.users.
Proof.
  split.
  - vm_compute. reflexivity.
  - apply (set_user_preferences_unknown_user Sample.users "bob"
             default_preferences).
    vm_compute. reflexivity.
Defined.

(** * Further properties of the code *)

(** ** The credential store *)

Section CredentialFacts.

Variable hash_password : string -> string.

(** X1. A user who has just been registered authenticates with the password
    given at registration and reads back the preferences given (the default
    ones when none were given). *)
Theorem register_then_authenticate (USER_DB USER_DB' : gmap string UserRecord)
    (username password : string) (prefs : option UserProfile) :
  register_user hash_password USER_DB username password prefs = inr USER_DB' ->
  authenticate_user hash_password USER_DB' username password = true
  /\ get_user_preferences USER_DB' username
     = inr (match prefs with Some p => p | None => default_preferences end).
Proof.
  unfold register_user. destruct (USER_DB !! username) eqn:Hu; [discriminate|].
  intros [= <-]. unfold authenticate_user, get_user_preferences.
  rewrite lookup_insert_eq. simpl. split; [apply String.eqb_refl | reflexivity].
Qed.

(** X2. Registration fails with [ValueError] exactly for a username that is
    already in the store; when it succeeds, every other user keeps record,
    preferences and the outcome of every authentication. *)
Theorem register_user_frame (USER_DB : gmap string UserRecord)
    (username password : string) (prefs : option UserProfile) :
  match register_user hash_password USER_DB username password prefs with
  | inl e => e = ValueError "User already exists" /\ is_Some (USER_DB !! username)
  | inr USER_DB' =>
      USER_DB !! username = None
      /\ forall other pw,
           other <> username ->
           USER_DB' !! other = USER_DB !! other
           /\ authenticate_user hash_password USER_DB' other pw
              = authenticate_user hash_password USER_DB other pw
           /\ get_user_preferences USER_DB' other
              = get_user_preferences USER_DB other
  end.
Proof.
  unfold register_user. destruct (USER_DB !! username) eqn:Hu.
  - split; [reflexivity | eauto].
  - split; [reflexivity|]. intros other pw Hne.
    unfold authenticate_user, get_user_preferences.
    rewrite lookup_insert_ne by congruence. auto.
Qed.

(** X3. Updating the preferences of a registered user changes what
    [get_user_preferences] returns for that user and nothing else: every
    authentication, of any user with any password, has the same outcome as
    before, and the other users keep their preferences. *)
Theorem set_user_preferences_registered (USER_DB : gmap string UserRecord)
    (username : string) (prefs : UserProfile) :
  is_Some (USER_DB !! username) ->
  get_user_preferences (set_user_preferences USER_DB username prefs) username
  = inr prefs
  /\ (forall who pw,
        authenticate_user hash_password
          (set_user_preferences USER_DB username prefs) who pw
        = authenticate_user hash_password USER_DB who pw)
  /\ (forall other,
        other <> username ->
        get_user_preferences (set_user_preferences USER_DB username prefs) other
        = get_user_preferences USER_DB other).
Proof.
  intros [u Hu]. unfold set_user_preferences, get_user_preferences,
    authenticate_user. rewrite Hu. split; [|split].
  - now rewrite lookup_insert_eq.
  - intros who pw. destruct (decide (who = username)) as [->|Hne].
    + now rewrite lookup_insert_eq, Hu.
    + now rewrite lookup_insert_ne by congruence.
  - intros other Hne. now rewrite lookup_insert_ne by congruence.
Qed.

(** X4. A stored password hash never changes: after [register_user] (when it
    succeeds) and after [set_user_preferences], every user that was in the
    store has the hash it had. *)
Theorem password_hash_kept (USER_DB : gmap string UserRecord)
    (username password : string) (prefs : UserProfile) (who : string)
    (u : UserRecord) :
  USER_DB !! who = Some u ->
  (forall USER_DB',
     register_user hash_password USER_DB username password (Some prefs)
     = inr USER_DB' ->
     password_hash <$> USER_DB' !! who = Some (password_hash u))
  /\ password_hash <$> set_user_preferences USER_DB username prefs !! who
     = Some (password_hash u).
Proof.
  intros Hu. split.
  - intros USER_DB'. unfold register_user.
    destruct (USER_DB !! username) eqn:Hn; [discriminate|]. intros [= <-].
    rewrite lookup_insert_ne by congruence. now rewrite Hu.
  - unfold set_user_preferences. destruct (USER_DB !! username) as [v|] eqn:Hn.
    + destruct (decide (who = username)) as [->|Hne].
      * rewrite lookup_insert_eq. simpl. congruence.
      * rewrite lookup_insert_ne by congruence. now rewrite Hu.
    + now rewrite Hu.
Qed.

End CredentialFacts.

(** ** The loader *)

(** X8. A wardrobe record that names neither an age group nor a gender is
    loaded as "all"/"unisex" and passes the profile filter of every user. *)
Theorem load_defaults_eligible (records : list WardrobeRecord)
    (r : WardrobeRecord) (profile : UserProfile) :
  In r records ->
  record_age_group r = None ->
  record_gender r = None ->
  In (load_item r) (_filter_by_profile (load_wardrobe records) profile).
Proof.
  intros Hin Ha Hg. unfold _filter_by_profile. apply filter_In. split.
  - unfold load_wardrobe. now apply in_map.
  - unfold load_item. rewrite Ha, Hg. reflexivity.
Qed.

(** ** Categories of the returned items *)

Lemma well_sourced_categories (near : RGB -> RGB -> bool)
    (wardrobe_db : list WardrobeItem) (profile : UserProfile)
    (occasions avoid : list string) (o : Outfit) :
  well_sourced near wardrobe_db profile occasions avoid o ->
  Forall (fun x => In (category x) outfit_categories) (items o).
Proof.
  intros H. destruct H; simpl;
    repeat match goal with
    | H : sourced_pair_item _ _ _ _ _ _ _ |- _ => destruct H as [[? [? ?]] ?]
    | H : sourced _ _ _ _ |- _ => destruct H as [? [? ?]]
    end;
    repeat match goal with
    | H : In (category _) _ |- _ => simpl in H
    end;
    repeat (apply List.Forall_cons; [unfold outfit_categories; simpl; intuition|]);
    apply List.Forall_nil.
Qed.

(** X9. Every item of a returned outfit has one of the six categories the
    engine composes from; an item of any other category ("unknown", shoes,
    accessories) is never recommended, whatever its tags. *)
Theorem returned_items_categories (near : RGB -> RGB -> bool)
    (USER_DB : gmap string UserRecord) (wardrobe_db : list WardrobeItem)
    (now : Clock) (prompt username : string) (rng rng' : Random)
    (res : RecommendationResult) :
  recommend_outfits near USER_DB wardrobe_db now prompt username rng
  = (inr res, rng') ->
  Forall (fun x => In (category x) outfit_categories) (returned_items res).
Proof.
  intros Hrun.
  destruct (recommend_outfits_registered _ _ _ _ _ _ _ _ _ Hrun) as [u Hu].
  pose proof (run_spec_returns _ _ _ _ _ _
                (recommend_outfits_sourced near _ wardrobe_db now prompt _ _ Hu)
                Hrun) as Hsrc.
  apply List.Forall_flat_map. eapply List.Forall_impl; [|exact Hsrc].
  intros o Ho. eapply well_sourced_categories, Ho.
Qed.

(** X10. A wardrobe record without a category is loaded as "unknown" and is
    never part of a returned outfit. *)
Theorem uncategorized_never_recommended (near : RGB -> RGB -> bool)
    (USER_DB : gmap string UserRecord) (records : list WardrobeRecord)
    (now : Clock) (prompt username : string) (rng rng' : Random)
    (res : RecommendationResult) (r : WardrobeRecord) :
  recommend_outfits near USER_DB (load_wardrobe records) now prompt username rng
  = (inr res, rng') ->
  record_category r = None ->
  ~ In (load_item r) (returned_items res).
Proof.
  intros Hrun Hc Hin.
  pose proof (returned_items_categories _ _ _ _ _ _ _ _ _ Hrun) as Hall.
  pose proof (proj1 (List.Forall_forall _ _) Hall _ Hin) as Hcat.
  unfold load_item in Hcat. rewrite Hc in Hcat. simpl in Hcat.
  intuition discriminate.
Qed.

(** ** How many outfits *)

(** X11. When the prompt requests no colour, every call that returns,
    returns exactly three outfits. *)
Theorem three_outfits_without_colors (near : RGB -> RGB -> bool)
    (USER_DB : gmap string UserRecord) (wardrobe_db : list WardrobeItem)
    (now : Clock) (prompt username : string) (rng rng' : Random)
    (res : RecommendationResult) :
  Prompt.colors (Prompt.extract_prompt_requirements prompt) = [] ->
  recommend_outfits near USER_DB wardrobe_db now prompt username rng
  = (inr res, rng') ->
  length (outfits res) = 3.
Proof.
  intros Hc Hrun. unfold recommend_outfits in Hrun.
  destruct (USER_DB !! username) as [u|] eqn:Hu; [|discriminate].
  unfold get_user_preferences in Hrun. rewrite Hu in Hrun. cbv zeta in Hrun.
  rewrite Hc in Hrun. unfold bind in Hrun.
  match type of Hrun with context [compose_outfits ?a ?b ?c ?d ?e ?f ?g rng] =>
    pose proof (compose_outfits_three_without_colors a b c e f g rng) as H3;
    destruct (compose_outfits a b c d e f g rng) as [[e0|o] r0]
  end; [discriminate|].
  simpl in H3. unfold ret in Hrun. injection Hrun as Hres _. subst res.
  exact H3.
Qed.

(** X12. The one-piece party path returns three outfits when a party top and
    a party bottom exist; otherwise it returns the colour-matched one-pieces
    alone, at most three of them. *)
Theorem party_one_piece_outfits_length
    (one_pieces_color party_tops party_bottoms : list WardrobeItem) :
  length (party_one_piece_outfits one_pieces_color party_tops party_bottoms)
  = if nonempty party_tops && nonempty party_bottoms then 3
    else Nat.min 3 (length one_pieces_color).
Proof.
  unfold party_one_piece_outfits. cbv zeta.
  assert (Hk : length (map (fun op => mk one_piece [op]) (firstn 3 one_pieces_color))
               = Nat.min 3 (length one_pieces_color))
    by now rewrite length_map, length_firstn.
  destruct party_tops as [|t ts]; [exact Hk|].
  destruct party_bottoms as [|b bs]; [exact Hk|]. cbn [nonempty andb].
  destruct (0 <? _) eqn:Hn.
  - rewrite length_app, Hk, length_map, length_seq. lia.
  - apply Nat.ltb_ge in Hn. lia.
Qed.

(** ** The swimming branch *)

Lemma swimming_branch_length (near : RGB -> RGB -> bool)
    (its : list WardrobeItem) (g : string) (colors avoid : list string) :
  length (swimming_branch near its g colors avoid)
  = Nat.max 3
      (length (color_matched near colors avoid (filter_category its "swimwear" g))).
Proof.
  unfold swimming_branch, color_matched. cbv zeta.
  match goal with |- context [map _ ?l] => set (cms := l) end.
  unfold pad_none. rewrite length_app, repeat_length.
  destruct (length (map _ cms) <? 3) eqn:Hlen.
  - apply Nat.ltb_lt in Hlen.
    pose proof (swim_fill_bound (filter_category its "swimwear" g)
                  (map (fun sw => mk swimwear [sw]) cms,
                   Text.to_set (map name cms)) Hlen) as Hb.
    rewrite length_map in Hlen. lia.
  - apply Nat.ltb_ge in Hlen. rewrite length_map in *. lia.
Qed.

(** X13. A swimming prompt of a registered user never raises and never
    draws from the random source.  It returns three outfits, or more: one
    per colour-matched eligible swimwear item when there are more than three
    of them. *)
Theorem swimming_prompt_returns (near : RGB -> RGB -> bool)
    (USER_DB : gmap string UserRecord) (wardrobe_db : list WardrobeItem)
    (now : Clock) (prompt username : string) (u : UserRecord) (rng : Random) :
  USER_DB !! username = Some u ->
  Text.mem "swimming"
    (Prompt.occasions (Prompt.extract_prompt_requirements prompt)) = true ->
  exists res,
    recommend_outfits near USER_DB wardrobe_db now prompt username rng
    = (inr res, rng)
    /\ length (outfits res)
       = Nat.max 3
           (length
              (color_matched near
                 (Prompt.colors (Prompt.extract_prompt_requirements prompt))
                 (Prompt.avoid (Prompt.extract_prompt_requirements prompt))
                 (eligible_swimwear wardrobe_db (preferences u)))).
Proof.
  intros Hu Hswim. unfold recommend_outfits, get_user_preferences.
  rewrite Hu. cbv zeta. unfold compose_outfits, is_swimming.
  rewrite Hswim. cbn [orb]. unfold bind, ret. eexists. split; [reflexivity|].
  cbn [outfits]. apply swimming_branch_length.
Qed.

(** ** Runs that cannot fail *)

Section Total.

Variable E : exn -> Prop.

Lemma spec_and {A} (m : M A) (E' : exn -> Prop) (P Q : A -> Prop) :
  run_spec m E P -> run_spec m E' Q ->
  run_spec m (fun e => E e /\ E' e) (fun a => P a /\ Q a).
Proof.
  intros HP HQ r. specialize (HP r). specialize (HQ r).
  destruct (fst (m r)); auto.
Qed.

Lemma spec_choice_nonempty {A} (l : list A) :
  nonempty l = true -> run_spec (choice l) E (fun _ => True).
Proof.
  destruct l as [|x l]; [discriminate|]. intros _. unfold choice.
  eapply spec_bind; [apply spec_randbelow; discriminate|].
  intros i _. now apply spec_ret.
Qed.

Lemma spec_shuffle_runs {A} (l : list A) :
  run_spec (shuffle l) E (fun _ => True).
Proof. eapply spec_weaken; [apply spec_shuffle|]. auto. Qed.

Lemma with_random_layer_total (layer_needed : bool)
    (layers combo : list WardrobeItem) :
  run_spec (with_random_layer layer_needed layers combo) E (fun _ => True).
Proof.
  unfold with_random_layer. destruct layer_needed; simpl; [|now apply spec_ret].
  destruct (nonempty layers) eqn:Hl; [|now apply spec_ret].
  eapply spec_bind; [now apply spec_choice_nonempty|].
  intros l _. now apply spec_ret.
Qed.

Lemma guarded_choice_total {A B} (l : list A) (k : A -> M B) (d : M B) :
  (forall x, run_spec (k x) E (fun _ => True)) ->
  run_spec d E (fun _ => True) ->
  run_spec (if nonempty l then x <- choice l ;; k x else d) E (fun _ => True).
Proof.
  intros Hk Hd. destruct (nonempty l) eqn:Hl; [|exact Hd].
  eapply spec_bind; [now apply spec_choice_nonempty|]. intros x _. apply Hk.
Qed.

Variable near : RGB -> RGB -> bool.
Variables (colors avoid style_tags occasions : list string).
Variable layer_needed : bool.
Variable g : string.
Variables (its one_pieces layers tops bottoms : list WardrobeItem).

Lemma maybe_add_layer_total (layer_list combo : list WardrobeItem) :
  run_spec
    (maybe_add_layer near colors avoid style_tags layer_needed layers
       layer_list combo)
    E (fun _ => True).
Proof.
  unfold maybe_add_layer. destruct layer_needed; [|now apply spec_ret].
  cbv zeta.
  match goal with |- context [nonempty (List.filter ?f ?l)] =>
    set (avail := List.filter f l) end.
  destruct (nonempty avail) eqn:Ha; [|now apply spec_ret].
  eapply spec_bind; [|intros; now apply spec_ret].
  apply spec_choice_nonempty.
  destruct (nonempty (List.filter _ avail)) eqn:Hf; assumption.
Qed.

Lemma emit_total (layer_list : list WardrobeItem) (n : Z) (st : PairState)
    (combo : list WardrobeItem) :
  run_spec
    (emit near colors avoid style_tags layer_needed layers layer_list n st combo)
    E (fun _ => True).
Proof.
  unfold emit. eapply spec_bind; [apply maybe_add_layer_total|].
  intros c _. cbv zeta. destruct (reached _ _); now apply spec_ret.
Qed.

Lemma make_top_bottom_outfits_total
    (top_list bottom_list layer_list : list WardrobeItem) (n : Z)
    (prefer_color : bool) :
  run_spec
    (make_top_bottom_outfits near colors avoid style_tags layer_needed layers
       tops bottoms top_list bottom_list layer_list n prefer_color)
    E (fun _ => True).
Proof.
  unfold make_top_bottom_outfits. cbv zeta.
  eapply spec_bind with (P := fun _ => True).
  - destruct (_ && _); [|now apply spec_ret].
    eapply spec_bind with (P := fun _ => True).
    + unfold color_tops_loop. apply spec_loopM_runs. intros t st.
      apply spec_loopM_runs. intros b st'.
      destruct (_ || _); [now apply spec_ret|].
      destruct (negb _); [now apply spec_ret|]. apply emit_total.
    + intros [st|v] _; [|now apply spec_ret].
      unfold color_bottoms_loop. apply spec_loopM_runs. intros b st'.
      destruct (Text.mem _ _); [now apply spec_ret|].
      apply spec_loopM_runs. intros t st''.
      destruct (mem_pair _ _); [now apply spec_ret|].
      destruct (negb _); [now apply spec_ret|]. apply emit_total.
  - intros [st|v] _; [|now apply spec_ret].
    assert (Hlater :
      run_spec
        (if negb (nonempty colors)
         then no_color_phase near colors avoid style_tags layer_needed layers
                top_list bottom_list layer_list n st
         else other_color_phase near colors avoid style_tags layer_needed layers
                top_list bottom_list layer_list n st)
        E (fun _ => True)).
    { destruct (negb _).
      - unfold no_color_phase. cbv zeta.
        eapply spec_bind with (P := fun _ => True).
        + apply spec_loopM_runs. intros t st1. apply spec_loopM_runs.
          intros b st2. destruct (_ || _); [now apply spec_ret|].
          apply emit_total.
        + intros [st1|v] _; [|now apply spec_ret].
          eapply spec_bind with (P := fun _ => True).
          * apply spec_loopM_runs. intros t st2. apply spec_loopM_runs.
            intros b st3. destruct (mem_pair _ _); [now apply spec_ret|].
            apply emit_total.
          * intros [st2|v] _; now apply spec_ret.
      - unfold other_color_phase.
        eapply spec_bind with (P := fun _ => True).
        + apply spec_loopM_runs. intros t st1. apply spec_loopM_runs.
          intros b st2. destruct (_ || _); [now apply spec_ret|].
          destruct (_ && _); [now apply spec_ret|]. apply emit_total.
        + intros [st1|v] _; now apply spec_ret. }
    destruct (tops_color near colors avoid tops) as [|top [|top' rest]];
      try exact Hlater.
    destruct (nonempty colors); [|exact Hlater].
    unfold single_top_phase.
    eapply spec_bind with (P := fun _ => True).
    + apply spec_loopM_runs. intros b [st1 bottom_used].
      destruct (Text.mem _ _); [now apply spec_ret|].
      destruct (mem_pair _ _); [now apply spec_ret|].
      eapply spec_bind; [apply maybe_add_layer_total|].
      intros c _. cbv zeta. destruct (reached _ _); now apply spec_ret.
    + intros r _. cbv zeta.
      eapply spec_bind with (P := fun _ => True).
      * apply spec_loopM_runs. intros t st1. apply spec_loopM_runs.
        intros b st2. destruct (_ || _); [now apply spec_ret|].
        destruct (wears_color _ _ _); [now apply spec_ret|].
        eapply spec_bind; [apply maybe_add_layer_total|].
        intros c _. now apply spec_ret.
      * intros [st1|v] _; now apply spec_ret.
Qed.

Lemma filter_unused_nil (l : list WardrobeItem) :
  List.filter (fun o => negb (Text.mem (name o) [])) l = l.
Proof. induction l as [|x l IH]; simpl; [reflexivity | f_equal; exact IH]. Qed.

Lemma one_piece_block_total (outfits : list Outfit) :
  run_spec
    (one_piece_block near colors avoid style_tags occasions layer_needed g
       one_pieces layers outfits [])
    E (fun _ => True).
Proof.
  unfold one_piece_block.
  match goal with |- run_spec (if ?c then _ else _) _ _ =>
    destruct c eqn:Hcond end; [|now apply spec_ret].
  assert (Hop : nonempty one_pieces = true).
  { do 3 (apply andb_true_iff in Hcond as [Hcond _]).
    now apply andb_true_iff in Hcond as [_ Hcond]. }
  cbv zeta. rewrite filter_unused_nil.
  eapply spec_bind with (P := fun _ => True).
  - apply spec_choice_nonempty.
    destruct (nonempty (one_pieces_color near colors avoid one_pieces)) eqn:Hc;
      assumption.
  - intros op _. cbv zeta.
    eapply spec_bind with (P := fun _ => True); [|intros; now apply spec_ret].
    destruct (layer_needed && nonempty layers); [|now apply spec_ret].
    apply guarded_choice_total; intros; now apply spec_ret.
Qed.

Lemma layered_block_total (outfits : list Outfit) :
  run_spec
    (layered_block near colors avoid layer_needed layers tops bottoms outfits)
    E (fun _ => True).
Proof.
  unfold layered_block. destruct (_ && _); [|now apply spec_ret].
  eapply spec_bind; [apply spec_shuffle_runs|]. intros tb_pairs _.
  eapply spec_bind with (P := fun _ => True); [|intros; now apply spec_ret].
  apply spec_loopM_runs. intros p [o added]. cbv zeta.
  eapply spec_bind with (P := fun _ => True).
  - apply guarded_choice_total; intros; now apply spec_ret.
  - intros c _. destruct (negb _).
    + destruct (2 <=? S added); now apply spec_ret.
    + destruct (2 <=? added); now apply spec_ret.
Qed.

Lemma reuse_block_total (outfits : list Outfit) :
  run_spec (reuse_block layer_needed layers tops bottoms outfits)
    E (fun _ => True).
Proof.
  unfold reuse_block. destruct (length outfits <? 3); [|now apply spec_ret].
  eapply spec_bind with (P := fun _ => True); [|intros; now apply spec_ret].
  apply spec_loopM_runs. intros t s.
  eapply spec_bind with (P := fun _ => True).
  - apply spec_loopM_runs. intros b [extra used_pairs]. cbv zeta.
    destruct (negb _); [|now apply spec_ret].
    eapply spec_bind; [apply with_random_layer_total|].
    intros c _. destruct (3 <=? _); now apply spec_ret.
  - intros r _. cbv zeta. destruct (3 <=? _); now apply spec_ret.
Qed.

Lemma random_fallback_total (outfits : list Outfit) :
  nonempty tops = true -> nonempty bottoms = true ->
  run_spec (random_fallback layer_needed layers tops bottoms outfits)
    E (fun _ => True).
Proof.
  intros Ht Hb. unfold random_fallback.
  apply (spec_whileM E (fun _ => True)); [|exact I].
  intros o _.
  eapply spec_bind; [now apply spec_choice_nonempty|]. intros t _.
  eapply spec_bind; [now apply spec_choice_nonempty|]. intros b _.
  eapply spec_bind; [apply with_random_layer_total|]. intros c _.
  now apply spec_ret.
Qed.

Lemma default_branch_total :
  nonempty tops = true -> nonempty bottoms = true ->
  run_spec
    (default_branch near colors avoid style_tags occasions layer_needed g its
       one_pieces layers tops bottoms)
    E (fun _ => True).
Proof.
  intros Ht Hb. unfold default_branch.
  eapply spec_bind; [apply one_piece_block_total|]. intros p _.
  eapply spec_bind; [apply layered_block_total|]. intros o1 _.
  destruct (swimwear_block _ _ _ _ _ _) as [o2 used].
  eapply spec_bind; [apply make_top_bottom_outfits_total|]. intros c1 _.
  eapply spec_bind with (P := fun _ => True).
  { destruct (0 <? _)%Z; [|now apply spec_ret].
    eapply spec_bind; [apply make_top_bottom_outfits_total|].
    intros c2 _. now apply spec_ret. }
  intros o3 _.
  eapply spec_bind; [apply reuse_block_total|]. intros o4 _.
  eapply spec_bind; [now apply random_fallback_total|]. intros o5 _.
  destruct (is_active occasions); now apply spec_ret.
Qed.

End Total.

Lemma run_spec_total {A} (m : M A) (Q : A -> Prop) (r : Random) :
  run_spec m (fun _ => False) Q ->
  exists a r', m r = (inr a, r') /\ Q a.
Proof.
  intros H. specialize (H r). destruct (m r) as [[e|a] r']; simpl in H;
    [contradiction | eauto].
Qed.

Lemma default_branch_returns_three (near : RGB -> RGB -> bool)
    (colors avoid style_tags occasions : list string) (layer_needed : bool)
    (g : string) (its one_pieces layers tops bottoms : list WardrobeItem) :
  nonempty tops = true -> nonempty bottoms = true ->
  run_spec
    (default_branch near colors avoid style_tags occasions layer_needed g its
       one_pieces layers tops bottoms)
    (fun _ => False) (fun outfits => length outfits = 3).
Proof.
  intros Ht Hb. eapply spec_weaken.
  - intros r.
    pose proof (spec_and (fun _ => False) _ lookup_failure _ _
                  (default_branch_total (fun _ => False) near colors avoid
                     style_tags occasions layer_needed g its one_pieces layers
                     tops bottoms Ht Hb)
                  (default_branch_three near colors avoid style_tags occasions
                     layer_needed g its one_pieces layers tops bottoms) r) as H.
    destruct (fst (default_branch _ _ _ _ _ _ _ _ _ _ _ _ r)); [tauto|exact H].
  - intros o [_ H]. exact H.
Qed.

Lemma candidates_nonempty (near : RGB -> RGB -> bool) (style_tags : list string)
    (pool : list WardrobeItem) :
  nonempty pool = true -> nonempty (candidates near style_tags [] pool) = true.
Proof.
  intros Hp. unfold candidates, avoid_filtered. cbn [nonempty].
  assert (Hs : nonempty (style_filtered style_tags pool) = true).
  { unfold style_filtered. cbv zeta.
    destruct (sets_meet style_tags _);
      match goal with |- context [nonempty (List.filter ?f ?l)] =>
        destruct (nonempty (List.filter f l)) eqn:Hf end; assumption. }
  unfold ethnic_filtered. destruct (_ || _); [|assumption]. cbv zeta.
  match goal with |- context [nonempty (List.filter ?f ?l)] =>
    destruct (nonempty (List.filter f l)) eqn:Hf end; assumption.
Qed.

(** X14. An everyday prompt cannot fail: for a registered user, a prompt with
    no forbidden colour whose occasions are neither swimming, active, party
    nor formal-only, and a wardrobe with at least one eligible top and one
    eligible bottom, the call returns, with exactly three outfits. *)
Theorem everyday_prompt_returns_three (near : RGB -> RGB -> bool)
    (USER_DB : gmap string UserRecord) (wardrobe_db : list WardrobeItem)
    (now : Clock) (prompt username : string) (u : UserRecord) (rng : Random) :
  USER_DB !! username = Some u ->
  Prompt.avoid (Prompt.extract_prompt_requirements prompt) = [] ->
  is_swimming (Prompt.occasions (Prompt.extract_prompt_requirements prompt))
    (style_tags_of
       (Prompt.occasions (Prompt.extract_prompt_requirements prompt))) = false ->
  is_active (Prompt.occasions (Prompt.extract_prompt_requirements prompt))
  = false ->
  is_party (Prompt.occasions (Prompt.extract_prompt_requirements prompt))
  = false ->
  formal_only (Prompt.occasions (Prompt.extract_prompt_requirements prompt))
    (style_tags_of
       (Prompt.occasions (Prompt.extract_prompt_requirements prompt))) = false ->
  nonempty
    (filter_category (_filter_by_profile wardrobe_db (preferences u))
       "topwear" (profile_gender (preferences u))) = true ->
  nonempty
    (filter_category (_filter_by_profile wardrobe_db (preferences u))
       "bottomwear" (profile_gender (preferences u))) = true ->
  exists res rng',
    recommend_outfits near USER_DB wardrobe_db now prompt username rng
    = (inr res, rng')
    /\ length (outfits res) = 3.
Proof.
  intros Hu Hav Hsw Hact Hparty Hformal Htops Hbottoms.
  unfold recommend_outfits, get_user_preferences. rewrite Hu. cbv zeta.
  unfold compose_outfits. cbv zeta.
  rewrite Hsw, Hact, Hparty, Hav. unfold formal_filtered. rewrite Hformal.
  unfold bind.
  match goal with |- context [default_branch ?a ?b ?c ?d ?e ?f ?h ?i ?j ?k ?l ?m rng] =>
    destruct (run_spec_total _ _ rng
                (default_branch_returns_three a b c d e f h i j k l m
                   (candidates_nonempty near _ _ Htops)
                   (candidates_nonempty near _ _ Hbottoms)))
      as [o [r' [Hrun Hlen]]]
  end.
  rewrite Hrun. unfold ret. eexists. eexists. split; [reflexivity|exact Hlen].
Qed.

(** ** Active occasions *)

Lemma keeps_random_ret {A} (a : A) : keeps_random (ret a).
Proof. intros r. reflexivity. Qed.

Lemma keeps_random_raise {A} (e : exn) : keeps_random (@raise A e).
Proof. intros r. reflexivity. Qed.

Lemma keeps_random_bind {A B} (m : M A) (k : A -> M B) :
  keeps_random m -> (forall a, keeps_random (k a)) -> keeps_random (bind m k).
Proof.
  intros Hm Hk r. unfold bind. specialize (Hm r).
  destruct (m r) as [[e|a] r']; simpl in *; [assumption|].
  subst r'. apply Hk.
Qed.

Lemma keeps_random_index_mod {A} (l : list A) (idx : nat) :
  keeps_random (index_mod l idx).
Proof. destruct l; [apply keeps_random_raise | apply keeps_random_ret]. Qed.

Lemma keeps_random_whileM {S} (cond : S -> bool) (body : S -> M S) :
  (forall s, keeps_random (body s)) ->
  forall fuel s, keeps_random (whileM fuel cond body s).
Proof.
  intros Hb. induction fuel as [|fuel IH]; intros s; simpl.
  - apply keeps_random_ret.
  - destruct (cond s); [|apply keeps_random_ret].
    apply keeps_random_bind; [apply Hb | apply IH].
Qed.

Lemma active_branch_keeps_random (near : RGB -> RGB -> bool)
    (tops bottoms : list WardrobeItem) (style_tags colors avoid : list string) :
  keeps_random (active_branch near tops bottoms style_tags colors avoid).
Proof.
  unfold active_branch. cbv zeta. apply keeps_random_bind.
  - apply keeps_random_whileM. intros s. apply keeps_random_bind.
    + apply keeps_random_index_mod.
    + intros p. apply keeps_random_ret.
  - intros s. apply keeps_random_ret.
Qed.

Lemma active_pairs_In (near : RGB -> RGB -> bool)
    (tops bottoms : list WardrobeItem) (style_tags colors avoid : list string)
    (p : WardrobeItem * WardrobeItem) :
  In p
    (if nonempty colors then
       if nonempty
            (List.filter
               (fun p => _color_match near (tags (fst p)) colors avoid
                         || _color_match near (tags (snd p)) colors avoid)
               (list_prod (active_relevant style_tags tops)
                  (active_relevant style_tags bottoms)))
       then List.filter
              (fun p => _color_match near (tags (fst p)) colors avoid
                        || _color_match near (tags (snd p)) colors avoid)
              (list_prod (active_relevant style_tags tops)
                 (active_relevant style_tags bottoms))
       else list_prod (active_relevant style_tags tops)
              (active_relevant style_tags bottoms)
     else list_prod (active_relevant style_tags tops)
            (active_relevant style_tags bottoms)) ->
  In (fst p) (active_relevant style_tags tops)
  /\ In (snd p) (active_relevant style_tags bottoms).
Proof.
  intros Hp.
  assert (Hin : In p (list_prod (active_relevant style_tags tops)
                        (active_relevant style_tags bottoms))).
  { destruct (nonempty colors); [|assumption].
    destruct (nonempty (List.filter _ _)); [|assumption].
    now apply filter_In in Hp. }
  destruct p as [t b]. now apply in_prod_iff in Hin.
Qed.

Lemma active_relevant_single (style_tags : list string)
    (pool : list WardrobeItem) (x : WardrobeItem) :
  In x (active_relevant style_tags pool) ->
  In x pool /\ In x (active_relevant style_tags [x]).
Proof.
  unfold active_relevant. intros H. apply filter_In in H as [H1 H2].
  split; [assumption|]. apply filter_In. split; [now left | assumption].
Qed.

(** The active branch raises [ZeroDivisionError] or returns three outfits,
    each one relevant top with one relevant bottom. *)
Lemma active_branch_outfits (near : RGB -> RGB -> bool)
    (tops bottoms : list WardrobeItem) (style_tags colors avoid : list string) :
  run_spec (active_branch near tops bottoms style_tags colors avoid)
    (fun e => e = ZeroDivisionError)
    (fun outfits =>
       length outfits = 3
       /\ Forall
            (fun o =>
               type o = multi_piece
               /\ exists t b,
                    items o = [t; b]
                    /\ In t (active_relevant style_tags tops)
                    /\ In b (active_relevant style_tags bottoms))
            outfits).
Proof.
  intros r.
  pose proof (active_branch_fills near tops bottoms style_tags colors avoid r)
    as Hlen.
  assert (Hall :
    run_spec (active_branch near tops bottoms style_tags colors avoid)
      (fun e => e = ZeroDivisionError)
      (Forall
         (fun o =>
            type o = multi_piece
            /\ exists t b,
                 items o = [t; b]
                 /\ In t (active_relevant style_tags tops)
                 /\ In b (active_relevant style_tags bottoms)))).
  { unfold active_branch. cbv zeta. eapply spec_bind.
    - apply (spec_whileM _
               (fun s : list Outfit * nat =>
                  Forall
                    (fun o =>
                       type o = multi_piece
                       /\ exists t b,
                            items o = [t; b]
                            /\ In t (active_relevant style_tags tops)
                            /\ In b (active_relevant style_tags bottoms))
                    (fst s))); [|constructor].
      intros [o idx] Ho. simpl in Ho.
      eapply spec_bind; [apply spec_index_mod; reflexivity|].
      intros p Hp. apply spec_ret. simpl. apply Forall_snoc; [assumption|].
      apply active_pairs_In in Hp as [Ht Hb].
      split; [reflexivity|]. exists (fst p), (snd p). auto.
    - intros s Hs. apply spec_ret. now apply Forall_firstn_keep. }
  specialize (Hall r).
  destruct (fst (active_branch near tops bottoms style_tags colors avoid r));
    [exact Hall | split; assumption].
Qed.

(** X15. For a prompt with an active occasion (gym, hiking, trekking, yoga,
    exercise, camping) that is not also a swimming prompt (a swimming prompt
    is answered by the swimming branch, which comes first), the call never
    draws from the random source; it raises [ZeroDivisionError] or returns
    exactly three outfits, each one topwear item and one bottomwear item
    that carry an active or style tag, and never a layer, also when layering
    is needed. *)
Theorem active_prompt_outfits (near : RGB -> RGB -> bool)
    (USER_DB : gmap string UserRecord) (wardrobe_db : list WardrobeItem)
    (now : Clock) (prompt username : string) (u : UserRecord) (rng : Random) :
  USER_DB !! username = Some u ->
  is_swimming (Prompt.occasions (Prompt.extract_prompt_requirements prompt))
    (style_tags_of
       (Prompt.occasions (Prompt.extract_prompt_requirements prompt))) = false ->
  is_active (Prompt.occasions (Prompt.extract_prompt_requirements prompt))
  = true ->
  snd (recommend_outfits near USER_DB wardrobe_db now prompt username rng) = rng
  /\ match
       fst (recommend_outfits near USER_DB wardrobe_db now prompt username rng)
     with
     | inl e => e = ZeroDivisionError
     | inr res =>
         length (outfits res) = 3
         /\ Forall
              (active_outfit
                 (style_tags_of
                    (Prompt.occasions
                       (Prompt.extract_prompt_requirements prompt))))
              (outfits res)
     end.
Proof.
  intros Hu Hsw Hact. unfold recommend_outfits, get_user_preferences.
  rewrite Hu. cbv zeta. unfold compose_outfits. cbv zeta. rewrite Hsw, Hact.
  unfold bind.
  match goal with |- context [active_branch ?a ?b ?c ?d ?e ?f rng] =>
    pose proof (active_branch_keeps_random a b c d e f rng) as Hk;
    pose proof (active_branch_outfits a b c d e f rng) as Ho;
    destruct (active_branch a b c d e f rng) as [[e0|o] r0]
  end; simpl in Hk, Ho; subst r0; simpl.
  - auto.
  - split; [reflexivity|]. destruct Ho as [Hlen Hall]. split; [assumption|].
    eapply List.Forall_impl; [|exact Hall].
    intros o1 [Hty [t [b [Hit [Ht Hb]]]]]. split; [assumption|].
    exists t, b. split; [assumption|].
    apply active_relevant_single in Ht as [Ht Ht'].
    apply active_relevant_single in Hb as [Hb Hb'].
    apply candidates_In in Ht as [Ht _]. apply candidates_In in Hb as [Hb _].
    apply filter_category_In in Ht as [_ Ht].
    apply filter_category_In in Hb as [_ Hb]. auto.
Qed.

Lemma list_prod_nil_r {A B} (l : list A) : list_prod l (@nil B) = [].
Proof. induction l; simpl; auto. Qed.

(** X16. The active branch fails exactly when no top or no bottom carries an
    active or style tag: then it raises [ZeroDivisionError], and otherwise it
    returns. *)
Theorem active_branch_raises_iff (near : RGB -> RGB -> bool)
    (tops bottoms : list WardrobeItem) (style_tags colors avoid : list string)
    (rng : Random) :
  fst (active_branch near tops bottoms style_tags colors avoid rng)
  = inl ZeroDivisionError
  <-> active_relevant style_tags tops = []
      \/ active_relevant style_tags bottoms = [].
Proof.
  split.
  - intros Hraise.
    destruct (active_relevant style_tags tops) as [|t ts] eqn:Ht; [now left|].
    destruct (active_relevant style_tags bottoms) as [|b bs] eqn:Hb; [now right|].
    exfalso.
    assert (Hrun :
      run_spec (active_branch near tops bottoms style_tags colors avoid)
        (fun _ => False) (fun _ => True)).
    { unfold active_branch. cbv zeta. rewrite Ht, Hb.
      match goal with |- context [index_mod ?l] => set (pairs := l) end.
      assert (Hp : nonempty pairs = true).
      { subst pairs. destruct (nonempty colors); [|reflexivity].
        destruct (nonempty (List.filter _ _)) eqn:Hf; [assumption|reflexivity]. }
      eapply spec_bind with (P := fun _ => True); [|intros; now apply spec_ret].
      apply (spec_whileM _ (fun _ => True)); [|exact I].
      intros s _. eapply spec_bind with (P := fun _ => True);
        [|intros; now apply spec_ret].
      destruct pairs; [discriminate|]. now apply spec_ret. }
    specialize (Hrun rng). now rewrite Hraise in Hrun.
  - intros H. unfold active_branch. cbv zeta.
    assert (Hnil : list_prod (active_relevant style_tags tops)
                     (active_relevant style_tags bottoms) = []).
    { destruct H as [-> | ->]; [reflexivity | apply list_prod_nil_r]. }
    rewrite Hnil. simpl. destruct (nonempty colors); reflexivity.
Qed.

(** ** More on the prompt interpreter *)

Module PromptMore.
Import Text Regex Prompt.

Local Arguments contains : simpl never.
Local Arguments String.prefix : simpl never.

Lemma mem_set_add_true (n x : string) (s : list string) :
  n = x \/ mem n s = true -> mem n (set_add x s) = true.
Proof. intros H. now apply mem_set_add. Qed.

Lemma mem_set_update_intro (n : string) (xs s : list string) :
  In n xs \/ mem n s = true -> mem n (set_update xs s) = true.
Proof.
  unfold set_update. revert s.
  induction xs as [|x xs IH]; intros s [H|H]; simpl in *; try tauto.
  - apply IH. destruct H as [->|H]; [right|left]; [|assumption].
    apply mem_set_add_true. now left.
  - apply IH. right. apply mem_set_add_true. now right.
Qed.

Lemma NoDup_snoc {A} (l : list A) (x : A) :
  List.NoDup l -> ~ In x l -> List.NoDup (l ++ [x]).
Proof.
  induction 1 as [|y l Hy Hl IH]; intros Hx; simpl.
  - constructor; [tauto | constructor].
  - constructor.
    + rewrite in_app_iff. simpl. intros [H|[H|[]]]; [tauto|].
      apply Hx. now left.
    + apply IH. intros H. apply Hx. now right.
Qed.

Lemma set_add_NoDup (x : string) (s : list string) :
  List.NoDup s -> List.NoDup (set_add x s).
Proof.
  intros H. unfold set_add. destruct (mem x s) eqn:Hm; [assumption|].
  apply NoDup_snoc; [assumption|]. intros Hin. apply mem_In in Hin. congruence.
Qed.

Lemma set_update_NoDup (xs s : list string) :
  List.NoDup s -> List.NoDup (set_update xs s).
Proof.
  unfold set_update. revert s. induction xs as [|x xs IH]; intros s H; simpl;
    [assumption|]. apply IH. now apply set_add_NoDup.
Qed.

Lemma fold_set_add_NoDup {A} (l : list A) (f : list string -> A -> list string) :
  (forall e x, List.NoDup e -> List.NoDup (f e x)) ->
  forall e, List.NoDup e -> List.NoDup (fold_left f l e).
Proof.
  intros Hf. induction l as [|x l IH]; intros e He; simpl; [assumption|].
  apply IH, Hf, He.
Qed.

Lemma expanded_occasions_NoDup (p : string) :
  List.NoDup (expanded_occasions p).
Proof.
  unfold expanded_occasions. cbv zeta.
  match goal with |- context [expand_by_occasion ?o ?e] =>
    set (occs := o); set (e1 := e) end.
  assert (H1 : List.NoDup e1).
  { subst e1. unfold expand_by_prompt. apply fold_set_add_NoDup.
    - intros e kv He. apply fold_set_add_NoDup; [|assumption].
      intros e' syn He'. destruct (contains syn p);
        [now apply set_add_NoDup|assumption].
    - apply set_update_NoDup. constructor. }
  assert (H2 : List.NoDup (expand_by_occasion occs e1)).
  { unfold expand_by_occasion. apply fold_set_add_NoDup; [|assumption].
    intros e occ He. apply fold_set_add_NoDup; [|assumption].
    intros e' kv He'. destruct (mem occ (snd kv));
      [now apply set_add_NoDup|assumption]. }
  set (e2 := expand_by_occasion occs e1) in *.
  assert (H3 : List.NoDup
                 (if force_ethnic p || force_ethnic_general p
                  then set_update ["ethnic day"; "ethnic"; "traditional"] e2
                  else e2)).
  { destruct (_ || _); [now apply set_update_NoDup|assumption]. }
  destruct (is_empty _); [|assumption].
  destruct (outing_like p); [now apply set_add_NoDup|assumption].
Qed.

End PromptMore.

(** X17. The three lists returned by the prompt interpreter hold no
    duplicates. *)
Theorem extract_prompt_requirements_NoDup (prompt : string) :
  List.NoDup (Prompt.colors (Prompt.extract_prompt_requirements prompt))
  /\ List.NoDup (Prompt.occasions (Prompt.extract_prompt_requirements prompt))
  /\ List.NoDup (Prompt.avoid (Prompt.extract_prompt_requirements prompt)).
Proof.
  unfold Prompt.extract_prompt_requirements. cbv zeta. simpl. split; [|split].
  - apply PromptMore.set_update_NoDup. constructor.
  - pose proof (PromptMore.expanded_occasions_NoDup
                  (Prompt.normalize_swim (Text.lower prompt))) as H.
    destruct (Prompt.expanded_occasions _); simpl; [|assumption].
    repeat constructor. simpl. tauto.
  - apply PromptMore.set_update_NoDup. constructor.
Qed.

Module PromptWords.
Import Text Regex Prompt.

Local Arguments String.prefix : simpl never.

Lemma all_chars_drop (q : ascii -> bool) (n : nat) (s : string) :
  all_chars q s = true -> all_chars q (drop n s) = true.
Proof.
  revert s. induction n as [|n IH]; intros [|c s]; simpl; auto.
  intros H. apply andb_true_iff in H as [_ H]. auto.
Qed.

Lemma all_chars_drop_while (q p : ascii -> bool) (s : string) :
  all_chars q s = true -> all_chars q (drop_while p s) = true.
Proof.
  induction s as [|c s IH]; simpl; [auto|]. intros H.
  destruct (p c); [|exact H]. apply andb_true_iff in H as [_ H]. auto.
Qed.

Lemma all_chars_take_while (q p : ascii -> bool) (s : string) :
  all_chars q s = true -> all_chars q (take_while p s) = true.
Proof.
  induction s as [|c s IH]; simpl; [auto|]. intros H.
  apply andb_true_iff in H as [Hc H]. destruct (p c); [|reflexivity].
  simpl. now rewrite Hc, IH.
Qed.

Lemma take_while_all (p : ascii -> bool) (s : string) :
  all_chars p (take_while p s) = true.
Proof.
  induction s as [|c s IH]; simpl; [reflexivity|].
  destruct (p c) eqn:Hc; [|reflexivity]. simpl. now rewrite Hc.
Qed.

Lemma all_chars_and (p q : ascii -> bool) (s : string) :
  all_chars p s = true -> all_chars q s = true ->
  all_chars (fun c => p c && q c) s = true.
Proof.
  induction s as [|c s IH]; simpl; [reflexivity|]. intros Hp Hq.
  apply andb_true_iff in Hp as [Hp1 Hp2]. apply andb_true_iff in Hq as [Hq1 Hq2].
  now rewrite Hp1, Hq1, IH.
Qed.

Lemma match_blank_word_captured (q : ascii -> bool) (s w : string) (n : nat) :
  all_chars q s = true ->
  match_blank_word s = Some (w, n) -> captured q w.
Proof.
  intros Hq. unfold match_blank_word. cbv zeta.
  destruct (_ && _) eqn:Hc; [|discriminate]. intros [= <- _].
  apply andb_true_iff in Hc as [_ Hw]. apply Nat.ltb_lt in Hw. split.
  - intros He. rewrite He in Hw. simpl in Hw. lia.
  - apply all_chars_and; [apply take_while_all|].
    now apply all_chars_take_while, all_chars_drop_while.
Qed.

Lemma try_intro_captured (q : ascii -> bool) (alts : list string)
    (s w : string) (n : nat) :
  all_chars q s = true ->
  try_intro alts s = Some (w, n) -> captured q w.
Proof.
  intros Hq. induction alts as [|a alts IH]; simpl; [discriminate|].
  destruct (String.prefix a s); [|exact IH].
  destruct (match_blank_word _) as [[w0 n0]|] eqn:Hm; [|exact IH].
  intros [= <- _]. eapply match_blank_word_captured; [|exact Hm].
  now apply all_chars_drop.
Qed.

Lemma findall_intro_captured (q : ascii -> bool) (alts : list string)
    (s : string) :
  all_chars q s = true ->
  forall before skip w,
    In w (findall_intro alts before skip s) -> captured q w.
Proof.
  induction s as [|c s IH]; intros Hq before skip w; [contradiction|].
  assert (Hq' : all_chars q s = true).
  { simpl in Hq. now apply andb_true_iff in Hq as [_ Hq]. }
  cbn [findall_intro]. destruct skip as [|skip]; [|now apply IH].
  destruct (word_boundary before (Some c)); [|now apply IH].
  destruct (try_intro alts (String c s)) as [[w0 n0]|] eqn:Ht; [|now apply IH].
  intros [<-|Hin]; [|now apply IH in Hin].
  exact (try_intro_captured q alts _ _ _ Hq Ht).
Qed.

Lemma lower_char_not_upper (c : ascii) :
  negb (in_range 65 90 (lower_char c)) = true.
Proof. destruct c as [[] [] [] [] [] [] [] []]; reflexivity. Qed.

Lemma lower_not_upper (s : string) :
  all_chars (fun c => negb (in_range 65 90 c)) (lower s) = true.
Proof.
  induction s as [|c s IH]; simpl; [reflexivity|].
  now rewrite lower_char_not_upper, IH.
Qed.

Lemma all_chars_app (p : ascii -> bool) (a b : string) :
  all_chars p a = true -> all_chars p b = true ->
  all_chars p (a ++ b) = true.
Proof.
  induction a as [|c a IH]; simpl; [auto|]. intros Ha Hb.
  apply andb_true_iff in Ha as [Hc Ha]. now rewrite Hc, IH.
Qed.

Lemma replace_from_all_chars (p : ascii -> bool) (old new : string) (s : string) :
  all_chars p new = true ->
  all_chars p s = true ->
  forall skip, all_chars p (replace_from old new skip s) = true.
Proof.
  intros Hnew. induction s as [|c s IH]; intros Hs skip; [reflexivity|].
  simpl in Hs. apply andb_true_iff in Hs as [Hc Hs]. cbn [replace_from].
  destruct skip as [|skip]; [|now apply IH].
  destruct (String.prefix old (String c s)).
  - apply all_chars_app; [assumption | now apply IH].
  - simpl. now rewrite Hc, IH.
Qed.

Lemma prefix_all_chars (p : ascii -> bool) (a s : string) :
  String.prefix a s = true -> all_chars p s = true -> all_chars p a = true.
Proof.
  revert s. induction a as [|c a IH]; intros [|d s]; simpl; try discriminate;
    try reflexivity.
  unfold String.prefix; fold String.prefix.
  destruct (ascii_dec c d) as [->|]; [|discriminate].
  intros Hp Hs. apply andb_true_iff in Hs as [Hd Hs].
  rewrite Hd. simpl. eapply IH; eassumption.
Qed.

Lemma replace_absent (p : ascii -> bool) (old new s : string) :
  all_chars p old = false ->
  all_chars p s = true ->
  replace old new s = s.
Proof.
  intros Hold. unfold replace. induction s as [|c s IH]; intros Hs;
    [reflexivity|].
  cbn [replace_from].
  destruct (String.prefix old (String c s)) eqn:Hp.
  - pose proof (prefix_all_chars p _ _ Hp Hs). congruence.
  - simpl in Hs. apply andb_true_iff in Hs as [_ Hs]. now rewrite IH.
Qed.

Lemma all_chars_weaken (p q : ascii -> bool) (s : string) :
  (forall c, p c = true -> q c = true) ->
  all_chars p s = true -> all_chars q s = true.
Proof.
  intros H. induction s as [|c s IH]; simpl; [auto|]. intros Hs.
  apply andb_true_iff in Hs as [Hc Hs]. now rewrite (H c Hc), IH.
Qed.

Lemma to_set_In (n : string) (l : list string) : In n (to_set l) -> In n l.
Proof.
  intros H. apply mem_In in H. apply mem_set_update in H as [H|H];
    [assumption | discriminate].
Qed.

Lemma normalize_avoid_lower_word (a : string) :
  all_chars is_lower_word a = true ->
  all_chars is_lower_word (normalize_avoid a) = true.
Proof.
  intros H. unfold normalize_avoid, replace.
  repeat (apply replace_from_all_chars; [reflexivity|]). exact H.
Qed.

End PromptWords.

(** X18. For a prompt of ASCII characters, every requested colour and every
    forbidden colour the interpreter returns is a run of the lower-case
    letters a-z, digits and underscores (a requested colour is never
    empty): a hyphenated or capitalised colour name is never returned.
    Outside ASCII the property is not claimed: Python's [\w] and
    [str.lower] also know the letters of other scripts. *)
Theorem extracted_colors_are_lower_words (prompt : string) :
  is_ascii prompt = true ->
  Forall (fun w => w <> EmptyString /\ all_chars is_lower_word w = true)
    (Prompt.colors (Prompt.extract_prompt_requirements prompt))
  /\ Forall (fun w => all_chars is_lower_word w = true)
       (Prompt.avoid (Prompt.extract_prompt_requirements prompt)).
Proof.
  intros _. unfold Prompt.extract_prompt_requirements. cbv zeta. simpl. split.
  - apply List.Forall_forall. intros w Hw. apply PromptWords.to_set_In in Hw.
    eapply PromptWords.findall_intro_captured in Hw;
      [exact Hw | apply PromptWords.lower_not_upper].
  - apply List.Forall_forall. intros w Hw. apply PromptWords.to_set_In in Hw.
    apply in_map_iff in Hw as [a [<- Ha]].
    apply PromptWords.normalize_avoid_lower_word.
    eapply PromptWords.findall_intro_captured in Ha;
      [apply Ha | apply PromptWords.lower_not_upper].
Qed.

(** X19. The near-white rule for "off-white" never applies: a forbidden word
    is captured by [\w+] and holds no hyphen, so on every captured word the
    normalisation is the one of the four other rules. *)
Theorem off_white_rule_never_applies (prompt a : string) :
  In a (Regex.findall_intro Prompt.avoid_intro None 0 (Text.lower prompt)) ->
  Prompt.normalize_avoid a
  = Text.replace "beige" "white"
      (Text.replace "ivory" "white"
         (Text.replace "cream" "white" (Text.replace "offwhite" "white" a))).
Proof.
  intros Ha. unfold Prompt.normalize_avoid. do 3 f_equal.
  apply (PromptWords.replace_absent Text.is_word); [reflexivity|].
  apply PromptWords.replace_from_all_chars; [reflexivity|].
  eapply PromptWords.findall_intro_captured with (q := fun _ => true) in Ha;
    [|clear; induction (Text.lower prompt); simpl; auto].
  destruct Ha as [_ Ha]. eapply PromptWords.all_chars_weaken; [|exact Ha].
  intros c Hc. now apply andb_true_iff in Hc as [Hc _].
Qed.

Module PromptOccasions.
Import Text Regex Prompt.

Local Arguments contains : simpl never.

Lemma fold_mem_mono {A} (l : list A) (f : list string -> A -> list string)
    (n : string) :
  (forall e x, mem n e = true -> mem n (f e x) = true) ->
  forall e, mem n e = true -> mem n (fold_left f l e) = true.
Proof.
  intros Hf. induction l as [|x l IH]; intros e He; simpl; [assumption|].
  apply IH, Hf, He.
Qed.

Lemma fold_mem_elim {A} (l : list A) (f : list string -> A -> list string)
    (P : Prop) (n : string) :
  (forall e x, mem n (f e x) = true -> P \/ mem n e = true) ->
  forall e, mem n (fold_left f l e) = true -> P \/ mem n e = true.
Proof.
  intros Hf. induction l as [|x l IH]; intros e He; simpl in He; [auto|].
  apply IH in He as [He|He]; [auto|]. now apply Hf in He.
Qed.

Lemma set_add_mono (n x : string) (s : list string) :
  mem n s = true -> mem n (set_add x s) = true.
Proof. intros H. apply mem_set_add. now right. Qed.

Lemma expand_by_prompt_mono (p n : string) (e : list string) :
  mem n e = true -> mem n (expand_by_prompt p e) = true.
Proof.
  unfold expand_by_prompt. apply fold_mem_mono. intros e0 kv.
  apply fold_mem_mono. intros e1 syn H.
  destruct (contains syn p); [now apply set_add_mono | assumption].
Qed.

Lemma expand_by_occasion_mono (occs : list string) (n : string)
    (e : list string) :
  mem n e = true -> mem n (expand_by_occasion occs e) = true.
Proof.
  unfold expand_by_occasion. apply fold_mem_mono. intros e0 occ.
  apply fold_mem_mono. intros e1 kv H.
  destruct (mem occ (snd kv)); [now apply set_add_mono | assumption].
Qed.

Lemma add_substring_keys_mono (p n : string) (keys occs : list string) :
  In n occs ->
  In n (fold_left
          (fun occs k =>
             if negb (mem k occs) && contains k p then occs ++ [k] else occs)
          keys occs).
Proof.
  revert occs. induction keys as [|k keys IH]; intros occs H; simpl;
    [assumption|].
  apply IH. destruct (_ && _); [|assumption]. apply in_app_iff. now left.
Qed.

Lemma add_substring_keys_complete (p k : string) (keys occs : list string) :
  In k keys -> contains k p = true ->
  In k (fold_left
          (fun occs k =>
             if negb (mem k occs) && contains k p then occs ++ [k] else occs)
          keys occs).
Proof.
  revert occs. induction keys as [|k0 keys IH]; intros occs Hin Hc;
    [contradiction|].
  destruct Hin as [->|Hin]; simpl.
  - apply add_substring_keys_mono. rewrite Hc, andb_true_r.
    destruct (mem k occs) eqn:Hm; simpl.
    + now apply mem_In.
    + apply in_app_iff. right. now left.
  - now apply IH.
Qed.

Lemma expand_by_prompt_alias (p syn : string) (kv : string * list string)
    (table : list (string * list string)) (e : list string) :
  In kv table -> In syn (snd kv) -> contains syn p = true ->
  mem (fst kv)
    (fold_left
       (fun e kv =>
          fold_left (fun e syn => if contains syn p then set_add (fst kv) e else e)
                    (snd kv) e)
       table e) = true.
Proof.
  intros Hkv Hsyn Hc. revert e.
  induction table as [|kv0 table IH]; intros e; [contradiction|].
  destruct Hkv as [->|Hkv]; simpl; [|now apply IH].
  apply fold_mem_mono.
  - intros e0 kv1. apply fold_mem_mono. intros e1 syn1 H.
    destruct (contains syn1 p); [now apply set_add_mono | assumption].
  - clear IH. revert e. induction (snd kv) as [|s v IHv]; intros e;
      [contradiction|].
    destruct Hsyn as [->|Hsyn]; simpl; [|now apply IHv].
    apply fold_mem_mono.
    + intros e1 syn1 H.
      destruct (contains syn1 p); [now apply set_add_mono | assumption].
    + rewrite Hc. apply mem_set_add. now left.
Qed.

(** Everything that puts an occasion into the set. *)
Lemma expanded_occasions_intro (p n : string) :
  (In n (map fst OCCASION_STYLES) /\ contains n p = true)
  \/ (exists kv syn,
        In kv OCCASION_SYNONYMS /\ In syn (snd kv)
        /\ contains syn p = true /\ n = fst kv)
  \/ (force_ethnic p || force_ethnic_general p = true
      /\ In n ["ethnic day"; "ethnic"; "traditional"]) ->
  mem n (expanded_occasions p) = true.
Proof.
  intros H. unfold expanded_occasions. cbv zeta.
  match goal with |- context [expand_by_occasion ?o ?e] =>
    set (occs := o); set (e1 := e) end.
  set (e2 := expand_by_occasion occs e1).
  match goal with |- context [is_empty ?e] => set (e3 := e) end.
  assert (H3 : mem n e3 = true).
  { subst e3.
    destruct H as [[Hk Hc]|[[kv [syn [Hkv [Hsyn [Hc ->]]]]]|[Hf Hn]]].
    - assert (mem n e2 = true).
      { apply expand_by_occasion_mono, expand_by_prompt_mono.
        apply PromptMore.mem_set_update_intro. left.
        now apply add_substring_keys_complete. }
      destruct (_ || _); [|assumption].
      apply PromptMore.mem_set_update_intro. now right.
    - assert (mem (fst kv) e2 = true).
      { apply expand_by_occasion_mono. subst e1.
        now apply (expand_by_prompt_alias p syn kv). }
      destruct (_ || _); [|assumption].
      apply PromptMore.mem_set_update_intro. now right.
    - rewrite Hf. apply PromptMore.mem_set_update_intro. now left. }
  clearbody e3. destruct e3 as [|x e3]; [cbn in H3; discriminate | exact H3].
Qed.

Lemma expanded_in_occasions (prompt n : string) :
  mem n (expanded_occasions (normalized prompt)) = true ->
  In n (occasions (extract_prompt_requirements prompt)).
Proof.
  intros H. unfold extract_prompt_requirements. cbv zeta. cbn [occasions].
  fold (normalized prompt).
  destruct (expanded_occasions (normalized prompt)); [discriminate|].
  now apply mem_In.
Qed.

Lemma alias_loop_elim (occ n : string) (table : list (string * list string))
    (e : list string) :
  mem n (fold_left
           (fun e kv => if mem occ (snd kv) then set_add (fst kv) e else e)
           table e) = true ->
  In n (map fst table) \/ mem n e = true.
Proof.
  revert e. induction table as [|kv table IHt]; intros e He; simpl in *; [auto|].
  apply IHt in He as [He|He]; [tauto|].
  destruct (mem occ (snd kv)); [|auto].
  apply mem_set_add in He as [->|He]; auto.
Qed.

Lemma expand_by_occasion_elim (occs e : list string) (n : string) :
  mem n (expand_by_occasion occs e) = true ->
  In n (map fst OCCASION_SYNONYMS) \/ mem n e = true.
Proof.
  unfold expand_by_occasion. apply fold_mem_elim. intros e0 occ.
  apply alias_loop_elim.
Qed.

Lemma synonym_loop_elim (p n canonical : string) (syns e : list string) :
  mem n (fold_left
           (fun e syn => if contains syn p then set_add canonical e else e)
           syns e) = true ->
  n = canonical \/ mem n e = true.
Proof.
  revert e. induction syns as [|syn syns IH]; intros e He; simpl in *; [auto|].
  apply IH in He as [He|He]; [auto|].
  destruct (contains syn p); [|auto]. now apply mem_set_add in He.
Qed.

Lemma prompt_loop_elim (p n : string) (table : list (string * list string))
    (e : list string) :
  mem n (fold_left
           (fun e kv =>
              fold_left
                (fun e syn => if contains syn p then set_add (fst kv) e else e)
                (snd kv) e)
           table e) = true ->
  In n (map fst table) \/ mem n e = true.
Proof.
  revert e. induction table as [|kv table IHt]; intros e He; simpl in *; [auto|].
  apply IHt in He as [He|He]; [tauto|].
  apply synonym_loop_elim in He as [->|He]; auto.
Qed.

Lemma expand_by_prompt_elim (p n : string) (e : list string) :
  mem n (expand_by_prompt p e) = true ->
  In n (map fst OCCASION_SYNONYMS) \/ mem n e = true.
Proof. unfold expand_by_prompt. apply prompt_loop_elim. Qed.

Lemma add_substring_keys_elim (p : string) (keys occs0 : list string) :
  (forall k, In k occs0 -> In k (map fst OCCASION_STYLES) /\ contains k p = true) ->
  (forall k, In k keys -> In k (map fst OCCASION_STYLES)) ->
  forall k,
    In k (fold_left
            (fun occs k =>
               if negb (mem k occs) && contains k p then occs ++ [k] else occs)
            keys occs0) ->
    In k (map fst OCCASION_STYLES) /\ contains k p = true.
Proof.
  revert occs0.
  induction keys as [|k0 keys IHk]; intros occs0 Hoccs Hkeys k Hk; simpl in Hk;
    [now apply Hoccs|].
  apply IHk in Hk; [assumption| |intros; apply Hkeys; now right].
  intros k1 Hk1. destruct (negb (mem k0 occs0) && contains k0 p) eqn:Hc;
    [|now apply Hoccs].
  apply in_app_iff in Hk1 as [Hk1|[<-|[]]]; [now apply Hoccs|].
  apply andb_true_iff in Hc as [_ Hc]. split; [|assumption].
  apply Hkeys. now left.
Qed.

Lemma default_step_elim (p n : string) (e : list string) :
  mem n (if is_empty e
         then if outing_like p then set_add "casual" e else e
         else e) = true ->
  n = "casual" \/ mem n e = true.
Proof.
  intros H. destruct (is_empty e); [|now right].
  destruct (outing_like p); [|now right].
  now apply mem_set_add in H.
Qed.

Lemma ethnic_step_elim (p n : string) (e : list string) :
  mem n (if force_ethnic p || force_ethnic_general p
         then set_update ["ethnic day"; "ethnic"; "traditional"] e
         else e) = true ->
  In n ["ethnic day"; "ethnic"; "traditional"] \/ mem n e = true.
Proof.
  intros H. destruct (force_ethnic p || force_ethnic_general p); [|now right].
  now apply mem_set_update in H.
Qed.

Lemma matched_keys_elim (p n : string) :
  mem n (to_set
           (add_substring_keys p
              (findall_key (map fst OCCASION_STYLES) None 0 p))) = true ->
  In n (map fst OCCASION_STYLES) /\ contains n p = true.
Proof.
  intros H. apply mem_In, PromptWords.to_set_In in H.
  revert n H. unfold add_substring_keys.
  apply add_substring_keys_elim.
  - intros k Hk. now apply PromptFacts.findall_key_found in Hk.
  - intros k Hk. exact Hk.
Qed.

(** Everything an occasion of the set can be. *)
Lemma expanded_occasions_elim (p n : string) :
  mem n (expanded_occasions p) = true ->
  (In n (map fst OCCASION_STYLES) /\ contains n p = true)
  \/ In n (map fst OCCASION_SYNONYMS)
  \/ In n ["ethnic day"; "ethnic"; "traditional"]
  \/ n = "casual".
Proof.
  intros H. unfold expanded_occasions in H. cbv zeta in H.
  apply default_step_elim in H as [H|H]; [tauto|].
  apply ethnic_step_elim in H as [H|H]; [tauto|].
  apply expand_by_occasion_elim in H as [H|H]; [tauto|].
  apply expand_by_prompt_elim in H as [H|H]; [tauto|].
  left. now apply matched_keys_elim.
Qed.

End PromptOccasions.

(** X20. Every occasion key of the table that occurs in the lower-cased,
    swim-normalised prompt is among the returned occasions, whether or not
    it stands at word boundaries. *)
Theorem occurring_key_is_occasion (prompt k : string) :
  In k (map fst OCCASION_STYLES) ->
  Text.contains k (Prompt.normalized prompt) = true ->
  In k (Prompt.occasions (Prompt.extract_prompt_requirements prompt)).
Proof.
  intros Hk Hc. apply PromptOccasions.expanded_in_occasions.
  apply PromptOccasions.expanded_occasions_intro. auto.
Qed.

(** X21. When an alias of the synonym table occurs in the prompt, the
    canonical occasion it belongs to is among the returned occasions. *)
Theorem alias_gives_canonical_occasion (prompt canonical alias : string)
    (aliases : list string) :
  In (canonical, aliases) OCCASION_SYNONYMS ->
  In alias aliases ->
  Text.contains alias (Prompt.normalized prompt) = true ->
  In canonical (Prompt.occasions (Prompt.extract_prompt_requirements prompt)).
Proof.
  intros Hkv Ha Hc. apply PromptOccasions.expanded_in_occasions.
  apply PromptOccasions.expanded_occasions_intro. right. left.
  exists (canonical, aliases), alias. auto.
Qed.

(** X22. A prompt that contains "ethnic", "traditional" or "cultural"
    anywhere, also inside another word, resolves to the occasions
    "ethnic day", "ethnic" and "traditional", whatever else it matches. *)
Theorem ethnic_words_force_occasions (prompt : string) :
  Prompt.force_ethnic_general (Prompt.normalized prompt) = true ->
  incl ["ethnic day"; "ethnic"; "traditional"]
    (Prompt.occasions (Prompt.extract_prompt_requirements prompt)).
Proof.
  intros Hf n Hn. apply PromptOccasions.expanded_in_occasions.
  apply PromptOccasions.expanded_occasions_intro. right. right.
  rewrite Hf, orb_true_r. auto.
Qed.

(** X23. Nothing else becomes an occasion: every returned occasion is a key
    of the occasion table that occurs in the prompt, a canonical name of the
    synonym table, one of the three forced ethnic occasions, "casual" or
    "general". *)
Theorem occasions_are_known (prompt n : string) :
  In n (Prompt.occasions (Prompt.extract_prompt_requirements prompt)) ->
  (In n (map fst OCCASION_STYLES)
   /\ Text.contains n (Prompt.normalized prompt) = true)
  \/ In n (map fst OCCASION_SYNONYMS)
  \/ In n ["ethnic day"; "ethnic"; "traditional"]
  \/ n = "casual" \/ n = "general".
Proof.
  unfold Prompt.extract_prompt_requirements. cbv zeta. cbn [Prompt.occasions].
  fold (Prompt.normalized prompt).
  destruct (Prompt.expanded_occasions (Prompt.normalized prompt)) as [|x l] eqn:He.
  - simpl. intros [<-|[]]. tauto.
  - cbn [Prompt.is_empty]. intros Hin. apply mem_In in Hin. rewrite <- He in Hin.
    apply PromptOccasions.expanded_occasions_elim in Hin. tauto.
Qed.

(** ** Style tags *)

Lemma styles_get_swimming (table : list (string * list string)) (occ : string) :
  forallb (fun kv => negb (Text.mem "swimming" (snd kv))) table = true ->
  Text.mem "swimming" (styles_get table occ) = true -> occ = "swimming".
Proof.
  induction table as [|[k v] table IH]; simpl.
  - intros _ H. rewrite orb_false_r in H. symmetry. now apply String.eqb_eq.
  - intros Ht. apply andb_true_iff in Ht as [Hv Ht].
    destruct (String.eqb k occ); [|now apply IH].
    intros H. rewrite H in Hv. discriminate.
Qed.

(** X24. "swimming" is a style tag only when it is an occasion: no entry of
    the occasion table lists it as a style.  The second half of the test
    that opens the swimming branch never decides. *)
Theorem swimming_style_iff_occasion (occasions : list string) :
  is_swimming occasions (style_tags_of occasions)
  = Text.mem "swimming" occasions.
Proof.
  unfold is_swimming, style_tags_of. rewrite mem_set_update_bool.
  destruct (Text.mem "swimming" occasions) eqn:Hm; [reflexivity|]. simpl.
  assert (H : forall occs st,
            Text.mem "swimming" st = false ->
            Text.mem "swimming" occs = false ->
            Text.mem "swimming"
              (fold_left
                 (fun st occ => Text.set_update (styles_get OCCASION_STYLES occ) st)
                 occs st) = false).
  { induction occs as [|occ occs IH]; intros st Hst Hoccs; cbn [fold_left];
      [assumption|].
    assert (Ho : occ <> "swimming").
    { intros ->. rewrite (proj2 (mem_In _ _)) in Hoccs; [discriminate|now left]. }
    assert (Hoccs' : Text.mem "swimming" occs = false).
    { destruct (Text.mem "swimming" occs) eqn:E; [|reflexivity].
      apply mem_In in E.
      rewrite (proj2 (mem_In "swimming" (occ :: occs))) in Hoccs;
        [discriminate|now right]. }
    apply IH; [|assumption]. rewrite mem_set_update_bool, Hst, orb_false_r.
    destruct (Text.mem "swimming" (styles_get OCCASION_STYLES occ)) eqn:Hs;
      [|reflexivity].
    apply styles_get_swimming in Hs; [|vm_compute; reflexivity].
    contradiction. }
  now apply H.
Qed.

(** ** The colour matcher *)

Section ColorFacts.

Variable near : RGB -> RGB -> bool.

(** X25. A forbidden colour always wins: an item with a colour tag within
    the threshold of a forbidden colour is rejected whatever colours are
    requested, also when one of its tags matches a requested colour. *)
Theorem forbidden_color_wins (x : WardrobeItem)
    (requested_colors forbidden_colors : list string) :
  wears_forbidden near forbidden_colors x = true ->
  _color_match near (tags x) requested_colors forbidden_colors = false.
Proof.
  intros H. unfold _color_match, wears_forbidden in *. cbv zeta.
  rewrite existsb_filter. now rewrite H.
Qed.

(** X26. An item without a colour tag is never rejected for a forbidden
    colour and never matches a requested colour: it is accepted exactly when
    no colour is requested. *)
Theorem colorless_item_match (item_tags requested_colors forbidden_colors
    : list string) :
  (forall tag, In tag item_tags -> Text.mem tag color_terms = false) ->
  _color_match near item_tags requested_colors forbidden_colors
  = negb (nonempty requested_colors).
Proof.
  intros H. unfold _color_match. cbv zeta.
  assert (Hnil : List.filter (fun tag => Text.mem tag color_terms) item_tags = []).
  { induction item_tags as [|t l IH]; cbn [List.filter]; [reflexivity|].
    rewrite (H t (or_introl eq_refl)). apply IH. intros tag Ht. apply H.
    now right. }
  rewrite Hnil. cbn [existsb].
  destruct (nonempty requested_colors); [|reflexivity]. cbn [negb].
  induction requested_colors as [|rc l IH]; cbn [existsb orb];
    [reflexivity | exact IH].
Qed.

Hypothesis near_refl : forall c, near c c = true.

Lemma to_rgb_unknown (color : string) :
  Text.mem color (map fst css_colors) = false ->
  to_rgb color = (128, 128, 128).
Proof.
  unfold to_rgb. induction css_colors as [|[k v] table IH]; simpl;
    [reflexivity|].
  intros H. apply orb_false_iff in H as [Hk H].
  rewrite String.eqb_sym, Hk. now apply IH.
Qed.

(** X27. A forbidden word that is not one of the thirteen named colours is
    read as gray: it rejects every item tagged gray, cream, ivory, offwhite
    or beige (the last four have no entry in the colour table either),
    whatever the word is. *)
Theorem unknown_forbidden_word_is_gray (item_tags requested_colors
    forbidden_colors : list string) (word tag : string) :
  In word forbidden_colors ->
  Text.mem word (map fst css_colors) = false ->
  In tag item_tags ->
  In tag ["gray"; "cream"; "ivory"; "offwhite"; "beige"] ->
  _color_match near item_tags requested_colors forbidden_colors = false.
Proof.
  intros Hw Hu Ht Hg. unfold _color_match. cbv zeta.
  assert (Hex : existsb
                  (fun tag =>
                     existsb (fun fc => _color_distance_below_15 near tag fc)
                       forbidden_colors)
                  (List.filter (fun tag => Text.mem tag color_terms) item_tags)
                = true).
  { apply existsb_exists. exists tag. split.
    - apply filter_In. split; [assumption|].
      simpl in Hg. destruct Hg as [<-|[<-|[<-|[<-|[<-|[]]]]]]; reflexivity.
    - apply existsb_exists. exists word. split; [assumption|].
      unfold _color_distance_below_15. rewrite (to_rgb_unknown word Hu).
      replace (to_rgb tag) with (128, 128, 128); [apply near_refl|].
      simpl in Hg. destruct Hg as [<-|[<-|[<-|[<-|[<-|[]]]]]]; reflexivity. }
  now rewrite Hex.
Qed.

(** X28. A requested colour that an item carries as a tag matches, unless
    the item wears a forbidden colour. *)
Theorem requested_tag_matches (x : WardrobeItem)
    (requested_colors forbidden_colors : list string) (color : string) :
  In color requested_colors ->
  In color (tags x) ->
  Text.mem color color_terms = true ->
  wears_forbidden near forbidden_colors x = false ->
  _color_match near (tags x) requested_colors forbidden_colors = true.
Proof.
  intros Hr Ht Hc Hf. unfold _color_match. cbv zeta.
  unfold wears_forbidden in Hf. rewrite existsb_filter, Hf.
  destruct requested_colors as [|rc rcs]; [contradiction|]. cbn [nonempty].
  apply existsb_exists. exists color. split; [assumption|].
  apply existsb_exists. exists color. split.
  - apply filter_In. auto.
  - apply near_refl.
Qed.

End ColorFacts.

(** ** [_filter_items] *)

(** X29. Requesting or forbidding colours never empties the result of
    [_filter_items] and never adds to it: the result is part of the result
    without colours, and it is empty only when that one is. *)
Theorem _filter_items_color_fallback (near : RGB -> RGB -> bool)
    (wardrobe_db : list WardrobeItem) (profile : UserProfile)
    (occasions colors avoid_colors : list string) :
  incl (_filter_items near wardrobe_db profile occasions colors avoid_colors)
       (_filter_items near wardrobe_db profile occasions [] [])
  /\ (_filter_items near wardrobe_db profile occasions colors avoid_colors = []
      <-> _filter_items near wardrobe_db profile occasions [] [] = []).
Proof.
  unfold _filter_items. cbv zeta. cbn [nonempty].
  match goal with |- context [List.filter ?f (_filter_by_profile ?d ?p)] =>
    set (filtered := List.filter f (_filter_by_profile d p)) end.
  destruct (nonempty colors); [|split; [apply incl_refl | tauto]].
  destruct (List.filter _ filtered) as [|y l] eqn:Hf.
  - simpl. split; [apply incl_refl | tauto].
  - cbn [nonempty]. split.
    + intros z Hz. rewrite <- Hf in Hz. now apply filter_In in Hz.
    + split; [discriminate|]. intros He. rewrite He in Hf. discriminate.
Qed.

(** * The further properties at concrete inputs *)

Lemma register_then_authenticate_witness :
  match register_user Sample2.plain_hash Sample2.users "bob" "pw" None with
  | inr USER_DB' =>
      authenticate_user Sample2.plain_hash USER_DB' "bob" "pw" = true
      /\ get_user_preferences USER_DB' "bob" = inr default_preferences
  | inl _ => False
  end.
Proof.
  destruct (register_user Sample2.plain_hash Sample2.users "bob" "pw" None)
    as [e|db'] eqn:Hreg.
  - vm_compute in Hreg. discriminate.
  - exact (register_then_authenticate Sample2.plain_hash Sample2.users db'
             "bob" "pw" None Hreg).
Defined.

Lemma set_user_preferences_registered_witness :
  is_Some (Sample2.users !! "ann")
  /\ get_user_preferences
       (set_user_preferences Sample2.users "ann" Sample2.teen_prefs) "ann"
     = inr Sample2.teen_prefs.
Proof.
  assert (H : is_Some (Sample2.users !! "ann"))
    by (exists Sample2.ann; vm_compute; reflexivity).
  split; [exact H|].
  exact (proj1 (set_user_preferences_registered Sample2.plain_hash
                  Sample2.users "ann" Sample2.teen_prefs H)).
Defined.

Lemma password_hash_kept_witness :
  Sample2.users !! "ann" = Some Sample2.ann
  /\ password_hash
       <$> set_user_preferences Sample2.users "ann" Sample2.teen_prefs !! "ann"
     = Some (password_hash Sample2.ann).
Proof.
  assert (H : Sample2.users !! "ann" = Some Sample2.ann)
    by (vm_compute; reflexivity).
  split; [exact H|].
  exact (proj2 (password_hash_kept Sample2.plain_hash Sample2.users "ann" "x"
                  Sample2.teen_prefs "ann" Sample2.ann H)).
Defined.

Lemma load_defaults_eligible_witness :
  In Sample2.bare_record Sample2.records
  /\ In (load_item Sample2.bare_record)
        (_filter_by_profile (load_wardrobe Sample2.records) Sample2.teen_prefs).
Proof.
  assert (H : In Sample2.bare_record Sample2.records) by (left; reflexivity).
  split; [exact H|].
  exact (load_defaults_eligible Sample2.records Sample2.bare_record
           Sample2.teen_prefs H eq_refl eq_refl).
Defined.

Lemma returned_items_categories_witness :
  match
    recommend_outfits same_rgb Sample.users Sample.wardrobe Sample.june_noon
      "something cold" "ann" Sample.seed
  with
  | (inr res, _) =>
      Forall (fun x => In (category x) outfit_categories) (returned_items res)
  | (inl _, _) => False
  end.
Proof.
  destruct (recommend_outfits same_rgb Sample.users Sample.wardrobe
              Sample.june_noon "something cold" "ann" Sample.seed)
    as [[e|res] rng'] eqn:Hrun.
  - vm_compute in Hrun. discriminate.
  - exact (returned_items_categories same_rgb Sample.users Sample.wardrobe
             Sample.june_noon "something cold" "ann" Sample.seed rng' res Hrun).
Defined.

Lemma uncategorized_never_recommended_witness :
  match
    recommend_outfits same_rgb Sample.users (load_wardrobe Sample2.records)
      Sample.june_noon "picnic" "ann" Sample.seed
  with
  | (inr res, _) => ~ In (load_item Sample2.bare_record) (returned_items res)
  | (inl _, _) => False
  end.
Proof.
  destruct (recommend_outfits same_rgb Sample.users
              (load_wardrobe Sample2.records) Sample.june_noon "picnic" "ann"
              Sample.seed) as [[e|res] rng'] eqn:Hrun.
  - vm_compute in Hrun. discriminate.
  - exact (uncategorized_never_recommended same_rgb Sample.users Sample2.records
             Sample.june_noon "picnic" "ann" Sample.seed rng' res
             Sample2.bare_record Hrun eq_refl).
Defined.

Lemma three_outfits_without_colors_witness :
  match
    recommend_outfits same_rgb Sample.users (load_wardrobe Sample2.records)
      Sample.june_noon "picnic" "ann" Sample.seed
  with
  | (inr res, _) => length (outfits res) = 3
  | (inl _, _) => False
  end.
Proof.
  destruct (recommend_outfits same_rgb Sample.users
              (load_wardrobe Sample2.records) Sample.june_noon "picnic" "ann"
              Sample.seed) as [[e|res] rng'] eqn:Hrun.
  - vm_compute in Hrun. discriminate.
  - apply (three_outfits_without_colors same_rgb Sample.users
             (load_wardrobe Sample2.records) Sample.june_noon "picnic" "ann"
             Sample.seed rng' res); [vm_compute; reflexivity | exact Hrun].
Defined.

Lemma swimming_prompt_returns_witness :
  exists res,
    recommend_outfits same_rgb Sample.users Sample.swimsuits Sample.june_noon
      "swimming in blue" "ann" Sample.seed
    = (inr res, Sample.seed)
    /\ length (outfits res) = 3.
Proof.
  destruct (swimming_prompt_returns same_rgb Sample.users Sample.swimsuits
              Sample.june_noon "swimming in blue" "ann" Sample.ann Sample.seed)
    as [res [Hrun Hlen]].
  - vm_compute. reflexivity.
  - vm_compute. reflexivity.
  - exists res. split; [exact Hrun|]. rewrite Hlen. vm_compute. reflexivity.
Defined.

Lemma everyday_prompt_returns_three_witness :
  exists res rng',
    recommend_outfits same_rgb Sample.users (load_wardrobe Sample2.records)
      Sample.june_noon "picnic" "ann" Sample.seed
    = (inr res, rng')
    /\ length (outfits res) = 3.
Proof.
  apply (everyday_prompt_returns_three same_rgb Sample.users
           (load_wardrobe Sample2.records) Sample.june_noon "picnic" "ann"
           Sample.ann Sample.seed); vm_compute; reflexivity.
Defined.

Lemma active_prompt_outfits_witness :
  snd (recommend_outfits same_rgb Sample.users (load_wardrobe Sample2.records)
         Sample.june_noon "gym" "ann" Sample.seed) = Sample.seed
  /\ match
       fst (recommend_outfits same_rgb Sample.users
              (load_wardrobe Sample2.records) Sample.june_noon "gym" "ann"
              Sample.seed)
     with
     | inl e => e = ZeroDivisionError
     | inr res =>
         length (outfits res) = 3
         /\ Forall
              (active_outfit
                 (style_tags_of
                    (Prompt.occasions (Prompt.extract_prompt_requirements "gym"))))
              (outfits res)
     end.
Proof.
  apply (active_prompt_outfits same_rgb Sample.users
           (load_wardrobe Sample2.records) Sample.june_noon "gym" "ann"
           Sample.ann Sample.seed); vm_compute; reflexivity.
Defined.

Lemma extracted_colors_are_lower_words_witness :
  is_ascii "Wearing Navy_2 but no Off-White" = true
  /\ Prompt.colors
       (Prompt.extract_prompt_requirements "Wearing Navy_2 but no Off-White")
     = ["navy_2"]
  /\ Forall (fun w => w <> EmptyString /\ all_chars is_lower_word w = true)
       (Prompt.colors
          (Prompt.extract_prompt_requirements "Wearing Navy_2 but no Off-White"))
  /\ Forall (fun w => all_chars is_lower_word w = true)
       (Prompt.avoid
          (Prompt.extract_prompt_requirements "Wearing Navy_2 but no Off-White")).
Proof.
  split; [vm_compute; reflexivity|]. split; [vm_compute; reflexivity|].
  apply (extracted_colors_are_lower_words "Wearing Navy_2 but no Off-White").
  vm_compute. reflexivity.
Defined.

Lemma off_white_rule_never_applies_witness :
  In "off"
     (Regex.findall_intro Prompt.avoid_intro None 0
        (Text.lower "Avoid off-white"))
  /\ Prompt.normalize_avoid "off" = "off".
Proof.
  assert (H : In "off"
                (Regex.findall_intro Prompt.avoid_intro None 0
                   (Text.lower "Avoid off-white")))
    by (vm_compute; left; reflexivity).
  split; [exact H|].
  exact (off_white_rule_never_applies "Avoid off-white" "off" H).
Defined.

Lemma occurring_key_is_occasion_witness :
  Text.contains "party" (Prompt.normalized "afterparty at nine") = true
  /\ In "party"
        (Prompt.occasions
           (Prompt.extract_prompt_requirements "afterparty at nine")).
Proof.
  split; [vm_compute; reflexivity|].
  apply (occurring_key_is_occasion "afterparty at nine" "party");
    [vm_compute; tauto | vm_compute; reflexivity].
Defined.

Lemma alias_gives_canonical_occasion_witness :
  Text.contains "mall" (Prompt.normalized "A trip to the Mall") = true
  /\ In "shopping"
        (Prompt.occasions
           (Prompt.extract_prompt_requirements "A trip to the Mall")).
Proof.
  split; [vm_compute; reflexivity|].
  apply (alias_gives_canonical_occasion "A trip to the Mall" "shopping" "mall"
           ["mall"; "buying clothes"; "store visit"]);
    [vm_compute; tauto | left; reflexivity | vm_compute; reflexivity].
Defined.

Lemma ethnic_words_force_occasions_witness :
  Prompt.force_ethnic_general (Prompt.normalized "a multicultural fair") = true
  /\ incl ["ethnic day"; "ethnic"; "traditional"]
       (Prompt.occasions
          (Prompt.extract_prompt_requirements "a multicultural fair")).
Proof.
  split; [vm_compute; reflexivity|].
  apply (ethnic_words_force_occasions "a multicultural fair").
  vm_compute. reflexivity.
Defined.

Lemma occasions_are_known_witness :
  In "gym" (Prompt.occasions (Prompt.extract_prompt_requirements "Gym day"))
  /\ ((In "gym" (map fst OCCASION_STYLES)
       /\ Text.contains "gym" (Prompt.normalized "Gym day") = true)
      \/ In "gym" (map fst OCCASION_SYNONYMS)
      \/ In "gym" ["ethnic day"; "ethnic"; "traditional"]
      \/ "gym" = "casual" \/ "gym" = "general").
Proof.
  assert (H : In "gym"
                (Prompt.occasions (Prompt.extract_prompt_requirements "Gym day")))
    by (vm_compute; left; reflexivity).
  split; [exact H|].
  exact (occasions_are_known "Gym day" "gym" H).
Defined.

Lemma forbidden_color_wins_witness :
  wears_forbidden same_rgb ["black"] Sample.black_swimsuit = true
  /\ _color_match same_rgb (tags Sample.black_swimsuit) ["black"] ["black"]
     = false.
Proof.
  split; [vm_compute; reflexivity|].
  apply (forbidden_color_wins same_rgb Sample.black_swimsuit ["black"] ["black"]).
  vm_compute. reflexivity.
Defined.

Lemma colorless_item_match_witness :
  _color_match same_rgb ["casual"; "party"] ["red"] ["black"] = false.
Proof.
  apply (colorless_item_match same_rgb ["casual"; "party"] ["red"] ["black"]).
  intros tag [<-|[<-|[]]]; reflexivity.
Defined.

Lemma unknown_forbidden_word_is_gray_witness :
  In "sleeves" (Prompt.avoid (Prompt.extract_prompt_requirements "no sleeves"))
  /\ _color_match same_rgb ["casual"; "gray"] []
       (Prompt.avoid (Prompt.extract_prompt_requirements "no sleeves"))
     = false.
Proof.
  assert (H : In "sleeves"
                (Prompt.avoid (Prompt.extract_prompt_requirements "no sleeves")))
    by (vm_compute; left; reflexivity).
  split; [exact H|].
  apply (unknown_forbidden_word_is_gray same_rgb same_rgb_refl
           ["casual"; "gray"] [] _ "sleeves" "gray" H).
  - vm_compute. reflexivity.
  - right. left. reflexivity.
  - left. reflexivity.
Defined.

Lemma requested_tag_matches_witness :
  _color_match same_rgb (tags Sample.black_swimsuit) ["black"] ["white"] = true.
Proof.
  apply (requested_tag_matches same_rgb same_rgb_refl Sample.black_swimsuit
           ["black"] ["white"] "black").
  - left. reflexivity.
  - left. reflexivity.
  - reflexivity.
  - vm_compute. reflexivity.
Defined.
